(** * TradingVolumeMonitor: the sliding-window cache and ranking engine

    A shallow embedding of [rank_maintainer.py]: the bar record [KLine],
    the per-symbol window [KLines] with its update and windowed average,
    the tracked-symbol resolver and the two ranking passes of
    [RankMaintainer], followed by the properties of the design document
    checked against them. *)

From Stdlib Require Import ZArith QArith List Lia Bool String Ascii.
From Stdlib Require Import Sorting.Permutation Sorting.Sorted.
From stdpp Require Import base option list gmap strings pretty.

Local Open Scope Z_scope.

(** ** Exceptions and results *)

(** The exceptions the modelled code can raise.  [ClientError] stands for
    whatever the exchange client raises when a request fails. *)
Inductive exn :=
| AssertionError (msg : string)
| KeyError (key : string)
| IndexError
| ValueError
| TypeError
| ZeroDivisionError
| OverflowError
| ClientError (code : Z).

Inductive result (A : Type) :=
| Ok (a : A)
| Raise (e : exn).
Arguments Ok {A} a.
Arguments Raise {A} e.

#[global] Instance result_ret : MRet result := @Ok.
#[global] Instance result_bind : MBind result := λ A B f m,
  match m with
  | Ok a => f a
  | Raise e => Raise e
  end.

Definition is_ok {A} (r : result A) : bool :=
  match r with Ok _ => true | Raise _ => false end.

(** [assert cond, msg] *)
Definition py_assert (cond : bool) (msg : string) : result unit :=
  if cond then Ok tt else Raise (AssertionError msg).

(** ** The numeric runtime

    Python floats are kept abstract: the development only needs the
    operations the program applies to them.  [of_Z] is the conversion of an
    int to a float, [zdiv] the true division of two ints, [ftrunc] is
    [int(x)] on a float, the [_of_str] functions are [float(s)] and [int(s)]
    on a string ([None] where Python raises [ValueError]).  The ints the
    program converts (times, counts, window sizes) are far inside the range
    of the floats, so [of_Z] has no failure case. *)
Class PyFloat := {
  num : Type;
  of_Z : Z → num;
  fadd : num → num → num;
  fsub : num → num → num;
  fdiv : num → num → num;
  zdiv : Z → Z → num;
  feqb : num → num → bool;
  fltb : num → num → bool;
  ftrunc : num → result Z;
  float_of_str : string → option num;
  int_of_str : string → option Z;
  str_of_float : num → string;
  str_of_int : Z → string
}.

Section Model.
Context `{PyFloat}.

(** A scalar of a decoded JSON row. *)
Inductive pyval :=
| PyNone
| PyInt (z : Z)
| PyFloatV (f : num)
| PyStr (s : string).

(** A Python number as the accumulators of the averaging loop hold it: they
    start as the int [0] and become floats once a float is added. *)
Inductive pynum :=
| PInt (z : Z)
| PFloat (f : num).

Definition to_float (a : pynum) : num :=
  match a with PInt z => of_Z z | PFloat f => f end.

(** [a + b] *)
Definition py_add (a b : pynum) : pynum :=
  match a, b with
  | PInt x, PInt y => PInt (x + y)
  | _, _ => PFloat (fadd (to_float a) (to_float b))
  end.

(** [a / b] for an int [b] *)
Definition py_truediv (a : pynum) (b : Z) : result num :=
  if b =? 0 then Raise ZeroDivisionError
  else Ok match a with
          | PInt z => zdiv z b
          | PFloat f => fdiv f (of_Z b)
          end.

(** [a < b], the only comparison [sorted] uses *)
Definition py_ltb (a b : pynum) : bool :=
  match a, b with
  | PInt x, PInt y => x <? y
  | _, _ => fltb (to_float a) (to_float b)
  end.

(** [int(v)] *)
Definition py_int (v : pyval) : result Z :=
  match v with
  | PyNone => Raise TypeError
  | PyInt z => Ok z
  | PyFloatV f => ftrunc f
  | PyStr s => match int_of_str s with Some z => Ok z | None => Raise ValueError end
  end.

(** [float(v)] *)
Definition py_float (v : pyval) : result num :=
  match v with
  | PyNone => Raise TypeError
  | PyInt z => Ok (of_Z z)
  | PyFloatV f => Ok f
  | PyStr s => match float_of_str s with Some f => Ok f | None => Raise ValueError end
  end.

(** [str(v)] *)
Definition py_str (v : pyval) : string :=
  match v with
  | PyNone => "None"
  | PyInt z => str_of_int z
  | PyFloatV f => str_of_float f
  | PyStr s => s
  end.

(** ** Python lists *)

(** The position a (possibly negative) index addresses in a list of length
    [n]; [None] when out of range. *)
Definition py_resolve (n : nat) (i : Z) : option nat :=
  let j := if i <? 0 then i + Z.of_nat n else i in
  if (0 <=? j) && (j <? Z.of_nat n) then Some (Z.to_nat j) else None.

(** [l[i]] *)
Definition py_getitem {A} (l : list A) (i : Z) : result A :=
  match py_resolve (length l) i with
  | Some j => match l !! j with Some x => Ok x | None => Raise IndexError end
  | None => Raise IndexError
  end.

(** [l[i] = x] *)
Definition py_setitem {A} (l : list A) (i : Z) (x : A) : result (list A) :=
  match py_resolve (length l) i with
  | Some j => Ok (<[j:=x]> l)
  | None => Raise IndexError
  end.

(** [l.pop(0)], keeping the list that remains *)
Definition py_pop0 {A} (l : list A) : result (list A) :=
  match l with
  | [] => Raise IndexError
  | _ :: l' => Ok l'
  end.

(** [range(a, b)] *)
Definition py_range (a b : Z) : list Z :=
  map (λ k, a + Z.of_nat k) (seq 0 (Z.to_nat (b - a))).

(** ** KLine *)

Record KLine := {
  start_time : Z;
  open_price : num;
  max_price : num;
  min_price : pyval;
  close_price : num;
  turn_over : num;
  end_time : Z;
  volume : num;
  transaction_num : Z;
  buying_turn_over : num;
  buying_volume : num;
  ignore_param : string
}.

(** [KLine.__init__] with the twelve keyword arguments both callers pass.
    The attributes are set from the arguments and then coerced one by one,
    in the order of the source; [min_price] has no coercion line and keeps
    the value it was given. *)
Definition KLine_init (start_time open_price max_price min_price close_price
    turn_over end_time volume transaction_num buying_turn_over buying_volume
    ignore_param : pyval) : result KLine :=
  start_time' ← py_int start_time;
  open_price' ← py_float open_price;
  max_price' ← py_float max_price;
  close_price' ← py_float close_price;
  turn_over' ← py_float turn_over;
  end_time' ← py_int end_time;
  volume' ← py_float volume;
  transaction_num' ← py_int transaction_num;
  buying_turn_over' ← py_float buying_turn_over;
  buying_volume' ← py_float buying_volume;
  Ok {| start_time := start_time';
        open_price := open_price';
        max_price := max_price';
        min_price := min_price;
        close_price := close_price';
        turn_over := turn_over';
        end_time := end_time';
        volume := volume';
        transaction_num := transaction_num';
        buying_turn_over := buying_turn_over';
        buying_volume := buying_volume';
        ignore_param := py_str ignore_param |}.

(** [KLine(start_time=kline[0], ..., ignore_param=kline[11])]: the twelve
    subscripts are evaluated first, then the constructor runs. *)
Definition kline_of_row (kline : list pyval) : result KLine :=
  a0 ← py_getitem kline 0;
  a1 ← py_getitem kline 1;
  a2 ← py_getitem kline 2;
  a3 ← py_getitem kline 3;
  a4 ← py_getitem kline 4;
  a5 ← py_getitem kline 5;
  a6 ← py_getitem kline 6;
  a7 ← py_getitem kline 7;
  a8 ← py_getitem kline 8;
  a9 ← py_getitem kline 9;
  a10 ← py_getitem kline 10;
  a11 ← py_getitem kline 11;
  KLine_init a0 a1 a2 a3 a4 a5 a6 a7 a8 a9 a10 a11.

(** ** KLines *)

Record KLinesAverageData := {
  avg_turn_over : num;
  avg_volume : num;
  avg_transaction_num : num;
  avg_buying_turn_over : num;
  avg_buying_volume : num;
  start_index : Z;
  end_index : Z
}.

(** A window object: the list it was built from and the length recorded at
    construction ([klines_num] is never written again). *)
Record KLines := {
  klines_list : list KLine;
  klines_num : Z
}.

Definition KLines_init (klines_list : list KLine) : KLines :=
  {| klines_list := klines_list;
     klines_num := Z.of_nat (length klines_list) |}.

Definition set_klines_list (self : KLines) (l : list KLine) : KLines :=
  {| klines_list := l; klines_num := klines_num self |}.

(** The three arms of [update_latest_klines]. *)
Inductive UpdateBranch := Revision | Advance | Rejected.

(** The conditions of the [if] / [elif] / [else] of [update_latest_klines],
    tested in that order against the last bar of the window. *)
Definition update_branch (last kline : KLine) : UpdateBranch :=
  if (end_time last <=? end_time kline) && (start_time last =? start_time kline)
  then Revision
  else if (end_time last <=? end_time kline) && (start_time last <? start_time kline)
  then Advance
  else Rejected.

(** [KLines.update_latest_klines]: the returned pair is the boolean the
    method returns and the window object after the call. *)
Definition update_latest_klines (self : KLines) (kline : KLine) : result (bool * KLines) :=
  last ← py_getitem (klines_list self) (-1);
  match update_branch last kline with
  | Revision =>
      l ← py_setitem (klines_list self) (-1) kline;
      Ok (true, set_klines_list self l)
  | Advance =>
      l ← py_pop0 (klines_list self);
      Ok (true, set_klines_list self (l ++ [kline]))
  | Rejected => Ok (false, self)
  end.

(** The five running sums of the averaging loop. *)
Record Sums := {
  all_turn_over : pynum;
  all_volume : pynum;
  all_transaction_num : pynum;
  all_buying_turn_over : pynum;
  all_buying_volume : pynum
}.

Definition sums_zero : Sums :=
  {| all_turn_over := PInt 0;
     all_volume := PInt 0;
     all_transaction_num := PInt 0;
     all_buying_turn_over := PInt 0;
     all_buying_volume := PInt 0 |}.

(** One round of the loop body, the bar already fetched. *)
Definition sums_add (acc : Sums) (k : KLine) : Sums :=
  {| all_turn_over := py_add (all_turn_over acc) (PFloat (turn_over k));
     all_volume := py_add (all_volume acc) (PFloat (volume k));
     all_transaction_num := py_add (all_transaction_num acc) (PInt (transaction_num k));
     all_buying_turn_over := py_add (all_buying_turn_over acc) (PFloat (buying_turn_over k));
     all_buying_volume := py_add (all_buying_volume acc) (PFloat (buying_volume k)) |}.

(** [for i in indices: all_x += self.klines_list[i].get_x()] *)
Fixpoint sum_loop (l : list KLine) (indices : list Z) (acc : Sums) : result Sums :=
  match indices with
  | [] => Ok acc
  | i :: rest =>
      k ← py_getitem l i;
      sum_loop l rest (sums_add acc k)
  end.

(** [KLines.calculate_average_data_by_given_window] *)
Definition calculate_average_data_by_given_window (self : KLines)
    (start_index window_size : Z) : result KLinesAverageData :=
  _ ← py_assert (Z.abs start_index <? klines_num self) "start_index out of range";
  _ ← py_assert (Z.abs window_size <=? klines_num self) "window_size out of range";
  _ ← py_assert (Z.abs (start_index + window_size) <=? klines_num self)
        "start_index + window_size out of range";
  acc ← sum_loop (klines_list self) (py_range start_index (start_index + window_size)) sums_zero;
  a1 ← py_truediv (all_turn_over acc) window_size;
  a2 ← py_truediv (all_volume acc) window_size;
  a3 ← py_truediv (all_transaction_num acc) window_size;
  a4 ← py_truediv (all_buying_turn_over acc) window_size;
  a5 ← py_truediv (all_buying_volume acc) window_size;
  Ok {| avg_turn_over := a1;
        avg_volume := a2;
        avg_transaction_num := a3;
        avg_buying_turn_over := a4;
        avg_buying_volume := a5;
        start_index := start_index;
        end_index := start_index + window_size - 1 |}.

(** The ratio both ranking passes compute for one window (the same nine
    lines appear in each): the relative change of the recent average buying
    volume against the past one, the int [0] when the past average is
    zero. *)
Definition buying_volume_diff_ratio (max_klines_num : Z) (current_trading_klines : KLines)
    (past_klines_window_size recent_klines_window_size : Z) : result pynum :=
  past_avg_data ← calculate_average_data_by_given_window current_trading_klines
    (max_klines_num - past_klines_window_size) past_klines_window_size;
  recent_avg_data ← calculate_average_data_by_given_window current_trading_klines
    (max_klines_num - recent_klines_window_size) recent_klines_window_size;
  let buying_volume_diff :=
    fsub (avg_buying_volume recent_avg_data) (avg_buying_volume past_avg_data) in
  if feqb (avg_buying_volume past_avg_data) (of_Z 0) then Ok (PInt 0)
  else Ok (PFloat (fdiv buying_volume_diff (avg_buying_volume past_avg_data))).

(** ** The aggregates of the design document

    What the document calls the arithmetic mean over a sub-range, written
    on its own: the bars a run of indices addresses (a negative index [i]
    standing for [length + i]), and the sum of a field over them divided by
    their number. *)
Definition bars_at (l : list KLine) (indices : list Z) : list KLine :=
  omap (λ i, py_resolve (length l) i ≫= (l !!.)) indices.

Definition fsum (xs : list num) : num := fold_left fadd xs (of_Z 0).

Definition fmean (xs : list num) : num :=
  fdiv (fsum xs) (of_Z (Z.of_nat (length xs))).

Definition zsum (xs : list Z) : Z := fold_left Z.add xs 0.

Definition zmean (xs : list Z) : num :=
  zdiv (zsum xs) (Z.of_nat (length xs)).

Definition average_of_bars (bars : list KLine) (start_index end_index : Z) : KLinesAverageData :=
  {| avg_turn_over := fmean (map turn_over bars);
     avg_volume := fmean (map volume bars);
     avg_transaction_num := zmean (map transaction_num bars);
     avg_buying_turn_over := fmean (map buying_turn_over bars);
     avg_buying_volume := fmean (map buying_volume bars);
     start_index := start_index;
     end_index := end_index |}.

(** The preconditions of [average_over], on a window of length [n]. *)
Definition average_over_pre (n start_index window_size : Z) : Prop :=
  Z.abs start_index < n ∧ Z.abs window_size <= n ∧ Z.abs (start_index + window_size) <= n.

(** The ratio as the design document words it: the two averages are taken
    with [average_over(-p, p)] and [average_over(-r, r)]. *)
Definition ratio_as_documented (window : KLines)
    (past_window_size recent_window_size : Z) : result pynum :=
  past_avg ← calculate_average_data_by_given_window window
    (- past_window_size) past_window_size;
  recent_avg ← calculate_average_data_by_given_window window
    (- recent_window_size) recent_window_size;
  if feqb (avg_buying_volume past_avg) (of_Z 0) then Ok (PInt 0)
  else Ok (PFloat (fdiv (fsub (avg_buying_volume recent_avg) (avg_buying_volume past_avg))
                        (avg_buying_volume past_avg))).

(** ** sorted

    [sorted(l, key=..., reverse=True)] is the interpreter's, not the
    program's.  It is modelled by its documented contract: a stable sort
    that compares keys with [<] only, and for [reverse=True] reverses the
    list, sorts it ascending and reverses the outcome. *)
Section Sorted.
Context {A K : Type} (key : A → K) (ltb : K → K → bool).

Fixpoint insert_sorted (x : A) (l : list A) : list A :=
  match l with
  | [] => [x]
  | y :: l' => if ltb (key y) (key x) then y :: insert_sorted x l' else x :: y :: l'
  end.

Fixpoint stable_sort (l : list A) : list A :=
  match l with
  | [] => []
  | x :: l' => insert_sorted x (stable_sort l')
  end.

Definition py_sorted (reverse : bool) (l : list A) : list A :=
  if reverse then rev (stable_sort (rev l)) else stable_sort l.




End Sorted.

(** [sorted(volume_diff_ratio_list, key=lambda x: x[1], reverse=True)] *)
Definition sort_volume_diff_ratio_list (l : list (string * pynum)) : list (string * pynum) :=
  py_sorted snd py_ltb true l.

(** ** RankMaintainer *)

Inductive KLineInterval := MIN1 | MIN3 | MIN15 | HOUR1 | HOUR4 | DAY1.

Definition value (i : KLineInterval) : string :=
  match i with
  | MIN1 => "1m"
  | MIN3 => "3m"
  | MIN15 => "15m"
  | HOUR1 => "1h"
  | HOUR4 => "4h"
  | DAY1 => "1d"
  end.

(** One entry of the spot listing and one of the futures listing, with the
    keys the resolver reads. *)
Record SpotSymbol := { symbol : string; status : string }.
Record UmSymbol := { pair : string }.

(** The exchange, seen from the program: each request is answered (or
    raises) in a state of the outside world and moves it on.
    [client_klines w symbol interval limit] is
    [client.klines(symbol, interval, timeZone=..., limit=limit)]. *)
Context {world : Type}.
Context (client_exchange_info : world → result (list SpotSymbol) * world).
Context (um_client_exchange_info : world → result (list UmSymbol) * world).
Context (client_klines : world → string → string → Z → result (list (list pyval)) * world).

(** [cache_content]: a [defaultdict(list)] when the object made it, a plain
    dict when it was read back from the cache file. *)
Record CacheContent := {
  default_factory : bool;
  cache_items : gmap string (list string)
}.

Record RankMaintainer := {
  interval : KLineInterval;
  max_klines_num : Z;
  cache_content : CacheContent;
  cache_file : gmap string (list string);
  pair_name_to_klines_dict : gmap string KLines;
  client : world
}.

Definition set_cache_content (self : RankMaintainer) (c : CacheContent) : RankMaintainer :=
  {| interval := interval self; max_klines_num := max_klines_num self;
     cache_content := c; cache_file := cache_file self;
     pair_name_to_klines_dict := pair_name_to_klines_dict self;
     client := client self |}.

Definition set_cache_file (self : RankMaintainer) (f : gmap string (list string)) : RankMaintainer :=
  {| interval := interval self; max_klines_num := max_klines_num self;
     cache_content := cache_content self; cache_file := f;
     pair_name_to_klines_dict := pair_name_to_klines_dict self;
     client := client self |}.

Definition set_dict (self : RankMaintainer) (d : gmap string KLines) : RankMaintainer :=
  {| interval := interval self; max_klines_num := max_klines_num self;
     cache_content := cache_content self; cache_file := cache_file self;
     pair_name_to_klines_dict := d;
     client := client self |}.

Definition set_client (self : RankMaintainer) (w : world) : RankMaintainer :=
  {| interval := interval self; max_klines_num := max_klines_num self;
     cache_content := cache_content self; cache_file := cache_file self;
     pair_name_to_klines_dict := pair_name_to_klines_dict self;
     client := w |}.

(** Methods run on the object: they return or raise, and leave the object
    as the statements executed so far made it. *)
Definition M (A : Type) : Type := RankMaintainer → result A * RankMaintainer.

#[global] Instance M_ret : MRet M := λ A a self, (Ok a, self).
#[global] Instance M_bind : MBind M := λ A B f m self,
  match m self with
  | (Ok a, self') => f a self'
  | (Raise e, self') => (Raise e, self')
  end.

Definition lift {A} (r : result A) : M A := λ self, (r, self).

Definition call {A} (request : world → result A * world) : M A := λ self,
  let '(r, w) := request (client self) in (r, set_client self w).

(** [self.cache_content[key]] *)
Definition cache_getitem (key : string) : M (list string) := λ self,
  let c := cache_content self in
  match cache_items c !! key with
  | Some l => (Ok l, self)
  | None =>
      if default_factory c
      then (Ok [], set_cache_content self
                     {| default_factory := true; cache_items := <[key:=[]]> (cache_items c) |})
      else (Raise (KeyError key), self)
  end.

(** [self.cache_content[key] = l] *)
Definition cache_setitem (key : string) (l : list string) : M unit := λ self,
  let c := cache_content self in
  (Ok tt, set_cache_content self
            {| default_factory := default_factory c; cache_items := <[key:=l]> (cache_items c) |}).

(** [json.dump(self.cache_content, f)] on the cache file *)
Definition dump_cache : M unit := λ self,
  (Ok tt, set_cache_file self (cache_items (cache_content self))).

(** [s[-4:]] *)
Definition last4 (s : string) : string :=
  substring (String.length s - 4)%nat 4 s.

Definition truthy (s : string) : bool :=
  negb (String.eqb s "").

(** The tracked symbols a cache holds, none when the key is not there. *)
Definition tracked (c : CacheContent) : list string :=
  default [] (cache_items c !! "trading_pair_names").

(** The cache can be read at the key: it is there, or the dict makes it. *)
Definition readable (c : CacheContent) : Prop :=
  is_Some (cache_items c !! "trading_pair_names") ∨ default_factory c = true.

(** The conditions of the two comprehensions that do not read the cache. *)
Definition spot_qualifies (p : SpotSymbol) : bool :=
  truthy (symbol p) && String.eqb (last4 (symbol p)) "USDT"
  && String.eqb (status p) "TRADING".

Definition um_qualifies (p : UmSymbol) : bool :=
  truthy (pair p) && String.eqb (last4 (pair p)) "USDT".

(** The values of the two comprehensions against the tracked list [names]. *)
Definition spot_fresh (names : list string) (symbols : list SpotSymbol) : list string :=
  map symbol
    (List.filter (λ p, spot_qualifies p && negb (bool_decide (symbol p ∈ names))) symbols).

Definition um_fresh (names : list string) (symbols : list UmSymbol) : list string :=
  map pair
    (List.filter (λ p, um_qualifies p && negb (bool_decide (pair p ∈ names))) symbols).

(** [um_pair_names & pair_names] *)
Definition fresh_pairs (names : list string) (spot : list SpotSymbol) (um : list UmSymbol)
    : gset string :=
  list_to_set (um_fresh names um) ∩ list_to_set (spot_fresh names spot).

(** The list comprehension over the spot listing: the conditions are tested
    left to right, the cache is read only for an entry that passed the ones
    before. *)
Fixpoint spot_pair_names (symbols : list SpotSymbol) : M (list string) :=
  match symbols with
  | [] => mret []
  | p :: rest =>
      keep ← (if spot_qualifies p
              then names ← cache_getitem "trading_pair_names";
                   mret (negb (bool_decide (symbol p ∈ names)))
              else mret false);
      names ← spot_pair_names rest;
      mret (if keep : bool then symbol p :: names else names)
  end.

(** The list comprehension over the futures listing. *)
Fixpoint um_pair_names (symbols : list UmSymbol) : M (list string) :=
  match symbols with
  | [] => mret []
  | p :: rest =>
      keep ← (if um_qualifies p
              then names ← cache_getitem "trading_pair_names";
                   mret (negb (bool_decide (pair p ∈ names)))
              else mret false);
      names ← um_pair_names rest;
      mret (if keep : bool then pair p :: names else names)
  end.

(** [RankMaintainer.get_need_trading_pair_set].  The first statement only
    logs, but its condition reads the cache when the dict is not empty. *)
Definition get_need_trading_pair_set : M unit :=
  c ← (λ self, (Ok (cache_content self), self));
  _ ← (if bool_decide (cache_items c = ∅) then mret []
       else cache_getitem "trading_pair_names");
  pair_infos ← call client_exchange_info;
  um_pair_infos ← call um_client_exchange_info;
  pair_names ← spot_pair_names pair_infos;
  um_pair_names ← um_pair_names um_pair_infos;
  let new : gset string := list_to_set um_pair_names ∩ list_to_set pair_names in
  names ← cache_getitem "trading_pair_names";
  _ ← cache_setitem "trading_pair_names" (names ++ elements new);
  dump_cache.

(** [RankMaintainer.convert_klines_list_to_klines]: the rows in order. *)
Fixpoint convert_rows (klines_list : list (list pyval)) : result (list KLine) :=
  match klines_list with
  | [] => Ok []
  | kline :: rest =>
      k ← kline_of_row kline;
      res ← convert_rows rest;
      Ok (k :: res)
  end.

Definition convert_klines_list_to_klines (klines_list : list (list pyval)) : result KLines :=
  res ← convert_rows klines_list;
  Ok (KLines_init res).

(** [RankMaintainer.get_latest_kline] *)
Definition get_latest_kline (symbol : string) (interval : KLineInterval) : M KLine :=
  rows ← call (λ w, client_klines w symbol (value interval) 1);
  latest_kline_data ← lift (py_getitem rows 0);
  lift (kline_of_row latest_kline_data).

(** [self.pair_name_to_klines_dict[symbol]]: the map is a [defaultdict]
    built with no default factory, a missing key raises. *)
Definition dict_getitem (symbol : string) : M KLines := λ self,
  match pair_name_to_klines_dict self !! symbol with
  | Some k => (Ok k, self)
  | None => (Raise (KeyError symbol), self)
  end.

Definition dict_setitem (symbol : string) (k : KLines) : M unit := λ self,
  (Ok tt, set_dict self (<[symbol:=k]> (pair_name_to_klines_dict self))).

(** [RankMaintainer.get_current_trading_klines]; a window object is always
    truthy, so a cached one is returned whenever the key is there. *)
Definition get_current_trading_klines (symbol : string) (interval : KLineInterval) : M KLines :=
  λ self,
  match pair_name_to_klines_dict self !! symbol with
  | Some k => (Ok k, self)
  | None =>
      (current_trading_klines_list ←
         call (λ w, client_klines w symbol (value interval) (max_klines_num self));
       current_trading_klines ← lift (convert_klines_list_to_klines current_trading_klines_list);
       _ ← dict_setitem symbol current_trading_klines;
       dict_getitem symbol) self
  end.

(** [RankMaintainer.update_klines]: the cached window is updated in place,
    which the map shows as the entry of [symbol] being replaced. *)
Definition update_klines (symbol : string) (interval : KLineInterval) : M bool :=
  latest_kline ← get_latest_kline symbol interval;
  cached_klines ← dict_getitem symbol;
  r ← lift (update_latest_klines cached_klines latest_kline);
  _ ← dict_setitem symbol r.2;
  mret r.1.

(** The body of the loop of [get_init_buying_volume_diff_ratio_rank], up to
    the ratio of one symbol. *)
Definition init_rank_body (pair_name : string) (past recent : Z) : M pynum :=
  self ← (λ self, (Ok self, self));
  current_trading_klines ← get_current_trading_klines pair_name (interval self);
  lift (buying_volume_diff_ratio (max_klines_num self) current_trading_klines past recent).

(** The loop of [get_init_buying_volume_diff_ratio_rank]. *)
Fixpoint init_rank_loop (rank_pair_names : list string) (past recent : Z)
    (volume_diff_ratio_list : list (string * pynum)) : M (list (string * pynum)) :=
  match rank_pair_names with
  | [] => mret volume_diff_ratio_list
  | pair_name :: rest =>
      ratio ← init_rank_body pair_name past recent;
      init_rank_loop rest past recent (volume_diff_ratio_list ++ [(pair_name, ratio)])
  end.

(** [RankMaintainer.get_init_buying_volume_diff_ratio_rank] *)
Definition get_init_buying_volume_diff_ratio_rank
    (past_klines_window_size recent_klines_window_size : Z) : M (list (string * pynum)) :=
  self ← (λ self, (Ok self, self));
  _ ← lift (py_assert (past_klines_window_size <=? max_klines_num self)
              "past_klines_window_size must be less than max_klines_num");
  _ ← lift (py_assert (recent_klines_window_size <=? max_klines_num self)
              "recent_klines_window_size must be less than max_klines_num");
  rank_pair_names ← cache_getitem "trading_pair_names";
  l ← init_rank_loop rank_pair_names past_klines_window_size recent_klines_window_size [];
  mret (sort_volume_diff_ratio_list l).

(** The body of the loop of [update_buying_volume_diff_ratio_rank], up to
    the ratio of one symbol: the boolean of [update_klines] is dropped. *)
Definition update_rank_body (pair_name : string) (past recent : Z) : M pynum :=
  self ← (λ self, (Ok self, self));
  _ ← update_klines pair_name (interval self);
  current_trading_klines ← dict_getitem pair_name;
  lift (buying_volume_diff_ratio (max_klines_num self) current_trading_klines past recent).

(** The loop of [update_buying_volume_diff_ratio_rank]. *)
Fixpoint update_rank_loop (rank_pair_names : list string) (past recent : Z)
    (volume_diff_ratio_list : list (string * pynum)) : M (list (string * pynum)) :=
  match rank_pair_names with
  | [] => mret volume_diff_ratio_list
  | pair_name :: rest =>
      ratio ← update_rank_body pair_name past recent;
      update_rank_loop rest past recent (volume_diff_ratio_list ++ [(pair_name, ratio)])
  end.

(** [RankMaintainer.update_buying_volume_diff_ratio_rank] *)
Definition update_buying_volume_diff_ratio_rank
    (past_klines_window_size recent_klines_window_size : Z) : M (list (string * pynum)) :=
  self ← (λ self, (Ok self, self));
  _ ← lift (py_assert (past_klines_window_size <=? max_klines_num self)
              "past_klines_window_size must be less than max_klines_num");
  _ ← lift (py_assert (recent_klines_window_size <=? max_klines_num self)
              "recent_klines_window_size must be less than max_klines_num");
  rank_pair_names ← cache_getitem "trading_pair_names";
  l ← update_rank_loop rank_pair_names past_klines_window_size recent_klines_window_size [];
  mret (sort_volume_diff_ratio_list l).

(** What a read of the cache may do to it: a [defaultdict] that lacks the
    key gets it with an empty list; nothing else moves. *)
Definition touched (c c' : CacheContent) : Prop :=
  default_factory c' = default_factory c ∧
  tracked c' = tracked c ∧
  (readable c → readable c') ∧
  ∀ v, <["trading_pair_names":=v]> (cache_items c') =
       <["trading_pair_names":=v]> (cache_items c).

(** What a refresh of one symbol leaves alone: the configuration, the
    tracked list, and of every cached window at least its recorded
    length. *)
Definition same_shape (self self' : RankMaintainer) : Prop :=
  max_klines_num self' = max_klines_num self ∧
  interval self' = interval self ∧
  cache_content self' = cache_content self ∧
  ∀ n window, pair_name_to_klines_dict self !! n = Some window →
    ∃ window', pair_name_to_klines_dict self' !! n = Some window' ∧
               klines_num window' = klines_num window.

(** What a whole refresh pass leaves alone: the configuration, the
    tracked list, the set of symbols that have a window, and both lengths
    of every window. *)
Definition same_windows (self self' : RankMaintainer) : Prop :=
  max_klines_num self' = max_klines_num self ∧
  interval self' = interval self ∧
  cache_content self' = cache_content self ∧
  dom (pair_name_to_klines_dict self') = dom (pair_name_to_klines_dict self) ∧
  ∀ n window, pair_name_to_klines_dict self !! n = Some window →
    ∃ window', pair_name_to_klines_dict self' !! n = Some window' ∧
               length (klines_list window') = length (klines_list window) ∧
               klines_num window' = klines_num window.

(** What the initial pass leaves alone: the configuration and every window
    that is already cached. *)
Definition keeps_windows (self self' : RankMaintainer) : Prop :=
  max_klines_num self' = max_klines_num self ∧
  interval self' = interval self ∧
  ∀ n window, pair_name_to_klines_dict self !! n = Some window →
    pair_name_to_klines_dict self' !! n = Some window.

(** A method that leaves the map of windows and the configuration alone,
    whatever its outcome. *)
Definition keeps_dict {A} (m : M A) : Prop :=
  ∀ self x self', m self = (x, self') →
    pair_name_to_klines_dict self' = pair_name_to_klines_dict self ∧
    max_klines_num self' = max_klines_num self ∧
    interval self' = interval self.

(** ** The rest of the two classes *)

(** [KLines.get_latest_kline] *)
Definition klines_get_latest_kline (self : KLines) : result KLine :=
  py_getitem (klines_list self) (-1).

(** [l[:k]] *)
Definition py_slice_to {A} (l : list A) (k : Z) : list A :=
  take (Z.to_nat (if k <? 0 then Z.of_nat (length l) + k else k)) l.

(** [RankMaintainer.__init__] with a non-empty [cache_config_path].  [file]
    is what the cache file holds, [None] when there is no such file: then
    the empty [defaultdict(list)] is written to it.  The window map starts
    empty and the resolver runs; an exception leaves no object, the state
    returned shows what was written until then. *)
Definition RankMaintainer_init (interval : KLineInterval) (max_klines_num : Z)
    (w : world) (file : option (gmap string (list string)))
    : result unit * RankMaintainer :=
  get_need_trading_pair_set
    match file with
    | Some content =>
        {| interval := interval; max_klines_num := max_klines_num;
           cache_content := {| default_factory := false; cache_items := content |};
           cache_file := content;
           pair_name_to_klines_dict := ∅;
           client := w |}
    | None =>
        {| interval := interval; max_klines_num := max_klines_num;
           cache_content := {| default_factory := true; cache_items := ∅ |};
           cache_file := ∅;
           pair_name_to_klines_dict := ∅;
           client := w |}
    end.

(** *** info_requester.py

    This file holds an earlier variant of the two classes.  [KLine], the
    window update, the resolver and [get_current_trading_klines] are the
    same text as in rank_maintainer.py; the averaging method and the
    ranking differ and are modelled here. *)

(** [for i in indices: all_buying_volume += self.klines_list[i].get_buying_volume()] *)
Fixpoint buying_volume_loop (l : list KLine) (indices : list Z) (acc : pynum) : result pynum :=
  match indices with
  | [] => Ok acc
  | i :: rest =>
      k ← py_getitem l i;
      buying_volume_loop l rest (py_add acc (PFloat (buying_volume k)))
  end.

(** [KLines.calculate_average_buying_volume_by_given_window] *)
Definition calculate_average_buying_volume_by_given_window (self : KLines)
    (start_index window_size : Z) : result num :=
  _ ← py_assert (start_index + window_size <=? klines_num self)
        "start_index + window_size > klines_num";
  _ ← py_assert (1 <=? window_size) "window_size < 1";
  all_buying_volume ← buying_volume_loop (klines_list self)
                        (py_range start_index (start_index + window_size)) (PInt 0);
  py_truediv all_buying_volume window_size.

(** The ratio of one window in [get_buying_diff_ration_volume_rank]. *)
Definition buying_volume_diff_ratio_v1 (max_klines_num : Z) (current_trading_klines : KLines)
    (past_klines_window_size recent_klines_window_size : Z) : result pynum :=
  past_avg_buying_volume ← calculate_average_buying_volume_by_given_window
    current_trading_klines (max_klines_num - past_klines_window_size) past_klines_window_size;
  recent_avg_buying_volume ← calculate_average_buying_volume_by_given_window
    current_trading_klines (max_klines_num - recent_klines_window_size)
    recent_klines_window_size;
  let buying_volume_diff := fsub recent_avg_buying_volume past_avg_buying_volume in
  if feqb past_avg_buying_volume (of_Z 0) then Ok (PInt 0)
  else Ok (PFloat (fdiv buying_volume_diff past_avg_buying_volume)).



End Model.

(** ** A runtime to evaluate with

    Exact rational arithmetic in the place of the floats: what the examples
    below are evaluated with.  The inputs used there are small dyadic
    numbers, on which this arithmetic and the floats agree.  The string
    conversions read plain decimal notation; a float is printed as a
    fraction. *)
Module Exact.

Definition digit_of (c : ascii) : option Z :=
  let n := Z.of_N (N_of_ascii c) in
  if (48 <=? n) && (n <=? 57) then Some (n - 48) else None.

Fixpoint digits_val (s : string) (acc : Z) : option Z :=
  match s with
  | EmptyString => Some acc
  | String c s' => d ← digit_of c; digits_val s' (10 * acc + d)
  end.

Definition unsigned_of_str (s : string) : option Z :=
  match s with
  | EmptyString => None
  | _ => digits_val s 0
  end.

Definition decimal_int (s : string) : option Z :=
  match s with
  | EmptyString => None
  | String c s' =>
      if Ascii.eqb c "-" then Z.opp <$> unsigned_of_str s' else unsigned_of_str s
  end.

Fixpoint split_dot (s : string) : string * option string :=
  match s with
  | EmptyString => (EmptyString, None)
  | String c s' =>
      if Ascii.eqb c "."
      then (EmptyString, Some s')
      else let '(a, b) := split_dot s' in (String c a, b)
  end.

Definition unsigned_float_of_str (s : string) : option Q :=
  match split_dot s with
  | (ip, None) => inject_Z <$> unsigned_of_str ip
  | (ip, Some fp) =>
      if String.eqb ip "" && String.eqb fp "" then None
      else
        i ← digits_val ip 0;
        f ← digits_val fp 0;
        let scale := 10 ^ Z.of_nat (String.length fp) in
        Some (Qred (Qmake (i * scale + f) (Z.to_pos scale)))
  end.

Definition decimal_float (s : string) : option Q :=
  match s with
  | EmptyString => None
  | String c s' =>
      if Ascii.eqb c "-" then Qopp <$> unsigned_float_of_str s'
      else unsigned_float_of_str s
  end.

Definition fraction_str (q : Q) : string :=
  pretty (Qnum q) +:+ "/" +:+ pretty (Z.pos (Qden q)).

#[export] Instance runtime : PyFloat := {|
  num := Q;
  of_Z := inject_Z;
  fadd x y := Qred (Qplus x y);
  fsub x y := Qred (Qminus x y);
  fdiv x y := Qred (Qdiv x y);
  zdiv a b := Qred (Qdiv (inject_Z a) (inject_Z b));
  feqb := Qeq_bool;
  fltb x y := negb (Qle_bool y x);
  ftrunc q := Ok (Z.quot (Qnum q) (Z.pos (Qden q)));
  float_of_str := decimal_float;
  int_of_str := decimal_int;
  str_of_float := fraction_str;
  str_of_int := pretty
|}.

(** A bar with the given times and buying volume, every other field 1. *)
Definition bar (start_time end_time : Z) (buying_volume : Q) : KLine :=
  {| start_time := start_time; open_price := 1%Q; max_price := 1%Q;
     min_price := PyStr "1"; close_price := 1%Q; turn_over := 1%Q;
     end_time := end_time; volume := 1%Q; transaction_num := 1;
     buying_turn_over := 1%Q; buying_volume := buying_volume;
     ignore_param := "0" |}.

(** The row of raw fields the exchange sends for such a bar. *)
Definition row (start_time end_time : Z) (buying_volume : string) : list pyval :=
  [PyInt start_time; PyStr "1"; PyStr "1"; PyStr "1"; PyStr "1"; PyStr "1";
   PyInt end_time; PyStr "1"; PyInt 1; PyStr "1"; PyStr buying_volume; PyStr "0"].

(** Four one-minute bars, buying volumes 10, 10, 10 and 40. *)
Definition window4 : KLines :=
  KLines_init [bar 0 59 10; bar 60 119 10; bar 120 179 10; bar 180 239 40].

(** Two bars, buying volumes 10 and 30. *)
Definition window2 : KLines :=
  KLines_init [bar 0 59 10; bar 60 119 30].

(** Ten bars, buying volumes 1 to 10. *)
Definition window10 : KLines :=
  KLines_init [bar 0 59 1; bar 60 119 2; bar 120 179 3; bar 180 239 4; bar 240 299 5;
               bar 300 359 6; bar 360 419 7; bar 420 479 8; bar 480 539 9; bar 540 599 10].

(** A window that is one bar ahead of what the exchange below has for its
    symbol. *)
Definition window_ahead : KLines :=
  KLines_init [bar 60 119 8; bar 120 179 8; bar 180 239 8; bar 240 299 8].

(** An exchange: it is down for [DOWNUSDT] and serves the last [limit] rows
    of a fixed history for the other symbols.  The world counts the
    requests. *)
Definition history (symbol : string) : list (list pyval) :=
  if String.eqb symbol "AUSDT"
  then [row 0 59 "10"; row 60 119 "10"; row 120 179 "10"; row 180 239 "40"]
  else if String.eqb symbol "BUSDT"
  then [row 0 59 "8"; row 60 119 "8"; row 120 179 "8"; row 180 239 "8"]
  else [].

Definition klines (w : nat) (symbol interval : string) (limit : Z)
    : result (list (list pyval)) * nat :=
  if String.eqb symbol "DOWNUSDT" then (Raise (ClientError 503), S w)
  else (Ok (drop (length (history symbol) - Z.to_nat limit) (history symbol)), S w).

Definition spot_listing : list SpotSymbol :=
  [ {| symbol := "BTCUSDT"; status := "TRADING" |};
    {| symbol := "ETHUSDT"; status := "BREAK" |};
    {| symbol := "ETHBTC"; status := "TRADING" |};
    {| symbol := "SOLUSDT"; status := "TRADING" |};
    {| symbol := ""; status := "TRADING" |} ].

Definition um_listing : list UmSymbol :=
  [ {| pair := "BTCUSDT" |}; {| pair := "SOLUSDT" |};
    {| pair := "ETHUSDT" |}; {| pair := "XRPUSDT" |} ].

Definition exchange_info (w : nat) : result (list SpotSymbol) * nat :=
  (Ok spot_listing, S w).

Definition um_exchange_info (w : nat) : result (list UmSymbol) * nat :=
  (Ok um_listing, S w).

(** The object right after its fields are set, on a first start: an empty
    [defaultdict(list)], no cache file content, no window. *)
Definition fresh_object : RankMaintainer :=
  {| interval := HOUR1; max_klines_num := 4;
     cache_content := {| default_factory := true; cache_items := ∅ |};
     cache_file := ∅;
     pair_name_to_klines_dict := ∅;
     client := 0%nat |}.

(** An object that tracks [names] and holds the windows [windows]. *)
Definition object (names : list string) (windows : gmap string KLines) : RankMaintainer :=
  {| interval := HOUR1; max_klines_num := 4;
     cache_content := {| default_factory := false;
                         cache_items := {["trading_pair_names" := names]} |};
     cache_file := {["trading_pair_names" := names]};
     pair_name_to_klines_dict := windows;
     client := 0%nat |}.


(** [BUSDT] and [AUSDT] tracked, the window of [BUSDT] ahead of the
    exchange. *)
Definition object_ahead : RankMaintainer :=
  object ["BUSDT"; "AUSDT"] (<["BUSDT":=window_ahead]> (<["AUSDT":=window4]> ∅)).

(** [AUSDT] tracked, no window cached yet. *)
Definition object_no_window : RankMaintainer :=
  object ["AUSDT"] ∅.


(** [window4] after the bar that follows its last one. *)
Definition window4_advanced : KLines :=
  set_klines_list window4 (drop 1 (klines_list window4) ++ [bar 240 299 5]).

(** A window without a bar. *)
Definition window0 : KLines := KLines_init [].

(** An exchange that has two bars only, for every symbol. *)
Definition klines_short (w : nat) (symbol interval : string) (limit : Z)
    : result (list (list pyval)) * nat :=
  (Ok [row 0 59 "10"; row 60 119 "30"], S w).

(** A spot listing that cannot be fetched on the very first request and
    can from then on. *)
Definition exchange_info_flaky (w : nat) : result (list SpotSymbol) * nat :=
  match w with
  | O => (Raise (ClientError 503), S w)
  | S _ => (Ok spot_listing, S w)
  end.

(** [AUSDT] and [BUSDT] tracked, no window cached yet. *)
Definition object_cold : RankMaintainer :=
  object ["AUSDT"; "BUSDT"] ∅.

(** [AUSDT] and [DOWNUSDT] tracked, no window cached yet. *)
Definition object_cold_down : RankMaintainer :=
  object ["AUSDT"; "DOWNUSDT"] ∅.

(** An object read back from a cache file that holds the empty dict. *)
Definition object_keyless : RankMaintainer :=
  {| interval := HOUR1; max_klines_num := 4;
     cache_content := {| default_factory := false; cache_items := ∅ |};
     cache_file := ∅;
     pair_name_to_klines_dict := ∅;
     client := 0%nat |}.

End Exact.

(** * Properties *)

Section Properties.
Context `{PyFloat}.

(** ** Lists and indices *)

Lemma py_getitem_last {A} (init : list A) (x : A) :
  py_getitem (init ++ [x]) (-1) = Ok x.
Proof.
  unfold py_getitem, py_resolve.
  rewrite length_app. simpl length.
  replace (-1 <? 0) with true by reflexivity.
  replace ((0 <=? -1 + Z.of_nat (length init + 1)) &&
           (-1 + Z.of_nat (length init + 1) <? Z.of_nat (length init + 1)))
    with true by (symmetry; apply andb_true_iff; split; [apply Z.leb_le | apply Z.ltb_lt]; lia).
  replace (Z.to_nat (-1 + Z.of_nat (length init + 1))) with (length init + 0)%nat by lia.
  rewrite lookup_app_r by lia.
  replace (length init + 0 - length init)%nat with 0%nat by lia.
  reflexivity.
Qed.

Lemma py_setitem_last {A} (init : list A) (x y : A) :
  py_setitem (init ++ [x]) (-1) y = Ok (init ++ [y]).
Proof.
  unfold py_setitem, py_resolve.
  rewrite length_app. simpl length.
  replace (-1 <? 0) with true by reflexivity.
  replace ((0 <=? -1 + Z.of_nat (length init + 1)) &&
           (-1 + Z.of_nat (length init + 1) <? Z.of_nat (length init + 1)))
    with true by (symmetry; apply andb_true_iff; split; [apply Z.leb_le | apply Z.ltb_lt]; lia).
  replace (Z.to_nat (-1 + Z.of_nat (length init + 1))) with (length init + 0)%nat by lia.
  rewrite insert_app_r. reflexivity.
Qed.

Lemma py_pop0_snoc {A} (init : list A) (x : A) :
  py_pop0 (init ++ [x]) = Ok (drop 1 (init ++ [x])).
Proof. destruct init; reflexivity. Qed.

(** ** The window update *)

Lemma update_branch_revision (last kline : KLine) :
  update_branch last kline = Revision ↔
  end_time kline >= end_time last ∧ start_time kline = start_time last.
Proof.
  unfold update_branch.
  destruct (Z.leb_spec (end_time last) (end_time kline));
    destruct (Z.eqb_spec (start_time last) (start_time kline));
    destruct (Z.ltb_spec (start_time last) (start_time kline));
    simpl; split; try discriminate; try lia; auto.
Qed.

Lemma update_branch_advance (last kline : KLine) :
  update_branch last kline = Advance ↔
  end_time kline >= end_time last ∧ start_time kline > start_time last.
Proof.
  unfold update_branch.
  destruct (Z.leb_spec (end_time last) (end_time kline));
    destruct (Z.eqb_spec (start_time last) (start_time kline));
    destruct (Z.ltb_spec (start_time last) (start_time kline));
    simpl; split; try discriminate; try lia; auto.
Qed.

Lemma update_branch_rejected (last kline : KLine) :
  update_branch last kline = Rejected ↔
  ¬ (end_time kline >= end_time last ∧ start_time kline = start_time last) ∧
  ¬ (end_time kline >= end_time last ∧ start_time kline > start_time last).
Proof.
  unfold update_branch.
  destruct (Z.leb_spec (end_time last) (end_time kline));
    destruct (Z.eqb_spec (start_time last) (start_time kline));
    destruct (Z.ltb_spec (start_time last) (start_time kline));
    simpl; split; try discriminate; try lia; auto.
Qed.

Lemma update_latest_klines_snoc (self : KLines) (init : list KLine) (last kline : KLine) :
  klines_list self = init ++ [last] →
  update_latest_klines self kline =
  match update_branch last kline with
  | Revision => Ok (true, set_klines_list self (init ++ [kline]))
  | Advance => Ok (true, set_klines_list self (drop 1 (init ++ [last]) ++ [kline]))
  | Rejected => Ok (false, self)
  end.
Proof.
  intros Hl. unfold update_latest_klines. rewrite Hl, py_getitem_last. simpl.
  destruct (update_branch last kline); [| | reflexivity].
  - rewrite py_setitem_last. reflexivity.
  - rewrite py_pop0_snoc. reflexivity.
Qed.


(** C4: on a non-empty window a bar that meets neither the Revision nor the
    Advance condition is turned down by returning [False], nothing is
    raised, and the window object is the one before the call; a bar that
    ends before the last one, or starts before it, is such a bar. *)
Theorem update_rejected_leaves_window (self : KLines) (init : list KLine) (lst kline : KLine) :
  klines_list self = init ++ [lst] →
  (¬ (end_time kline >= end_time lst ∧ start_time kline = start_time lst) →
   ¬ (end_time kline >= end_time lst ∧ start_time kline > start_time lst) →
   update_latest_klines self kline = Ok (false, self)) ∧
  (end_time kline < end_time lst ∨ start_time kline < start_time lst →
   update_latest_klines self kline = Ok (false, self)).
Proof.
  intros Hl.
  assert (Hrej : update_branch lst kline = Rejected →
                 update_latest_klines self kline = Ok (false, self)).
  { intros Hb. rewrite (update_latest_klines_snoc self init lst kline Hl), Hb.
    reflexivity. }
  split.
  - intros H1 H2. apply Hrej, update_branch_rejected. split; assumption.
  - intros Hlt. apply Hrej, update_branch_rejected. lia.
Qed.

(** ** The windowed average *)

Lemma py_resolve_in_range (n : nat) (i : Z) :
  - Z.of_nat n < i < Z.of_nat n →
  py_resolve n i = Some (Z.to_nat (i `mod` Z.of_nat n)) ∧
  (Z.to_nat (i `mod` Z.of_nat n) < n)%nat.
Proof.
  intros Hi. unfold py_resolve.
  destruct (Z.ltb_spec i 0) as [Hneg | Hpos].
  - assert (Hm : i `mod` Z.of_nat n = i + Z.of_nat n).
    { rewrite <- (Z_mod_plus_full i 1 (Z.of_nat n)).
      rewrite Z.mul_1_l. apply Z.mod_small. lia. }
    rewrite Hm.
    replace ((0 <=? i + Z.of_nat n) && (i + Z.of_nat n <? Z.of_nat n)) with true
      by (symmetry; apply andb_true_iff; split; [apply Z.leb_le | apply Z.ltb_lt]; lia).
    split; [reflexivity | lia].
  - rewrite Z.mod_small by lia.
    replace ((0 <=? i) && (i <? Z.of_nat n)) with true
      by (symmetry; apply andb_true_iff; split; [apply Z.leb_le | apply Z.ltb_lt]; lia).
    split; [reflexivity | lia].
Qed.

Lemma py_getitem_in_range {A} (l : list A) (i : Z) :
  - Z.of_nat (length l) < i < Z.of_nat (length l) →
  ∃ x, l !! Z.to_nat (i `mod` Z.of_nat (length l)) = Some x ∧ py_getitem l i = Ok x.
Proof.
  intros Hi. destruct (py_resolve_in_range (length l) i Hi) as [Hr Hlt].
  destruct (lookup_lt_is_Some_2 l _ Hlt) as [x Hx].
  exists x. split; [exact Hx |].
  unfold py_getitem. rewrite Hr, Hx. reflexivity.
Qed.

Lemma py_range_length (a b : Z) : length (py_range a b) = Z.to_nat (b - a).
Proof. unfold py_range. rewrite length_map, length_seq. reflexivity. Qed.

Lemma py_range_lookup (a b : Z) (k : nat) :
  (k < Z.to_nat (b - a))%nat → py_range a b !! k = Some (a + Z.of_nat k).
Proof.
  intros Hk. unfold py_range. rewrite list_lookup_fmap, lookup_seq_lt by exact Hk.
  reflexivity.
Qed.

Lemma py_range_bounds (a b i : Z) : i ∈ py_range a b → a <= i < b.
Proof.
  unfold py_range. intros Hin. apply list_elem_of_fmap in Hin as (k & -> & Hk).
  apply elem_of_seq in Hk. lia.
Qed.

Lemma py_range_split (a b c : Z) :
  a <= b <= c → py_range a c = py_range a b ++ py_range b c.
Proof.
  intros Habc. unfold py_range.
  replace (Z.to_nat (c - a)) with (Z.to_nat (b - a) + Z.to_nat (c - b))%nat by lia.
  rewrite seq_app, map_app. f_equal.
  rewrite Nat.add_0_l.
  rewrite <- (Nat.add_0_r (Z.to_nat (b - a))) at 1.
  rewrite <- fmap_add_seq, map_map.
  apply map_ext. intros k. lia.
Qed.

Lemma bars_at_app (l : list KLine) (i1 i2 : list Z) :
  bars_at l (i1 ++ i2) = bars_at l i1 ++ bars_at l i2.
Proof. apply omap_app. Qed.

(** When every index is in range, the loop visits the bars [bars_at] lists,
    one per index. *)
Lemma sum_loop_in_range (l : list KLine) (indices : list Z) (acc : Sums) :
  Forall (λ i, - Z.of_nat (length l) < i < Z.of_nat (length l)) indices →
  sum_loop l indices acc = Ok (fold_left sums_add (bars_at l indices) acc) ∧
  length (bars_at l indices) = length indices ∧
  ∀ k i, indices !! k = Some i →
         bars_at l indices !! k = l !! Z.to_nat (i `mod` Z.of_nat (length l)).
Proof.
  intros Hall. revert acc.
  induction Hall as [| i rest Hi _ IH]; intros acc.
  - split; [reflexivity |]. split; [reflexivity |]. intros k i Hk. discriminate.
  - destruct (py_getitem_in_range l i Hi) as (x & Hx & Hget).
    destruct (py_resolve_in_range (length l) i Hi) as [Hr _].
    destruct (IH (sums_add acc x)) as (IH1 & IH2 & IH3).
    assert (Hb : bars_at l (i :: rest) = x :: bars_at l rest).
    { unfold bars_at. simpl. rewrite Hr. simpl. rewrite Hx. reflexivity. }
    rewrite Hb. simpl sum_loop. rewrite Hget. simpl.
    split; [exact IH1 |]. split; [simpl; congruence |].
    intros [| k] j Hk; simpl in *.
    + injection Hk as <-. symmetry. exact Hx.
    + apply IH3. exact Hk.
Qed.

Lemma fold_py_add_float (xs : list num) (a : num) :
  fold_left py_add (map PFloat xs) (PFloat a) = PFloat (fold_left fadd xs a).
Proof. revert a. induction xs as [| x xs IH]; intros a; simpl; [reflexivity | apply IH]. Qed.

Lemma fold_py_add_float_from_zero (xs : list num) :
  xs ≠ [] → fold_left py_add (map PFloat xs) (PInt 0) = PFloat (fsum xs).
Proof.
  destruct xs as [| x xs]; [congruence |]. intros _. simpl.
  unfold fsum. simpl. apply fold_py_add_float.
Qed.

Lemma fold_py_add_int (xs : list Z) (a : Z) :
  fold_left py_add (map PInt xs) (PInt a) = PInt (fold_left Z.add xs a).
Proof. revert a. induction xs as [| x xs IH]; intros a; simpl; [reflexivity | apply IH]. Qed.

Lemma fold_sums_add (bars : list KLine) (acc : Sums) :
  fold_left sums_add bars acc =
  {| all_turn_over := fold_left py_add (map PFloat (map turn_over bars)) (all_turn_over acc);
     all_volume := fold_left py_add (map PFloat (map volume bars)) (all_volume acc);
     all_transaction_num :=
       fold_left py_add (map PInt (map transaction_num bars)) (all_transaction_num acc);
     all_buying_turn_over :=
       fold_left py_add (map PFloat (map buying_turn_over bars)) (all_buying_turn_over acc);
     all_buying_volume :=
       fold_left py_add (map PFloat (map buying_volume bars)) (all_buying_volume acc) |}.
Proof.
  revert acc. induction bars as [| b bars IH]; intros acc.
  - destruct acc; reflexivity.
  - simpl. rewrite IH. reflexivity.
Qed.

Lemma py_assert_true (msg : string) : py_assert true msg = Ok tt.
Proof. reflexivity. Qed.

(** The method on a window whose recorded length is the length of its list,
    for a window size of at least one bar. *)
Lemma calculate_average_ok (self : KLines) (start_index window_size : Z) :
  klines_num self = Z.of_nat (length (klines_list self)) →
  average_over_pre (klines_num self) start_index window_size →
  1 <= window_size →
  let bars := bars_at (klines_list self)
                (py_range start_index (start_index + window_size)) in
  calculate_average_data_by_given_window self start_index window_size =
    Ok (average_of_bars bars start_index (start_index + window_size - 1)) ∧
  Z.of_nat (length bars) = window_size ∧
  ∀ k : nat, Z.of_nat k < window_size →
    bars !! k = klines_list self
                  !! Z.to_nat ((start_index + Z.of_nat k) `mod` klines_num self).
Proof.
  intros Hnum (Hs & Hw & Hsw) Hpos bars.
  assert (Hall : Forall (λ i, - Z.of_nat (length (klines_list self)) < i
                              < Z.of_nat (length (klines_list self)))
                   (py_range start_index (start_index + window_size))).
  { apply Forall_forall. intros i Hi. apply py_range_bounds in Hi. lia. }
  destruct (sum_loop_in_range _ _ sums_zero Hall) as (Hloop & Hlen & Hlook).
  fold bars in Hloop, Hlen, Hlook.
  rewrite py_range_length in Hlen.
  assert (Hlen' : Z.of_nat (length bars) = window_size) by lia.
  assert (Hne : bars ≠ []).
  { intros Hnil. rewrite Hnil in Hlen'. simpl in Hlen'. lia. }
  split; [| split; [exact Hlen' |]].
  - unfold calculate_average_data_by_given_window.
    replace (Z.abs start_index <? klines_num self) with true
      by (symmetry; apply Z.ltb_lt; lia).
    replace (Z.abs window_size <=? klines_num self) with true
      by (symmetry; apply Z.leb_le; lia).
    replace (Z.abs (start_index + window_size) <=? klines_num self) with true
      by (symmetry; apply Z.leb_le; lia).
    rewrite !py_assert_true. simpl. rewrite Hloop. simpl.
    rewrite fold_sums_add. simpl.
    unfold py_truediv.
    replace (window_size =? 0) with false by (symmetry; apply Z.eqb_neq; lia).
    rewrite !fold_py_add_float_from_zero
      by (intros Hm; apply map_eq_nil in Hm; contradiction).
    rewrite fold_py_add_int. simpl.
    unfold average_of_bars, fmean, zmean, zsum.
    rewrite !length_map, Hlen'. reflexivity.
  - intros k Hk. rewrite Hnum.
    apply Hlook. apply py_range_lookup. lia.
Qed.

Lemma py_range_single (a : Z) : py_range a (a + 1) = [a].
Proof.
  unfold py_range. replace (Z.to_nat (a + 1 - a)) with 1%nat by lia.
  simpl. f_equal. lia.
Qed.

Lemma bars_at_single (l : list KLine) (i : Z) (j : nat) (x : KLine) :
  py_resolve (length l) i = Some j → l !! j = Some x → bars_at l [i] = [x].
Proof. intros Hr Hx. unfold bars_at. simpl. rewrite Hr. simpl. rewrite Hx. reflexivity. Qed.

(** The indices [0 .. m-1] address the first [m] bars. *)
Lemma bars_at_take (l : list KLine) (m : nat) :
  (m <= length l)%nat → bars_at l (py_range 0 (Z.of_nat m)) = take m l.
Proof.
  induction m as [| m IH]; intros Hm.
  - reflexivity.
  - rewrite (py_range_split 0 (Z.of_nat m) (Z.of_nat (S m))) by lia.
    replace (Z.of_nat (S m)) with (Z.of_nat m + 1) by lia.
    rewrite py_range_single, bars_at_app, IH by lia.
    destruct (lookup_lt_is_Some_2 l m) as [x Hx]; [lia |].
    rewrite (take_S_r l m x Hx). f_equal.
    apply (bars_at_single l _ m x); [| exact Hx].
    destruct (py_resolve_in_range (length l) (Z.of_nat m)) as [Hr _]; [lia |].
    rewrite Hr, Z.mod_small by lia. f_equal. lia.
Qed.

(** The indices [-d .. -1] address the last [d] bars. *)
Lemma bars_at_drop (l : list KLine) (d : nat) :
  (d <= length l)%nat →
  bars_at l (py_range (- Z.of_nat d) 0) = drop (length l - d) l.
Proof.
  induction d as [| d IH]; intros Hd.
  - simpl. rewrite Nat.sub_0_r, drop_all. reflexivity.
  - rewrite (py_range_split (- Z.of_nat (S d)) (- Z.of_nat d) 0) by lia.
    replace (- Z.of_nat d) with (- Z.of_nat (S d) + 1) at 1 by lia.
    rewrite py_range_single, bars_at_app, IH by lia.
    destruct (lookup_lt_is_Some_2 l (length l - S d)) as [x Hx]; [lia |].
    rewrite (drop_S l x (length l - S d) Hx).
    replace (S (length l - S d)) with (length l - d)%nat by lia.
    change (x :: drop (length l - d) l) with ([x] ++ drop (length l - d) l).
    f_equal.
    apply (bars_at_single l _ (length l - S d) x); [| exact Hx].
    unfold py_resolve.
    replace (- Z.of_nat (S d) <? 0) with true by (symmetry; apply Z.ltb_lt; lia).
    replace ((0 <=? - Z.of_nat (S d) + Z.of_nat (length l)) &&
             (- Z.of_nat (S d) + Z.of_nat (length l) <? Z.of_nat (length l)))
      with true
      by (symmetry; apply andb_true_iff; split; [apply Z.leb_le | apply Z.ltb_lt]; lia).
    f_equal. lia.
Qed.

Lemma sum_loop_raises (l : list KLine) (indices : list Z) (acc : Sums) (e : exn) :
  sum_loop l indices acc = Raise e → e = IndexError.
Proof.
  revert acc. induction indices as [| i rest IH]; intros acc; simpl.
  - discriminate.
  - unfold py_getitem. destruct (py_resolve (length l) i) as [j |]; simpl.
    + destruct (l !! j); simpl; [apply IH | congruence].
    + congruence.
Qed.

Lemma py_truediv_raises (a : pynum) (b : Z) (e : exn) :
  py_truediv a b = Raise e → e = ZeroDivisionError.
Proof. unfold py_truediv. destruct (b =? 0); congruence. Qed.

(** The three assertions are the only source of [AssertionError]. *)
Lemma calculate_average_assertion (self : KLines) (start_index window_size : Z) :
  (∃ msg, calculate_average_data_by_given_window self start_index window_size
          = Raise (AssertionError msg)) ↔
  ¬ average_over_pre (klines_num self) start_index window_size.
Proof.
  unfold calculate_average_data_by_given_window, average_over_pre.
  destruct (Z.ltb_spec (Z.abs start_index) (klines_num self)) as [H1 | H1].
  2: { simpl. split; [lia | eauto]. }
  destruct (Z.leb_spec (Z.abs window_size) (klines_num self)) as [H2 | H2].
  2: { simpl. split; [lia | eauto]. }
  destruct (Z.leb_spec (Z.abs (start_index + window_size)) (klines_num self)) as [H3 | H3].
  2: { simpl. split; [lia | eauto]. }
  simpl. split; [| tauto].
  intros [msg Hr]. exfalso.
  destruct (sum_loop _ _ _) as [acc | e] eqn:Hloop; simpl in Hr.
  - repeat match type of Hr with
           | context [py_truediv ?a ?b] =>
               let E := fresh "E" in
               destruct (py_truediv a b) eqn:E; simpl in Hr;
               [| apply py_truediv_raises in E; congruence]
           end.
    discriminate.
  - apply sum_loop_raises in Hloop. congruence.
Qed.

Lemma calculate_average_indices (self : KLines) (start window_size : Z)
    (avg : KLinesAverageData) :
  calculate_average_data_by_given_window self start window_size = Ok avg →
  start_index avg = start ∧
  end_index avg - start_index avg + 1 = window_size.
Proof.
  unfold calculate_average_data_by_given_window. intros Hr.
  repeat match type of Hr with
         | context [py_assert ?c ?m] => destruct (py_assert c m); simpl in Hr; [| discriminate]
         end.
  destruct (sum_loop _ _ _) as [acc | e]; simpl in Hr; [| discriminate].
  repeat match type of Hr with
         | context [py_truediv ?a ?b] => destruct (py_truediv a b); simpl in Hr; [| discriminate]
         end.
  injection Hr as <-. simpl. split; [reflexivity | lia].
Qed.

(** C5, as amended: the method raises [AssertionError] (the document's
    [RangeError]) exactly when one of [|start_index| < length],
    [|window_size| <= length], [|start_index + window_size| <= length]
    fails; when the three hold and the window size is at least 1 it returns
    the arithmetic mean of each of the five fields over exactly the
    [window_size] bars at the indices [start_index .. start_index +
    window_size - 1], a negative index addressing [length + index]; and any
    record it returns has [end_index - start_index + 1 = window_size]. *)
Theorem average_over_contract (self : KLines) (start window_size : Z) :
  klines_num self = Z.of_nat (length (klines_list self)) →
  ((∃ msg, calculate_average_data_by_given_window self start window_size
           = Raise (AssertionError msg)) ↔
   ¬ average_over_pre (klines_num self) start window_size) ∧
  (average_over_pre (klines_num self) start window_size → 1 <= window_size →
   let bars := bars_at (klines_list self)
                 (py_range start (start + window_size)) in
   calculate_average_data_by_given_window self start window_size =
     Ok (average_of_bars bars start (start + window_size - 1)) ∧
   Z.of_nat (length bars) = window_size ∧
   ∀ k : nat, Z.of_nat k < window_size →
     bars !! k = klines_list self
                   !! Z.to_nat ((start + Z.of_nat k) `mod` klines_num self)) ∧
  (∀ avg, calculate_average_data_by_given_window self start window_size = Ok avg →
          end_index avg - start_index avg + 1 = window_size).
Proof.
  intros Hnum. split; [apply calculate_average_assertion |]. split.
  - intros Hpre Hpos. apply calculate_average_ok; assumption.
  - intros avg Havg. apply (calculate_average_indices _ _ _ _ Havg).
Qed.

(** C9: with a negative [start_index] and [start_index + window_size > 0],
    which the three preconditions allow, the bars averaged are not a
    contiguous run: they are the last [|start_index|] bars of the window
    followed by its first [start_index + window_size] bars. *)
Theorem average_over_wraps_around (self : KLines) (start_index window_size : Z) :
  klines_num self = Z.of_nat (length (klines_list self)) →
  average_over_pre (klines_num self) start_index window_size →
  start_index < 0 → 0 < start_index + window_size →
  let tail := drop (Z.to_nat (klines_num self + start_index)) (klines_list self) in
  let head := take (Z.to_nat (start_index + window_size)) (klines_list self) in
  calculate_average_data_by_given_window self start_index window_size =
    Ok (average_of_bars (tail ++ head) start_index (start_index + window_size - 1)) ∧
  Z.of_nat (length tail) = - start_index ∧
  Z.of_nat (length head) = start_index + window_size.
Proof.
  intros Hnum Hpre Hneg Hpos tail head.
  destruct (calculate_average_ok self start_index window_size Hnum Hpre) as (Hok & _ & _);
    [lia |].
  destruct Hpre as (Hs & Hw & Hsw).
  assert (Hbars : bars_at (klines_list self)
                    (py_range start_index (start_index + window_size)) = tail ++ head).
  { rewrite (py_range_split start_index 0 (start_index + window_size)) by lia.
    rewrite bars_at_app. f_equal.
    - replace start_index with (- Z.of_nat (Z.to_nat (- start_index))) at 1 by lia.
      rewrite bars_at_drop by lia. unfold tail. f_equal. lia.
    - replace (start_index + window_size)
        with (Z.of_nat (Z.to_nat (start_index + window_size))) at 1 by lia.
      apply bars_at_take. lia. }
  rewrite Hbars in Hok. split; [exact Hok |]. split.
  - unfold tail. rewrite length_drop. lia.
  - unfold head. rewrite length_take. lia.
Qed.

(** ** The ratio *)

(** The indices [a .. length-1] address the bars from position [a] on. *)
Lemma bars_at_suffix (l : list KLine) (a : nat) :
  (a <= length l)%nat →
  bars_at l (py_range (Z.of_nat a) (Z.of_nat (length l))) = drop a l.
Proof.
  intros Ha.
  assert (Hall : Forall (λ i, - Z.of_nat (length l) < i < Z.of_nat (length l))
                   (py_range (Z.of_nat a) (Z.of_nat (length l)))).
  { apply Forall_forall. intros i Hi. apply py_range_bounds in Hi. lia. }
  destruct (sum_loop_in_range l _ sums_zero Hall) as (_ & Hlen & Hlook).
  rewrite py_range_length in Hlen.
  apply list_eq. intros k. rewrite lookup_drop.
  destruct (Nat.lt_ge_cases k (length l - a)) as [Hk | Hk].
  - rewrite (Hlook k (Z.of_nat a + Z.of_nat k)) by (apply py_range_lookup; lia).
    rewrite Z.mod_small by lia. f_equal. lia.
  - rewrite lookup_ge_None_2 by lia. symmetry. apply lookup_ge_None_2. lia.
Qed.

(** On a full window the call [(max - size, size)] of the ranking passes
    averages the last [size] bars. *)
Lemma calculate_average_last (self : KLines) (size : Z) :
  klines_num self = Z.of_nat (length (klines_list self)) →
  1 <= size <= klines_num self →
  calculate_average_data_by_given_window self (klines_num self - size) size =
    Ok (average_of_bars (drop (Z.to_nat (klines_num self - size)) (klines_list self))
          (klines_num self - size) (klines_num self - 1)).
Proof.
  intros Hnum Hsize.
  destruct (calculate_average_ok self (klines_num self - size) size Hnum) as (Hok & _ & _).
  { unfold average_over_pre. lia. }
  { lia. }
  rewrite Hok.
  replace (klines_num self - size + size) with (Z.of_nat (length (klines_list self))) by lia.
  replace (klines_num self - size) with (Z.of_nat (Z.to_nat (klines_num self - size))) at 1 by lia.
  rewrite bars_at_suffix by lia.
  replace (Z.of_nat (Z.to_nat (klines_num self - size))) with (klines_num self - size) by lia.
  rewrite Hnum. reflexivity.
Qed.

(** The documented call [(-size, size)] averages the same bars, when it is
    allowed at all, that is for [size] below the window length. *)
Lemma calculate_average_negative (self : KLines) (size : Z) :
  klines_num self = Z.of_nat (length (klines_list self)) →
  1 <= size < klines_num self →
  calculate_average_data_by_given_window self (- size) size =
    Ok (average_of_bars (drop (Z.to_nat (klines_num self - size)) (klines_list self))
          (- size) (- 1)).
Proof.
  intros Hnum Hsize.
  destruct (calculate_average_ok self (- size) size Hnum) as (Hok & _ & _).
  { unfold average_over_pre. lia. }
  { lia. }
  rewrite Hok.
  replace (- size + size) with 0 by lia.
  replace (- size) with (- Z.of_nat (Z.to_nat size)) at 1 by lia.
  rewrite bars_at_drop by lia.
  replace (Z.to_nat (klines_num self - size))
    with (length (klines_list self) - Z.to_nat size)%nat by lia.
  reflexivity.
Qed.

(** C2, as amended: on a window whose length is [max_klines_num], for
    sizes [1 <= p, r <= max_klines_num], the ratio of the ranking passes is
    [(recent - past) / past] with [past] and [recent] the average buying
    volume of the last [p] and of the last [r] bars, obtained by the calls
    [(max_klines_num - p, p)] and [(max_klines_num - r, r)], and it is the
    int [0] when [past == 0]; for [p, r < max_klines_num] this is the
    documented ratio, taken with [average_over(-p, p)] and
    [average_over(-r, r)]. *)
Theorem ratio_on_full_window (max_klines_num : Z) (window : KLines) (p r : Z) :
  klines_num window = Z.of_nat (length (klines_list window)) →
  klines_num window = max_klines_num →
  1 <= p <= max_klines_num →
  1 <= r <= max_klines_num →
  let past := fmean (map buying_volume
                       (drop (Z.to_nat (max_klines_num - p)) (klines_list window))) in
  let recent := fmean (map buying_volume
                         (drop (Z.to_nat (max_klines_num - r)) (klines_list window))) in
  (∃ past_avg recent_avg,
     calculate_average_data_by_given_window window (max_klines_num - p) p = Ok past_avg ∧
     calculate_average_data_by_given_window window (max_klines_num - r) r = Ok recent_avg ∧
     avg_buying_volume past_avg = past ∧ avg_buying_volume recent_avg = recent) ∧
  buying_volume_diff_ratio max_klines_num window p r =
    Ok (if feqb past (of_Z 0) then PInt 0
        else PFloat (fdiv (fsub recent past) past)) ∧
  (p < max_klines_num → r < max_klines_num →
   buying_volume_diff_ratio max_klines_num window p r = ratio_as_documented window p r).
Proof.
  intros Hnum Hmax Hp Hr past recent. subst max_klines_num.
  pose proof (calculate_average_last window p Hnum Hp) as Hpast.
  pose proof (calculate_average_last window r Hnum Hr) as Hrecent.
  split; [| split].
  - eexists _, _. split; [exact Hpast |]. split; [exact Hrecent |]. split; reflexivity.
  - unfold buying_volume_diff_ratio. rewrite Hpast, Hrecent. simpl.
    fold past recent. destruct (feqb past (of_Z 0)); reflexivity.
  - intros Hp' Hr'.
    unfold buying_volume_diff_ratio, ratio_as_documented.
    rewrite Hpast, Hrecent.
    rewrite (calculate_average_negative window p Hnum) by lia.
    rewrite (calculate_average_negative window r Hnum) by lia.
    reflexivity.
Qed.

(** ** sorted: ordered, a permutation, stable *)

Section SortedProperties.
Context {A K : Type} (key : A → K) (ltb : K → K → bool).
Hypothesis ltb_asym : ∀ x y, ltb x y = true → ltb y x = false.
Hypothesis ltb_negtrans : ∀ x y z, ltb x y = false → ltb y z = false → ltb x z = false.





Lemma StronglySorted_snoc (R : A → A → Prop) (l : list A) (x : A) :
  StronglySorted R l → Forall (λ y, R y x) l → StronglySorted R (l ++ [x]).
Proof.
  induction l as [| y l IH]; intros Hs Hall; simpl.
  - constructor; constructor.
  - apply StronglySorted_inv in Hs as [Hl Hy].
    apply Forall_cons_1 in Hall as [Hyx Hall].
    constructor; [apply IH; assumption |].
    apply Forall_app. split; [exact Hy |]. constructor; [exact Hyx | constructor].
Qed.






End SortedProperties.


(** ** More on the window and the bar *)

Lemma list_snoc_cases {A} (l : list A) : l = [] ∨ ∃ init x, l = init ++ [x].
Proof.
  destruct l as [| a l] using rev_ind; [left; reflexivity | right; eauto].
Qed.

Lemma StronglySorted_snoc_inv {A} (R : A → A → Prop) (l : list A) (x : A) :
  StronglySorted R (l ++ [x]) → StronglySorted R l ∧ Forall (λ y, R y x) l.
Proof.
  induction l as [| y l IH]; simpl; intros Hs.
  - split; constructor.
  - apply StronglySorted_inv in Hs as [Hl Hy].
    destruct (IH Hl) as [IH1 IH2].
    apply Forall_app in Hy as [Hy Hyx]. apply Forall_cons_1 in Hyx as [Hyx _].
    split; constructor; assumption.
Qed.

Lemma update_latest_klines_lengths (self self' : KLines) (kline : KLine) (b : bool) :
  update_latest_klines self kline = Ok (b, self') →
  length (klines_list self') = length (klines_list self) ∧
  klines_num self' = klines_num self.
Proof.
  destruct (list_snoc_cases (klines_list self)) as [Hnil | (init & lst & Hl)].
  - unfold update_latest_klines. rewrite Hnil. discriminate.
  - rewrite (update_latest_klines_snoc self init lst kline Hl), Hl.
    destruct (update_branch lst kline); intros [= <- <-]; simpl.
    + rewrite !length_app. split; reflexivity.
    + rewrite !length_app, length_drop, length_app. simpl. split; [lia | reflexivity].
    + rewrite Hl. split; reflexivity.
Qed.

(** The update keeps the length of the window, and the length recorded at
    construction: a window whose two lengths agree keeps that. *)
Theorem update_keeps_length (self self' : KLines) (kline : KLine) (b : bool) :
  update_latest_klines self kline = Ok (b, self') →
  length (klines_list self') = length (klines_list self) ∧
  klines_num self' = klines_num self.
Proof. exact (update_latest_klines_lengths self self' kline b). Qed.

(** The update raises on the empty window only, and then [IndexError]: on a
    window with a bar it always returns. *)
Theorem update_raises_on_empty_only (self : KLines) (kline : KLine) (e : exn) :
  update_latest_klines self kline = Raise e ↔ klines_list self = [] ∧ e = IndexError.
Proof.
  destruct (list_snoc_cases (klines_list self)) as [Hnil | (init & lst & Hl)].
  - unfold update_latest_klines. rewrite Hnil. simpl. split.
    + intros [= <-]. split; reflexivity.
    + intros [_ ->]. reflexivity.
  - rewrite (update_latest_klines_snoc self init lst kline Hl), Hl. split.
    + destruct (update_branch lst kline); discriminate.
    + intros [Hnil _]. destruct init; discriminate.
Qed.

(** After an accepted update the latest bar of the window is the new bar;
    after a rejected one it is the bar it was. *)
Theorem update_then_latest (self self' : KLines) (kline : KLine) (b : bool) :
  update_latest_klines self kline = Ok (b, self') →
  klines_get_latest_kline self' =
    if b then Ok kline else klines_get_latest_kline self.
Proof.
  destruct (list_snoc_cases (klines_list self)) as [Hnil | (init & lst & Hl)].
  - unfold update_latest_klines. rewrite Hnil. discriminate.
  - rewrite (update_latest_klines_snoc self init lst kline Hl).
    unfold klines_get_latest_kline.
    destruct (update_branch lst kline); intros [= <- <-]; simpl.
    + apply py_getitem_last.
    + apply py_getitem_last.
    + reflexivity.
Qed.

(** Applying the same bar a second time changes nothing: the window after
    the first update is the window after the second, with the same
    answer. *)
Theorem update_idempotent (self self' : KLines) (kline : KLine) (b : bool) :
  update_latest_klines self kline = Ok (b, self') →
  update_latest_klines self' kline = Ok (b, self').
Proof.
  assert (Hsame : update_branch kline kline = Revision).
  { apply update_branch_revision. split; [lia | reflexivity]. }
  destruct (list_snoc_cases (klines_list self)) as [Hnil | (init & lst & Hl)].
  - unfold update_latest_klines. rewrite Hnil. discriminate.
  - intros Hfirst. pose proof Hfirst as Hstep.
    rewrite (update_latest_klines_snoc self init lst kline Hl) in Hstep.
    destruct (update_branch lst kline) eqn:Hb; injection Hstep as <- <-.
    + rewrite (update_latest_klines_snoc (set_klines_list self (init ++ [kline]))
                 init kline kline eq_refl), Hsame.
      reflexivity.
    + rewrite (update_latest_klines_snoc
                 (set_klines_list self (drop 1 (init ++ [lst]) ++ [kline]))
                 (drop 1 (init ++ [lst])) kline kline eq_refl), Hsame.
      reflexivity.
    + exact Hfirst.
Qed.

(** A window ordered by strictly increasing start time stays so under the
    update. *)
Theorem update_keeps_start_time_order (self self' : KLines) (kline : KLine) (b : bool) :
  StronglySorted (λ x y, start_time x < start_time y) (klines_list self) →
  update_latest_klines self kline = Ok (b, self') →
  StronglySorted (λ x y, start_time x < start_time y) (klines_list self').
Proof.
  intros Hsorted.
  destruct (list_snoc_cases (klines_list self)) as [Hnil | (init & lst & Hl)].
  - unfold update_latest_klines. rewrite Hnil. discriminate.
  - rewrite (update_latest_klines_snoc self init lst kline Hl).
    rewrite Hl in Hsorted.
    destruct (StronglySorted_snoc_inv _ _ _ Hsorted) as [Hinit Hbelow].
    destruct (update_branch lst kline) eqn:Hb; intros [= <- <-]; simpl.
    + apply update_branch_revision in Hb as [_ Hstart].
      apply StronglySorted_snoc; [exact Hinit |].
      eapply Forall_impl; [exact Hbelow |]. simpl. intros y Hy. lia.
    + apply update_branch_advance in Hb as [_ Hstart].
      apply StronglySorted_snoc.
      * destruct init as [| a init]; simpl; [constructor |].
        simpl in Hsorted. apply StronglySorted_inv in Hsorted as [Htail _]. exact Htail.
      * apply Forall_forall. intros y Hy.
        apply (subseteq_drop 1) in Hy.
        apply elem_of_app in Hy as [Hy | Hy].
        -- rewrite Forall_forall in Hbelow. specialize (Hbelow y Hy). simpl in Hbelow. lia.
        -- apply list_elem_of_singleton in Hy as ->. lia.
    + rewrite Hl. exact Hsorted.
Qed.

(** *** The outcomes of the windowed average *)

Lemma py_range_empty (a b : Z) : b <= a → py_range a b = [].
Proof. intros Hba. unfold py_range. replace (Z.to_nat (b - a)) with 0%nat by lia. reflexivity. Qed.

Lemma calculate_average_nonpositive (self : KLines) (start window_size : Z) :
  average_over_pre (klines_num self) start window_size →
  window_size <= 0 →
  calculate_average_data_by_given_window self start window_size =
    if window_size =? 0 then Raise ZeroDivisionError
    else Ok {| avg_turn_over := zdiv 0 window_size;
               avg_volume := zdiv 0 window_size;
               avg_transaction_num := zdiv 0 window_size;
               avg_buying_turn_over := zdiv 0 window_size;
               avg_buying_volume := zdiv 0 window_size;
               start_index := start;
               end_index := start + window_size - 1 |}.
Proof.
  intros (Hs & Hw & Hsw) Hle.
  unfold calculate_average_data_by_given_window.
  replace (Z.abs start <? klines_num self) with true
    by (symmetry; apply Z.ltb_lt; lia).
  replace (Z.abs window_size <=? klines_num self) with true
    by (symmetry; apply Z.leb_le; lia).
  replace (Z.abs (start + window_size) <=? klines_num self) with true
    by (symmetry; apply Z.leb_le; lia).
  rewrite !py_assert_true. simpl.
  rewrite py_range_empty by lia. simpl.
  unfold py_truediv. destruct (window_size =? 0); reflexivity.
Qed.

(** On a window whose recorded length is the length of its list the
    averaging method has three outcomes and no other: [AssertionError] when
    a precondition fails (C5), [ZeroDivisionError] exactly when the
    preconditions hold and the size is 0, a record otherwise.  It never
    raises [IndexError].  With a negative size that passes the assertions
    it visits no bar and every average is [0 / window_size]. *)
Theorem average_outcomes (self : KLines) (start window_size : Z) :
  klines_num self = Z.of_nat (length (klines_list self)) →
  (calculate_average_data_by_given_window self start window_size = Raise ZeroDivisionError ↔
   average_over_pre (klines_num self) start window_size ∧ window_size = 0) ∧
  ((∃ avg, calculate_average_data_by_given_window self start window_size = Ok avg) ↔
   average_over_pre (klines_num self) start window_size ∧ window_size ≠ 0) ∧
  calculate_average_data_by_given_window self start window_size ≠ Raise IndexError ∧
  (average_over_pre (klines_num self) start window_size → window_size < 0 →
   calculate_average_data_by_given_window self start window_size =
     Ok {| avg_turn_over := zdiv 0 window_size;
           avg_volume := zdiv 0 window_size;
           avg_transaction_num := zdiv 0 window_size;
           avg_buying_turn_over := zdiv 0 window_size;
           avg_buying_volume := zdiv 0 window_size;
           start_index := start;
           end_index := start + window_size - 1 |}).
Proof.
  intros Hnum.
  assert (Hdec : average_over_pre (klines_num self) start window_size ∨
                 ¬ average_over_pre (klines_num self) start window_size)
    by (unfold average_over_pre; lia).
  destruct Hdec as [Hpre | Hnpre].
  - destruct (Z.lt_trichotomy window_size 0) as [Hneg | [Hzero | Hpos]].
    + rewrite (calculate_average_nonpositive self start window_size Hpre) by lia.
      replace (window_size =? 0) with false by (symmetry; apply Z.eqb_neq; lia).
      split; [split; [discriminate | lia] |].
      split; [split; [intros _; split; [exact Hpre | lia] | eauto] |].
      split; [discriminate | reflexivity].
    + rewrite (calculate_average_nonpositive self start window_size Hpre) by lia.
      replace (window_size =? 0) with true by (symmetry; apply Z.eqb_eq; lia).
      split; [split; [intros _; split; assumption | reflexivity] |].
      split; [split; [intros [avg Havg]; discriminate | lia] |].
      split; [discriminate | lia].
    + destruct (calculate_average_ok self start window_size Hnum Hpre) as (-> & _ & _);
        [lia |].
      split; [split; [discriminate | lia] |].
      split; [split; [intros _; split; [exact Hpre | lia] | eauto] |].
      split; [discriminate | lia].
  - destruct (proj2 (calculate_average_assertion self start window_size) Hnpre) as [msg ->].
    split; [split; [discriminate | tauto] |].
    split; [split; [intros [avg Havg]; discriminate | tauto] |].
    split; [discriminate | tauto].
Qed.

(** *** Rows and bars *)

Lemma py_getitem_nat {A} (l : list A) (i : nat) :
  py_getitem l (Z.of_nat i) =
  match l !! i with Some x => Ok x | None => Raise IndexError end.
Proof.
  unfold py_getitem, py_resolve.
  replace (Z.of_nat i <? 0) with false by (symmetry; apply Z.ltb_ge; lia).
  replace (0 <=? Z.of_nat i) with true by (symmetry; apply Z.leb_le; lia).
  simpl. destruct (Z.ltb_spec (Z.of_nat i) (Z.of_nat (length l))) as [Hlt | Hge].
  - rewrite Nat2Z.id. reflexivity.
  - rewrite lookup_ge_None_2 by lia. reflexivity.
Qed.

Lemma kline_of_row_fields (kline : list pyval) :
  kline_of_row kline =
  match kline with
  | a0 :: a1 :: a2 :: a3 :: a4 :: a5 :: a6 :: a7 :: a8 :: a9 :: a10 :: a11 :: _ =>
      KLine_init a0 a1 a2 a3 a4 a5 a6 a7 a8 a9 a10 a11
  | _ => Raise IndexError
  end.
Proof.
  unfold kline_of_row.
  change 0 with (Z.of_nat 0). change 1 with (Z.of_nat 1). change 2 with (Z.of_nat 2).
  change 3 with (Z.of_nat 3). change 4 with (Z.of_nat 4). change 5 with (Z.of_nat 5).
  change 6 with (Z.of_nat 6). change 7 with (Z.of_nat 7). change 8 with (Z.of_nat 8).
  change 9 with (Z.of_nat 9). change 10 with (Z.of_nat 10). change 11 with (Z.of_nat 11).
  rewrite !py_getitem_nat.
  do 12 (destruct kline as [| ? kline]; [reflexivity |]).
  reflexivity.
Qed.

(** A row with fewer than twelve fields raises [IndexError], whatever the
    fields are; of a longer row only the first twelve fields matter. *)
Theorem kline_of_row_length (kline : list pyval) :
  ((length kline < 12)%nat → kline_of_row kline = Raise IndexError) ∧
  kline_of_row kline = kline_of_row (take 12 kline).
Proof.
  rewrite !kline_of_row_fields. split.
  - intros Hlen.
    do 12 (destruct kline as [| ? kline]; [reflexivity |]).
    simpl in Hlen. lia.
  - do 12 (destruct kline as [| ? kline]; [reflexivity |]).
    reflexivity.
Qed.

Lemma convert_rows_spec (rows : list (list pyval)) (ks : list KLine) :
  convert_rows rows = Ok ks ↔ Forall2 (λ row k, kline_of_row row = Ok k) rows ks.
Proof.
  revert ks. induction rows as [| row rows IH]; intros ks; simpl.
  - split.
    + intros [= <-]. constructor.
    + intros Hall. apply Forall2_nil_inv_l in Hall as ->. reflexivity.
  - split.
    + destruct (kline_of_row row) as [k | e] eqn:Hk; simpl; [| discriminate].
      destruct (convert_rows rows) as [ks' | e] eqn:Hks; simpl; [| discriminate].
      intros [= <-]. constructor; [exact Hk | apply IH; reflexivity].
    + intros Hall. apply Forall2_cons_inv_l in Hall as (k & ks' & Hk & Hks & ->).
      rewrite Hk. simpl. apply IH in Hks. rewrite Hks. reflexivity.
Qed.

(** The conversion of the rows of a response succeeds exactly when every
    row builds a bar; the window then holds those bars in the order of the
    rows, and its recorded length is the number of rows. *)
Theorem convert_klines_list_to_klines_spec (rows : list (list pyval)) (window : KLines) :
  (convert_klines_list_to_klines rows = Ok window ↔
   ∃ ks, Forall2 (λ row k, kline_of_row row = Ok k) rows ks ∧ window = KLines_init ks) ∧
  (convert_klines_list_to_klines rows = Ok window →
   klines_num window = Z.of_nat (length rows) ∧
   length (klines_list window) = length rows).
Proof.
  assert (Hiff : convert_klines_list_to_klines rows = Ok window ↔
                 ∃ ks, Forall2 (λ row k, kline_of_row row = Ok k) rows ks ∧
                       window = KLines_init ks).
  { unfold convert_klines_list_to_klines. split.
    - destruct (convert_rows rows) as [ks | e] eqn:Hks; simpl; [| discriminate].
      intros [= <-]. exists ks. split; [apply convert_rows_spec, Hks | reflexivity].
    - intros (ks & Hall & ->). apply convert_rows_spec in Hall. rewrite Hall. reflexivity. }
  split; [exact Hiff |].
  intros Hok. apply Hiff in Hok as (ks & Hall & ->).
  apply Forall2_length in Hall. simpl. rewrite Hall. split; reflexivity.
Qed.

(** *** The averaging method of info_requester.py *)

Lemma py_resolve_valid (n : nat) (i : Z) :
  - Z.of_nat n <= i < Z.of_nat n →
  ∃ j, py_resolve n i = Some j ∧ (j < n)%nat.
Proof.
  intros Hi. unfold py_resolve.
  destruct (Z.ltb_spec i 0) as [Hneg | Hpos].
  - replace ((0 <=? i + Z.of_nat n) && (i + Z.of_nat n <? Z.of_nat n)) with true
      by (symmetry; apply andb_true_iff; split; [apply Z.leb_le | apply Z.ltb_lt]; lia).
    eexists. split; [reflexivity | lia].
  - replace ((0 <=? i) && (i <? Z.of_nat n)) with true
      by (symmetry; apply andb_true_iff; split; [apply Z.leb_le | apply Z.ltb_lt]; lia).
    eexists. split; [reflexivity | lia].
Qed.

Lemma py_getitem_below {A} (l : list A) (i : Z) :
  i < - Z.of_nat (length l) → py_getitem l i = Raise IndexError.
Proof.
  intros Hi. unfold py_getitem, py_resolve.
  replace (i <? 0) with true by (symmetry; apply Z.ltb_lt; lia).
  replace (0 <=? i + Z.of_nat (length l)) with false by (symmetry; apply Z.leb_gt; lia).
  reflexivity.
Qed.

Lemma buying_volume_loop_valid (l : list KLine) (indices : list Z) (acc : pynum) :
  Forall (λ i, - Z.of_nat (length l) <= i < Z.of_nat (length l)) indices →
  buying_volume_loop l indices acc =
    Ok (fold_left py_add (map PFloat (map buying_volume (bars_at l indices))) acc) ∧
  length (bars_at l indices) = length indices.
Proof.
  intros Hall. revert acc.
  induction Hall as [| i rest Hi _ IH]; intros acc.
  - split; reflexivity.
  - destruct (py_resolve_valid (length l) i Hi) as (j & Hr & Hj).
    destruct (lookup_lt_is_Some_2 l j Hj) as [x Hx].
    assert (Hb : bars_at l (i :: rest) = x :: bars_at l rest).
    { unfold bars_at. simpl. rewrite Hr. simpl. rewrite Hx. reflexivity. }
    assert (Hget : py_getitem l i = Ok x).
    { unfold py_getitem. rewrite Hr, Hx. reflexivity. }
    rewrite Hb. simpl. rewrite Hget. simpl.
    destruct (IH (py_add acc (PFloat (buying_volume x)))) as [IH1 IH2].
    split; [exact IH1 | congruence].
Qed.

Lemma average_buying_volume_cases (self : KLines) (start window_size : Z) :
  klines_num self = Z.of_nat (length (klines_list self)) →
  ((∃ msg, calculate_average_buying_volume_by_given_window self start window_size
           = Raise (AssertionError msg)) ↔
   ¬ (start + window_size <= klines_num self ∧ 1 <= window_size)) ∧
  (start + window_size <= klines_num self → 1 <= window_size →
   - klines_num self <= start →
   let bars := bars_at (klines_list self) (py_range start (start + window_size)) in
   calculate_average_buying_volume_by_given_window self start window_size
     = Ok (fmean (map buying_volume bars)) ∧
   Z.of_nat (length bars) = window_size) ∧
  (start + window_size <= klines_num self → 1 <= window_size →
   start < - klines_num self →
   calculate_average_buying_volume_by_given_window self start window_size
     = Raise IndexError).
Proof.
  intros Hnum. unfold calculate_average_buying_volume_by_given_window.
  destruct (Z.leb_spec (start + window_size) (klines_num self)) as [H1 | H1].
  2: { simpl. split; [split; [lia | eauto] |]. split; intros; lia. }
  destruct (Z.leb_spec 1 window_size) as [H2 | H2].
  2: { simpl. split; [split; [lia | eauto] |]. split; intros; lia. }
  simpl.
  destruct (Z_le_gt_dec (- klines_num self) start) as [Hlow | Hlow].
  - assert (Hall : Forall (λ i, - Z.of_nat (length (klines_list self)) <= i
                                < Z.of_nat (length (klines_list self)))
                     (py_range start (start + window_size))).
    { apply Forall_forall. intros i Hi. apply py_range_bounds in Hi. lia. }
    destruct (buying_volume_loop_valid _ _ (PInt 0) Hall) as [Hloop Hlen].
    rewrite py_range_length in Hlen.
    set (bars := bars_at (klines_list self) (py_range start (start + window_size))) in *.
    assert (Hlen' : Z.of_nat (length bars) = window_size) by lia.
    assert (Hne : map buying_volume bars ≠ []).
    { intros Hm. apply map_eq_nil in Hm. rewrite Hm in Hlen'. simpl in Hlen'. lia. }
    rewrite Hloop. simpl. rewrite (fold_py_add_float_from_zero _ Hne).
    unfold py_truediv.
    replace (window_size =? 0) with false by (symmetry; apply Z.eqb_neq; lia).
    split; [split; [intros [msg Hm]; discriminate | tauto] |].
    split; [| intros; lia].
    intros _ _ _. split; [| exact Hlen'].
    unfold fmean. rewrite length_map, Hlen'. reflexivity.
  - assert (Hrange : py_range start (start + window_size)
                     = start :: py_range (start + 1) (start + window_size)).
    { rewrite (py_range_split start (start + 1) (start + window_size)) by lia.
      rewrite py_range_single. reflexivity. }
    rewrite Hrange. simpl. rewrite py_getitem_below by lia. simpl.
    split; [split; [intros [msg Hm]; discriminate | tauto] |].
    split; [intros; lia | reflexivity].
Qed.

(** The averaging method of info_requester.py on a window whose recorded
    length [n] is the length of its list.  It raises [AssertionError]
    exactly when [start_index + window_size <= n] or [window_size >= 1]
    fails.  Past the assertions it returns the mean buying volume of the
    [window_size] bars at the indices of the range when [start_index >= -n],
    and raises [IndexError] when [start_index < -n]: a negative start is
    not refused. *)
Theorem average_buying_volume_outcomes (self : KLines) (start window_size : Z) :
  klines_num self = Z.of_nat (length (klines_list self)) →
  ((∃ msg, calculate_average_buying_volume_by_given_window self start window_size
           = Raise (AssertionError msg)) ↔
   ¬ (start + window_size <= klines_num self ∧ 1 <= window_size)) ∧
  (start + window_size <= klines_num self → 1 <= window_size →
   - klines_num self <= start →
   let bars := bars_at (klines_list self) (py_range start (start + window_size)) in
   calculate_average_buying_volume_by_given_window self start window_size
     = Ok (fmean (map buying_volume bars)) ∧
   Z.of_nat (length bars) = window_size) ∧
  (start + window_size <= klines_num self → 1 <= window_size →
   start < - klines_num self →
   calculate_average_buying_volume_by_given_window self start window_size
     = Raise IndexError).
Proof. exact (average_buying_volume_cases self start window_size). Qed.

Lemma average_buying_volume_same (self : KLines) (start window_size : Z) :
  klines_num self = Z.of_nat (length (klines_list self)) →
  average_over_pre (klines_num self) start window_size →
  1 <= window_size →
  ∃ avg,
    calculate_average_data_by_given_window self start window_size = Ok avg ∧
    calculate_average_buying_volume_by_given_window self start window_size
      = Ok (avg_buying_volume avg).
Proof.
  intros Hnum Hpre Hpos.
  destruct (calculate_average_ok self start window_size Hnum Hpre Hpos) as (Hok & _ & _).
  eexists. split; [exact Hok |].
  destruct Hpre as (Hs & Hw & Hsw).
  destruct (average_buying_volume_cases self start window_size Hnum) as (_ & Hmean & _).
  destruct Hmean as [Hv1 _]; [lia | lia | lia |].
  rewrite Hv1. reflexivity.
Qed.

(** Whenever the averaging method of rank_maintainer.py returns a record
    for a size of at least one bar, the method of info_requester.py returns
    the buying volume of that record. *)
Theorem average_buying_volume_agrees (self : KLines) (start window_size : Z) :
  klines_num self = Z.of_nat (length (klines_list self)) →
  average_over_pre (klines_num self) start window_size →
  1 <= window_size →
  ∃ avg,
    calculate_average_data_by_given_window self start window_size = Ok avg ∧
    calculate_average_buying_volume_by_given_window self start window_size
      = Ok (avg_buying_volume avg).
Proof. exact (average_buying_volume_same self start window_size). Qed.

(** On a full window, for sizes between 1 and [max_klines_num], the two
    files compute the same ratio. *)
Theorem ratio_v1_agrees (max_klines_num : Z) (window : KLines) (p r : Z) :
  klines_num window = Z.of_nat (length (klines_list window)) →
  klines_num window = max_klines_num →
  1 <= p <= max_klines_num →
  1 <= r <= max_klines_num →
  buying_volume_diff_ratio_v1 max_klines_num window p r =
  buying_volume_diff_ratio max_klines_num window p r.
Proof.
  intros Hnum Hmax Hp Hr. subst max_klines_num.
  destruct (average_buying_volume_same window (klines_num window - p) p Hnum)
    as (past & Hpast & Hpast1); [unfold average_over_pre; lia | lia |].
  destruct (average_buying_volume_same window (klines_num window - r) r Hnum)
    as (recent & Hrecent & Hrecent1); [unfold average_over_pre; lia | lia |].
  unfold buying_volume_diff_ratio_v1, buying_volume_diff_ratio.
  rewrite Hpast, Hrecent, Hpast1, Hrecent1. reflexivity.
Qed.

(** *** Slices and suffixes *)

(** [l[:k]] for [k >= 0] is the first [k] elements, all of them when there
    are fewer; for [k < 0] it is the list without its last [-k]
    elements. *)
Lemma py_slice_to_spec {A} (l : list A) (k : Z) :
  (0 <= k → py_slice_to l k = take (Z.to_nat k) l ∧
            length (py_slice_to l k) = Nat.min (Z.to_nat k) (length l)) ∧
  (k < 0 → py_slice_to l k = take (length l - Z.to_nat (- k)) l ∧
           length (py_slice_to l k) = (length l - Z.to_nat (- k))%nat).
Proof.
  unfold py_slice_to. split; intros Hk.
  - replace (k <? 0) with false by (symmetry; apply Z.ltb_ge; lia).
    split; [reflexivity | apply length_take].
  - replace (k <? 0) with true by (symmetry; apply Z.ltb_lt; lia).
    replace (Z.to_nat (Z.of_nat (length l) + k)) with (length l - Z.to_nat (- k))%nat by lia.
    split; [reflexivity |]. rewrite length_take. lia.
Qed.

Lemma substring_skip (p s : string) (m : nat) :
  substring (String.length p) m (p +:+ s) = substring 0 m s.
Proof. induction p as [| c p IH]; simpl; [reflexivity | exact IH]. Qed.

Lemma substring_all (s : string) : substring 0 (String.length s) s = s.
Proof. induction s as [| c s IH]; simpl; [reflexivity | rewrite IH; reflexivity]. Qed.

Lemma string_split_at (s : string) (n : nat) :
  (n <= String.length s)%nat →
  s = substring 0 n s +:+ substring n (String.length s - n) s.
Proof.
  revert n. induction s as [| c s IH]; intros n Hn; simpl in *.
  - destruct n; [reflexivity | lia].
  - destruct n as [| n]; simpl.
    + rewrite substring_all. reflexivity.
    + change (String c s
              = String c (substring 0 n s +:+ substring n (String.length s - n) s)).
      f_equal. apply IH. lia.
Qed.

Lemma string_app_length (p s : string) :
  String.length (p +:+ s) = (String.length p + String.length s)%nat.
Proof. induction p as [| c p IH]; simpl; [reflexivity | rewrite IH; reflexivity]. Qed.

Lemma last4_suffix (s : string) :
  last4 s = "USDT" ↔ ∃ p, s = p +:+ "USDT".
Proof.
  unfold last4. split.
  - intros Hlast.
    destruct (Nat.le_gt_cases 4 (String.length s)) as [Hlen | Hlen].
    + exists (substring 0 (String.length s - 4) s).
      rewrite (string_split_at s (String.length s - 4)) at 1 by lia.
      replace (String.length s - (String.length s - 4))%nat with 4%nat by lia.
      rewrite Hlast. reflexivity.
    + exfalso.
      replace (String.length s - 4)%nat with 0%nat in Hlast by lia.
      destruct s as [| c1 [| c2 [| c3 [| c4 s]]]]; simpl in *; try discriminate. lia.
  - intros [p ->].
    rewrite string_app_length. simpl.
    replace (String.length p + 4 - 4)%nat with (String.length p) by lia.
    rewrite substring_skip. reflexivity.
Qed.

(** The test [s[-4:] == 'USDT'] of the resolver holds exactly for the
    strings that end in [USDT]. *)
Theorem last4_is_suffix (s : string) :
  last4 s = "USDT" ↔ ∃ p, s = p +:+ "USDT".
Proof. exact (last4_suffix s). Qed.

(** ** The object and its methods *)

Section Engine.
Context {world : Type}.
Context (client_exchange_info : world → result (list SpotSymbol) * world).
Context (um_client_exchange_info : world → result (list UmSymbol) * world).
Context (client_klines : world → string → string → Z → result (list (list pyval)) * world).

Lemma M_bind_eq {A B} (m : M (world:=world) A) (f : A → M B) (self : RankMaintainer) :
  (m ≫= f) self =
  match m self with
  | (Ok a, self') => f a self'
  | (Raise e, self') => (Raise e, self')
  end.
Proof. reflexivity. Qed.

(** Fetching the latest bar only talks to the exchange. *)
Lemma get_latest_kline_state (symbol : string) (i : KLineInterval)
    (self : RankMaintainer (world:=world)) :
  ∃ w, (get_latest_kline client_klines symbol i self).2 = set_client self w.
Proof.
  unfold get_latest_kline, call, lift. rewrite !M_bind_eq.
  destruct (client_klines (client self) symbol (value i) 1) as [[rows | e] w]; simpl.
  - exists w. rewrite M_bind_eq.
    destruct (py_getitem rows 0); reflexivity.
  - exists w. reflexivity.
Qed.

Lemma update_klines_eq (symbol : string) (i : KLineInterval)
    (self : RankMaintainer (world:=world)) :
  update_klines client_klines symbol i self =
  match get_latest_kline client_klines symbol i self with
  | (Ok latest, self1) =>
      match pair_name_to_klines_dict self1 !! symbol with
      | Some cached =>
          match update_latest_klines cached latest with
          | Ok r => (Ok r.1, set_dict self1 (<[symbol:=r.2]> (pair_name_to_klines_dict self1)))
          | Raise e => (Raise e, self1)
          end
      | None => (Raise (KeyError symbol), self1)
      end
  | (Raise e, self1) => (Raise e, self1)
  end.
Proof.
  unfold update_klines. rewrite M_bind_eq.
  destruct (get_latest_kline client_klines symbol i self) as [[latest | e] self1];
    [| reflexivity].
  rewrite M_bind_eq. unfold dict_getitem.
  destruct (pair_name_to_klines_dict self1 !! symbol) as [cached |]; [| reflexivity].
  rewrite M_bind_eq. unfold lift.
  destruct (update_latest_klines cached latest) as [r | e]; reflexivity.
Qed.

(** C10: refreshing a symbol that has no cached window raises.  When the
    latest bar was fetched and built, the lookup in the map of windows
    raises [KeyError] for the symbol; when the fetch raised, that exception
    goes through.  Either way no boolean is returned and the map of windows
    is the one before the call: no window was made. *)
Theorem update_klines_without_window (symbol : string) (i : KLineInterval)
    (self : RankMaintainer (world:=world)) :
  pair_name_to_klines_dict self !! symbol = None →
  (∀ latest self1,
     get_latest_kline client_klines symbol i self = (Ok latest, self1) →
     update_klines client_klines symbol i self = (Raise (KeyError symbol), self1)) ∧
  (∀ e self1,
     get_latest_kline client_klines symbol i self = (Raise e, self1) →
     update_klines client_klines symbol i self = (Raise e, self1)) ∧
  ∃ e self1,
    update_klines client_klines symbol i self = (Raise e, self1) ∧
    pair_name_to_klines_dict self1 = pair_name_to_klines_dict self.
Proof.
  intros Hnone.
  destruct (get_latest_kline_state symbol i self) as [w Hw].
  rewrite update_klines_eq.
  destruct (get_latest_kline client_klines symbol i self) as [[latest | e] self1] eqn:Hget;
    simpl in Hw; subst self1.
  - change (pair_name_to_klines_dict (set_client self w))
      with (pair_name_to_klines_dict self).
    rewrite Hnone. split; [| split].
    + intros latest' self1' [= <- <-]. reflexivity.
    + intros e self1' [=].
    + eexists _, _. split; reflexivity.
  - split; [| split].
    + intros latest' self1' [=].
    + intros e' self1' [= <- <-]. reflexivity.
    + eexists _, _. split; reflexivity.
Qed.

(** *** The refresh pass *)

Lemma update_latest_klines_frame (cached : KLines) (latest : KLine) (b : bool) (cached' : KLines) :
  update_latest_klines cached latest = Ok (b, cached') →
  klines_num cached' = klines_num cached ∧ (b = false → cached' = cached).
Proof.
  unfold update_latest_klines.
  destruct (py_getitem (klines_list cached) (-1)) as [lst | e]; simpl; [| discriminate].
  destruct (update_branch lst latest).
  - destruct (py_setitem (klines_list cached) (-1) latest); simpl; [| discriminate].
    intros [= <- <-]. split; [reflexivity | discriminate].
  - destruct (py_pop0 (klines_list cached)); simpl; [| discriminate].
    intros [= <- <-]. split; [reflexivity | discriminate].
  - intros [= <- <-]. split; reflexivity.
Qed.

Lemma same_shape_refl (self : RankMaintainer (world:=world)) : same_shape self self.
Proof. repeat split. intros n window Hn. eauto. Qed.

Lemma same_shape_set_client (self : RankMaintainer (world:=world)) (w : world) :
  same_shape self (set_client self w).
Proof. repeat split. intros n window Hn. eauto. Qed.

Lemma update_klines_shape (symbol : string) (i : KLineInterval)
    (self self1 : RankMaintainer (world:=world)) (r : result bool) :
  update_klines client_klines symbol i self = (r, self1) → same_shape self self1.
Proof.
  rewrite update_klines_eq.
  destruct (get_latest_kline_state symbol i self) as [w Hw].
  destruct (get_latest_kline client_klines symbol i self) as [[latest | e] self0];
    simpl in Hw; subst self0.
  2: { intros [= <- <-]. apply same_shape_set_client. }
  change (pair_name_to_klines_dict (set_client self w))
    with (pair_name_to_klines_dict self).
  destruct (pair_name_to_klines_dict self !! symbol) as [cached |] eqn:Hc.
  2: { intros [= <- <-]. apply same_shape_set_client. }
  destruct (update_latest_klines cached latest) as [[b cached'] | e] eqn:Hu.
  2: { intros [= <- <-]. apply same_shape_set_client. }
  intros [= <- <-]. repeat split. simpl.
  intros n window Hn.
  destruct (decide (symbol = n)) as [-> | Hne].
  - rewrite lookup_insert_eq. eexists. split; [reflexivity |].
    apply update_latest_klines_frame in Hu as [Hnum _]. congruence.
  - rewrite lookup_insert_ne by exact Hne. eauto.
Qed.

Lemma update_rank_body_eq (pair_name : string) (p r : Z)
    (self : RankMaintainer (world:=world)) :
  update_rank_body client_klines pair_name p r self =
  match update_klines client_klines pair_name (interval self) self with
  | (Ok _, self1) =>
      match pair_name_to_klines_dict self1 !! pair_name with
      | Some window => (buying_volume_diff_ratio (max_klines_num self) window p r, self1)
      | None => (Raise (KeyError pair_name), self1)
      end
  | (Raise e, self1) => (Raise e, self1)
  end.
Proof.
  unfold update_rank_body. rewrite M_bind_eq. simpl. rewrite M_bind_eq.
  destruct (update_klines client_klines pair_name (interval self) self)
    as [[b | e] self1]; [| reflexivity].
  rewrite M_bind_eq. unfold dict_getitem.
  destruct (pair_name_to_klines_dict self1 !! pair_name); reflexivity.
Qed.




Lemma update_rank_pass_eq (p r : Z) (names : list string)
    (self : RankMaintainer (world:=world)) :
  cache_items (cache_content self) !! "trading_pair_names" = Some names →
  update_buying_volume_diff_ratio_rank client_klines p r self =
  if negb (p <=? max_klines_num self)
  then (Raise (AssertionError "past_klines_window_size must be less than max_klines_num"), self)
  else if negb (r <=? max_klines_num self)
  then (Raise (AssertionError "recent_klines_window_size must be less than max_klines_num"), self)
  else match update_rank_loop client_klines names p r [] self with
       | (Ok l, self') => (Ok (sort_volume_diff_ratio_list l), self')
       | (Raise e, self') => (Raise e, self')
       end.
Proof.
  intros Hnames. unfold update_buying_volume_diff_ratio_rank.
  rewrite M_bind_eq. simpl. rewrite M_bind_eq. unfold lift.
  destruct (p <=? max_klines_num self); simpl; [| reflexivity].
  rewrite M_bind_eq.
  destruct (r <=? max_klines_num self); simpl; [| reflexivity].
  rewrite M_bind_eq. unfold cache_getitem. rewrite Hnames.
  rewrite M_bind_eq.
  destruct (update_rank_loop client_klines names p r [] self) as [[l | e] self'];
    reflexivity.
Qed.


(** A window shorter than [max_klines_num] fails the assertions of the
    averaging method, whatever the sizes. *)
Lemma ratio_short_window (max_klines_num : Z) (window : KLines) (p r : Z) :
  klines_num window < max_klines_num →
  ∃ msg, buying_volume_diff_ratio max_klines_num window p r = Raise (AssertionError msg).
Proof.
  intros Hshort. unfold buying_volume_diff_ratio.
  destruct (proj2 (calculate_average_assertion window (max_klines_num - p) p))
    as [msg ->].
  - unfold average_over_pre. lia.
  - exists msg. reflexivity.
Qed.


(** *** The resolver *)

Lemma set_cache_content_id (self : RankMaintainer (world:=world)) :
  set_cache_content self (cache_content self) = self.
Proof. destruct self; reflexivity. Qed.

Lemma touched_refl (c : CacheContent) : touched c c.
Proof. repeat split; auto. Qed.

Lemma touched_trans (c1 c2 c3 : CacheContent) :
  touched c1 c2 → touched c2 c3 → touched c1 c3.
Proof.
  intros (Hd & Ht & Hr & Hi) (Hd' & Ht' & Hr' & Hi').
  split; [congruence |]. split; [congruence |]. split; [auto |].
  intros v. rewrite Hi', Hi. reflexivity.
Qed.

Lemma cache_getitem_readable (self : RankMaintainer (world:=world)) :
  readable (cache_content self) →
  ∃ c', cache_getitem "trading_pair_names" self =
          (Ok (tracked (cache_content self)), set_cache_content self c') ∧
        touched (cache_content self) c'.
Proof.
  intros Hread. unfold cache_getitem, tracked.
  destruct (cache_items (cache_content self) !! "trading_pair_names") as [l |] eqn:Hl.
  - exists (cache_content self). rewrite set_cache_content_id.
    split; [reflexivity | apply touched_refl].
  - destruct Hread as [[l Hl'] | Hdf]; [congruence |].
    rewrite Hdf. eexists. split; [reflexivity |].
    unfold touched, tracked, readable. simpl.
    rewrite lookup_insert_eq, Hl. simpl.
    repeat split; auto.
    intros v. apply insert_insert_eq.
Qed.

Lemma cache_getitem_unreadable (self : RankMaintainer (world:=world)) :
  ¬ readable (cache_content self) →
  cache_getitem "trading_pair_names" self = (Raise (KeyError "trading_pair_names"), self).
Proof.
  intros Hun. unfold cache_getitem.
  destruct (cache_items (cache_content self) !! "trading_pair_names") as [l |] eqn:Hl.
  - exfalso. apply Hun. left. eauto.
  - destruct (default_factory (cache_content self)) eqn:Hdf; [| reflexivity].
    exfalso. apply Hun. right. exact Hdf.
Qed.

Lemma spot_pair_names_readable (symbols : list SpotSymbol)
    (self : RankMaintainer (world:=world)) :
  readable (cache_content self) →
  ∃ c', spot_pair_names symbols self =
          (Ok (spot_fresh (tracked (cache_content self)) symbols), set_cache_content self c') ∧
        touched (cache_content self) c'.
Proof.
  revert self. induction symbols as [| p rest IH]; intros self Hread.
  - exists (cache_content self). rewrite set_cache_content_id.
    split; [reflexivity | apply touched_refl].
  - simpl. rewrite M_bind_eq. unfold spot_fresh. simpl.
    destruct (spot_qualifies p); simpl.
    + rewrite M_bind_eq.
      destruct (cache_getitem_readable self Hread) as (c1 & -> & Hc1).
      simpl. rewrite M_bind_eq.
      destruct (IH (set_cache_content self c1)) as (c2 & Hrest & Hc2);
        [apply Hc1, Hread |].
      rewrite Hrest. simpl.
      destruct Hc1 as (Hd1 & Ht1 & Hr1 & Hi1). rewrite Ht1.
      exists c2. split.
      * destruct (bool_decide _); reflexivity.
      * eapply touched_trans; [| exact Hc2]. repeat split; auto.
    + rewrite M_bind_eq.
      destruct (IH self Hread) as (c2 & -> & Hc2).
      exists c2. split; [reflexivity | exact Hc2].
Qed.

Lemma um_pair_names_readable (symbols : list UmSymbol)
    (self : RankMaintainer (world:=world)) :
  readable (cache_content self) →
  ∃ c', um_pair_names symbols self =
          (Ok (um_fresh (tracked (cache_content self)) symbols), set_cache_content self c') ∧
        touched (cache_content self) c'.
Proof.
  revert self. induction symbols as [| p rest IH]; intros self Hread.
  - exists (cache_content self). rewrite set_cache_content_id.
    split; [reflexivity | apply touched_refl].
  - simpl. rewrite M_bind_eq. unfold um_fresh. simpl.
    destruct (um_qualifies p); simpl.
    + rewrite M_bind_eq.
      destruct (cache_getitem_readable self Hread) as (c1 & -> & Hc1).
      simpl. rewrite M_bind_eq.
      destruct (IH (set_cache_content self c1)) as (c2 & Hrest & Hc2);
        [apply Hc1, Hread |].
      rewrite Hrest. simpl.
      destruct Hc1 as (Hd1 & Ht1 & Hr1 & Hi1). rewrite Ht1.
      exists c2. split.
      * destruct (bool_decide _); reflexivity.
      * eapply touched_trans; [| exact Hc2]. repeat split; auto.
    + rewrite M_bind_eq.
      destruct (IH self Hread) as (c2 & -> & Hc2).
      exists c2. split; [reflexivity | exact Hc2].
Qed.

Lemma call_fixed {A} (request : world → result A * world) (a : A)
    (self : RankMaintainer (world:=world)) :
  (∀ w, (request w).1 = Ok a) →
  ∃ w', call request self = (Ok a, set_client self w').
Proof.
  intros Hfix. unfold call. specialize (Hfix (client self)).
  destruct (request (client self)) as [r w']. simpl in Hfix. subst r.
  exists w'. reflexivity.
Qed.

(** The resolver on a cache it can read, the two listings being [spot] and
    [um] whenever asked for. *)
Lemma get_need_trading_pair_set_readable (spot : list SpotSymbol) (um : list UmSymbol)
    (self : RankMaintainer (world:=world)) :
  (∀ w, (client_exchange_info w).1 = Ok spot) →
  (∀ w, (um_client_exchange_info w).1 = Ok um) →
  readable (cache_content self) →
  ∃ self1,
    get_need_trading_pair_set client_exchange_info um_client_exchange_info self
      = (Ok tt, self1) ∧
    default_factory (cache_content self1) = default_factory (cache_content self) ∧
    cache_items (cache_content self1) =
      <["trading_pair_names" :=
          tracked (cache_content self) ++
          elements (fresh_pairs (tracked (cache_content self)) spot um)]>
        (cache_items (cache_content self)) ∧
    cache_file self1 = cache_items (cache_content self1).
Proof.
  intros Hspot Hum Hread.
  unfold get_need_trading_pair_set. rewrite M_bind_eq. simpl.
  assert (Hfirst : ∃ x c1,
    (if bool_decide (cache_items (cache_content self) = ∅)
     then mret [] else cache_getitem "trading_pair_names") self
    = (Ok x, set_cache_content self c1) ∧ touched (cache_content self) c1).
  { destruct (bool_decide (cache_items (cache_content self) = ∅)).
    - exists [], (cache_content self). rewrite set_cache_content_id.
      split; [reflexivity | apply touched_refl].
    - destruct (cache_getitem_readable self Hread) as (c1 & Hc1 & Ht1). eauto. }
  destruct Hfirst as (x & c1 & Hfirst & Ht1).
  rewrite M_bind_eq, Hfirst. clear Hfirst x.
  rewrite M_bind_eq.
  destruct (call_fixed client_exchange_info spot (set_cache_content self c1) Hspot)
    as [w1 ->].
  rewrite M_bind_eq.
  destruct (call_fixed um_client_exchange_info um
              (set_client (set_cache_content self c1) w1) Hum) as [w2 ->].
  set (s3 := set_client (set_client (set_cache_content self c1) w1) w2).
  assert (Hr3 : readable (cache_content s3)) by (apply Ht1, Hread).
  rewrite M_bind_eq.
  destruct (spot_pair_names_readable spot s3 Hr3) as (c2 & -> & Ht2).
  set (s4 := set_cache_content s3 c2).
  assert (Hr4 : readable (cache_content s4)) by (apply Ht2, Hr3).
  rewrite M_bind_eq.
  destruct (um_pair_names_readable um s4 Hr4) as (c3 & -> & Ht3).
  set (s5 := set_cache_content s4 c3).
  assert (Hr5 : readable (cache_content s5)) by (apply Ht3, Hr4).
  rewrite M_bind_eq.
  destruct (cache_getitem_readable s5 Hr5) as (c4 & -> & Ht4).
  assert (H14 : touched (cache_content self) c4).
  { eapply touched_trans; [exact Ht1 |].
    eapply touched_trans; [exact Ht2 |].
    eapply touched_trans; [exact Ht3 | exact Ht4]. }
  destruct Ht1 as (_ & Htr1 & _ & _).
  destruct Ht2 as (_ & Htr2 & _ & _).
  destruct Ht3 as (_ & Htr3 & _ & _).
  destruct H14 as (Hd & _ & _ & Hi).
  simpl in Htr2, Htr3.
  eexists. split; [reflexivity |]. simpl.
  split; [exact Hd |].
  rewrite Htr3, Htr2, Htr1.
  split; [apply Hi | reflexivity].
Qed.

Lemma elem_of_spot_fresh (names : list string) (symbols : list SpotSymbol) (x : string) :
  x ∈ spot_fresh names symbols ↔
  ∃ p, p ∈ symbols ∧ symbol p = x ∧ spot_qualifies p = true ∧ x ∉ names.
Proof.
  unfold spot_fresh. rewrite list_elem_of_fmap. split.
  - intros (p & -> & Hp). apply list_elem_of_In, filter_In in Hp as [Hin Hq].
    apply andb_true_iff in Hq as [Hq Hn]. apply negb_true_iff, bool_decide_eq_false in Hn.
    exists p. rewrite list_elem_of_In. auto.
  - intros (p & Hin & <- & Hq & Hn). exists p. split; [reflexivity |].
    apply list_elem_of_In, filter_In. split; [apply list_elem_of_In, Hin |].
    apply andb_true_iff. split; [exact Hq |].
    apply negb_true_iff, bool_decide_eq_false. exact Hn.
Qed.

Lemma elem_of_um_fresh (names : list string) (symbols : list UmSymbol) (x : string) :
  x ∈ um_fresh names symbols ↔
  ∃ p, p ∈ symbols ∧ pair p = x ∧ um_qualifies p = true ∧ x ∉ names.
Proof.
  unfold um_fresh. rewrite list_elem_of_fmap. split.
  - intros (p & -> & Hp). apply list_elem_of_In, filter_In in Hp as [Hin Hq].
    apply andb_true_iff in Hq as [Hq Hn]. apply negb_true_iff, bool_decide_eq_false in Hn.
    exists p. rewrite list_elem_of_In. auto.
  - intros (p & Hin & <- & Hq & Hn). exists p. split; [reflexivity |].
    apply list_elem_of_In, filter_In. split; [apply list_elem_of_In, Hin |].
    apply andb_true_iff. split; [exact Hq |].
    apply negb_true_iff, bool_decide_eq_false. exact Hn.
Qed.

Lemma fresh_pairs_not_tracked (names : list string) (spot : list SpotSymbol)
    (um : list UmSymbol) (x : string) :
  x ∈ fresh_pairs names spot um → x ∉ names.
Proof.
  unfold fresh_pairs. rewrite elem_of_intersection, !elem_of_list_to_set.
  intros [_ Hs]. apply elem_of_spot_fresh in Hs as (p & _ & _ & _ & Hn). exact Hn.
Qed.

(** Once the fresh pairs are tracked, none is fresh any more. *)
Lemma fresh_pairs_stable (names : list string) (spot : list SpotSymbol) (um : list UmSymbol) :
  fresh_pairs (names ++ elements (fresh_pairs names spot um)) spot um = ∅.
Proof.
  apply elem_of_equiv_empty_L. intros x Hx.
  assert (Hnot := fresh_pairs_not_tracked _ _ _ _ Hx).
  rewrite elem_of_app, elem_of_elements in Hnot.
  apply Hnot. right.
  unfold fresh_pairs in Hx |- *.
  rewrite elem_of_intersection, !elem_of_list_to_set in Hx.
  rewrite elem_of_intersection, !elem_of_list_to_set.
  destruct Hx as [Hu Hs].
  apply elem_of_um_fresh in Hu as (pu & Hpu & Hxu & Hqu & _).
  apply elem_of_spot_fresh in Hs as (ps & Hps & Hxs & Hqs & _).
  split.
  - apply elem_of_um_fresh. exists pu. repeat split; auto.
  - apply elem_of_spot_fresh. exists ps. repeat split; auto.
Qed.

(** C7: with the two listings fixed, a run of the resolver on a cache it
    can read appends to the tracked list symbols that were not in it, each
    once, removes none, and writes the outcome to the cache file; a second
    run, by the same object or by one that starts from the file, appends
    nothing: the tracked list and the file stay as the first run left
    them. *)
Theorem resolve_twice_is_stable (spot : list SpotSymbol) (um : list UmSymbol)
    (self : RankMaintainer (world:=world)) :
  (∀ w, (client_exchange_info w).1 = Ok spot) →
  (∀ w, (um_client_exchange_info w).1 = Ok um) →
  readable (cache_content self) →
  ∃ self1 new,
    get_need_trading_pair_set client_exchange_info um_client_exchange_info self
      = (Ok tt, self1) ∧
    tracked (cache_content self1) = tracked (cache_content self) ++ new ∧
    NoDup new ∧
    (∀ x, x ∈ new → x ∉ tracked (cache_content self)) ∧
    cache_file self1 = cache_items (cache_content self1) ∧
    ∀ again : RankMaintainer (world:=world),
      cache_items (cache_content again) = cache_file self1 →
      ∃ self2,
        get_need_trading_pair_set client_exchange_info um_client_exchange_info again
          = (Ok tt, self2) ∧
        cache_content self2 = cache_content again ∧
        tracked (cache_content self2) = tracked (cache_content self1) ∧
        cache_file self2 = cache_file self1.
Proof.
  intros Hspot Hum Hread.
  destruct (get_need_trading_pair_set_readable spot um self Hspot Hum Hread)
    as (self1 & Hrun & Hd & Hitems & Hfile).
  set (names := tracked (cache_content self)) in *.
  set (new := elements (fresh_pairs names spot um)) in *.
  assert (Htracked : tracked (cache_content self1) = names ++ new).
  { unfold tracked at 1. rewrite Hitems, lookup_insert_eq. reflexivity. }
  exists self1, new. split; [exact Hrun |]. split; [exact Htracked |].
  split; [apply NoDup_elements |].
  split.
  { intros x Hx. apply elem_of_elements in Hx.
    apply (fresh_pairs_not_tracked _ _ _ _ Hx). }
  split; [exact Hfile |].
  intros again Hagain.
  assert (Hlook : cache_items (cache_content again) !! "trading_pair_names"
                  = Some (names ++ new)).
  { rewrite Hagain, Hfile, Hitems. apply lookup_insert_eq. }
  assert (Hread2 : readable (cache_content again)) by (left; eauto).
  destruct (get_need_trading_pair_set_readable spot um again Hspot Hum Hread2)
    as (self2 & Hrun2 & Hd2 & Hitems2 & Hfile2).
  assert (Htracked2 : tracked (cache_content again) = names ++ new).
  { unfold tracked. rewrite Hlook. reflexivity. }
  rewrite Htracked2 in Hitems2.
  unfold new in Hitems2 at 2. rewrite fresh_pairs_stable, elements_empty, app_nil_r in Hitems2.
  rewrite (insert_id _ _ _ Hlook) in Hitems2.
  exists self2. split; [exact Hrun2 |].
  assert (Hc : cache_content self2 = cache_content again).
  { destruct (cache_content self2), (cache_content again). simpl in *. congruence. }
  split; [exact Hc |]. split.
  - rewrite Hc. congruence.
  - rewrite Hfile2, Hitems2. exact Hagain.
Qed.

(** *** What the two passes return *)


Lemma cache_getitem_ok (self self' : RankMaintainer (world:=world)) (names : list string) :
  cache_getitem "trading_pair_names" self = (Ok names, self') →
  names = tracked (cache_content self).
Proof.
  unfold cache_getitem, tracked.
  destruct (cache_items (cache_content self) !! "trading_pair_names") as [l |].
  - intros [= <- <-]. reflexivity.
  - destruct (default_factory (cache_content self)); [| discriminate].
    intros [= <- <-]. reflexivity.
Qed.




(** *** The cache of windows *)

Lemma get_current_trading_klines_eq (s : string) (i : KLineInterval)
    (self : RankMaintainer (world:=world)) :
  get_current_trading_klines client_klines s i self =
  match pair_name_to_klines_dict self !! s with
  | Some window => (Ok window, self)
  | None =>
      match client_klines (client self) s (value i) (max_klines_num self) with
      | (Ok rows, w) =>
          match convert_klines_list_to_klines rows with
          | Ok window =>
              (Ok window,
               set_dict (set_client self w)
                 (<[s:=window]> (pair_name_to_klines_dict self)))
          | Raise e => (Raise e, set_client self w)
          end
      | (Raise e, w) => (Raise e, set_client self w)
      end
  end.
Proof.
  unfold get_current_trading_klines.
  destruct (pair_name_to_klines_dict self !! s) as [window |]; [reflexivity |].
  rewrite M_bind_eq. unfold call.
  destruct (client_klines (client self) s (value i) (max_klines_num self))
    as [[rows | e] w]; [| reflexivity].
  rewrite M_bind_eq. unfold lift.
  destruct (convert_klines_list_to_klines rows) as [window | e]; [| reflexivity].
  rewrite M_bind_eq. unfold dict_setitem, dict_getitem. simpl.
  rewrite lookup_insert_eq. reflexivity.
Qed.

Lemma get_current_trading_klines_hit (s : string) (i : KLineInterval)
    (self : RankMaintainer (world:=world)) :
  (∀ window, pair_name_to_klines_dict self !! s = Some window →
     get_current_trading_klines client_klines s i self = (Ok window, self)) ∧
  (∀ window self1,
     get_current_trading_klines client_klines s i self = (Ok window, self1) →
     pair_name_to_klines_dict self1 !! s = Some window ∧
     ∀ i', get_current_trading_klines client_klines s i' self1 = (Ok window, self1)).
Proof.
  assert (Hhit : ∀ (st : RankMaintainer (world:=world)) i' window,
            pair_name_to_klines_dict st !! s = Some window →
            get_current_trading_klines client_klines s i' st = (Ok window, st)).
  { intros st i' window Hw. rewrite get_current_trading_klines_eq, Hw. reflexivity. }
  split; [intros window; apply Hhit |].
  intros window self1 Hcall.
  assert (Hcached : pair_name_to_klines_dict self1 !! s = Some window).
  { rewrite get_current_trading_klines_eq in Hcall.
    destruct (pair_name_to_klines_dict self !! s) as [window0 |] eqn:Hw.
    - injection Hcall as <- <-. exact Hw.
    - destruct (client_klines (client self) s (value i) (max_klines_num self))
        as [[rows | e] w]; [| discriminate].
      destruct (convert_klines_list_to_klines rows) as [window0 | e]; [| discriminate].
      injection Hcall as <- <-. simpl. apply lookup_insert_eq. }
  split; [exact Hcached |]. intros i'. apply Hhit, Hcached.
Qed.

(** A cached window is returned as it is, with no request to the exchange
    and no change to the object; the window a first call builds is cached,
    so that any later call returns it in the same way. *)
Theorem get_current_trading_klines_caches (s : string) (i : KLineInterval)
    (self : RankMaintainer (world:=world)) :
  (∀ window, pair_name_to_klines_dict self !! s = Some window →
     get_current_trading_klines client_klines s i self = (Ok window, self)) ∧
  (∀ window self1,
     get_current_trading_klines client_klines s i self = (Ok window, self1) →
     pair_name_to_klines_dict self1 !! s = Some window ∧
     ∀ i', get_current_trading_klines client_klines s i' self1 = (Ok window, self1)).
Proof. exact (get_current_trading_klines_hit s i self). Qed.

(** When the first fetch of a symbol fails, by the request or by a row that
    does not build a bar, the map of windows is the one before the call: no
    window is cached for the symbol. *)
Theorem get_current_trading_klines_failure (s : string) (i : KLineInterval)
    (self self1 : RankMaintainer (world:=world)) (e : exn) :
  get_current_trading_klines client_klines s i self = (Raise e, self1) →
  pair_name_to_klines_dict self1 = pair_name_to_klines_dict self ∧
  pair_name_to_klines_dict self1 !! s = None.
Proof.
  rewrite get_current_trading_klines_eq.
  destruct (pair_name_to_klines_dict self !! s) as [window0 |] eqn:Hw; [discriminate |].
  destruct (client_klines (client self) s (value i) (max_klines_num self))
    as [[rows | e'] w].
  - destruct (convert_klines_list_to_klines rows) as [window0 | e'']; [discriminate |].
    intros [= <- <-]. split; [reflexivity | exact Hw].
  - intros [= <- <-]. split; [reflexivity | exact Hw].
Qed.

Lemma update_klines_windows (s : string) (i : KLineInterval)
    (self self1 : RankMaintainer (world:=world)) (r : result bool) :
  update_klines client_klines s i self = (r, self1) →
  (∀ n, n ≠ s → pair_name_to_klines_dict self1 !! n = pair_name_to_klines_dict self !! n) ∧
  (∀ window, pair_name_to_klines_dict self !! s = Some window →
     ∃ window', pair_name_to_klines_dict self1 !! s = Some window' ∧
                length (klines_list window') = length (klines_list window) ∧
                klines_num window' = klines_num window) ∧
  dom (pair_name_to_klines_dict self1) = dom (pair_name_to_klines_dict self).
Proof.
  rewrite update_klines_eq.
  destruct (get_latest_kline_state s i self) as [w Hw].
  destruct (get_latest_kline client_klines s i self) as [[latest | e] self0];
    simpl in Hw; subst self0.
  2: { intros [= <- <-]. simpl. split; [reflexivity |]. split; [| reflexivity].
       intros window Hwin. exists window. split; [exact Hwin |]. split; reflexivity. }
  change (pair_name_to_klines_dict (set_client self w))
    with (pair_name_to_klines_dict self).
  destruct (pair_name_to_klines_dict self !! s) as [cached |] eqn:Hc.
  2: { intros [= <- <-]. simpl. split; [reflexivity |]. split; [| reflexivity].
       intros window Hwin. congruence. }
  destruct (update_latest_klines cached latest) as [[b cached'] | e] eqn:Hu.
  2: { intros [= <- <-]. simpl. split; [reflexivity |]. split; [| reflexivity].
       intros window Hwin. exists window. split; [congruence |]. split; reflexivity. }
  intros [= <- <-]. simpl.
  apply update_latest_klines_lengths in Hu as [Hlen Hnum].
  split; [| split].
  - intros n Hn. apply lookup_insert_ne. congruence.
  - intros window [= <-]. rewrite lookup_insert_eq. eauto.
  - rewrite dom_insert_L.
    apply subseteq_union_1_L, singleton_subseteq_l, elem_of_dom. eauto.
Qed.

(** Refreshing one symbol leaves the window of every other symbol as it
    was; the symbol's own window keeps its length, and no window appears
    for a symbol that had none. *)
Theorem update_klines_frame (s : string) (i : KLineInterval)
    (self self1 : RankMaintainer (world:=world)) (r : result bool) :
  update_klines client_klines s i self = (r, self1) →
  (∀ n, n ≠ s → pair_name_to_klines_dict self1 !! n = pair_name_to_klines_dict self !! n) ∧
  (∀ window, pair_name_to_klines_dict self !! s = Some window →
     ∃ window', pair_name_to_klines_dict self1 !! s = Some window' ∧
                length (klines_list window') = length (klines_list window) ∧
                klines_num window' = klines_num window) ∧
  dom (pair_name_to_klines_dict self1) = dom (pair_name_to_klines_dict self).
Proof. exact (update_klines_windows s i self self1 r). Qed.

(** Both passes refuse a window size above [max_klines_num] with
    [AssertionError] before anything else happens: no request is made and
    the object is as it was. *)
Theorem passes_refuse_large_sizes (p r : Z) (self : RankMaintainer (world:=world)) :
  max_klines_num self < p ∨ max_klines_num self < r →
  (∃ msg, get_init_buying_volume_diff_ratio_rank client_klines p r self
          = (Raise (AssertionError msg), self)) ∧
  (∃ msg, update_buying_volume_diff_ratio_rank client_klines p r self
          = (Raise (AssertionError msg), self)).
Proof.
  intros Hlarge.
  unfold get_init_buying_volume_diff_ratio_rank, update_buying_volume_diff_ratio_rank.
  rewrite !M_bind_eq. simpl. rewrite !M_bind_eq. unfold lift.
  destruct (Z.leb_spec p (max_klines_num self)) as [Hp | Hp]; simpl.
  - rewrite !M_bind_eq.
    destruct (Z.leb_spec r (max_klines_num self)) as [Hr | Hr]; simpl; [lia |].
    split; eauto.
  - split; eauto.
Qed.

(** *** What the passes do to the cache of windows *)

Lemma same_windows_refl (self : RankMaintainer (world:=world)) : same_windows self self.
Proof. repeat split. intros n window Hn. eauto. Qed.

Lemma same_windows_trans (s1 s2 s3 : RankMaintainer (world:=world)) :
  same_windows s1 s2 → same_windows s2 s3 → same_windows s1 s3.
Proof.
  intros (Hm & Hi & Hc & Hd & Hw) (Hm' & Hi' & Hc' & Hd' & Hw').
  split; [congruence |]. split; [congruence |]. split; [congruence |].
  split; [congruence |].
  intros n window Hn.
  destruct (Hw n window Hn) as (w2 & Hn2 & Hlen2 & Hnum2).
  destruct (Hw' n w2 Hn2) as (w3 & Hn3 & Hlen3 & Hnum3).
  exists w3. split; [exact Hn3 |]. split; congruence.
Qed.

Lemma update_klines_same_windows (s : string) (i : KLineInterval)
    (self self1 : RankMaintainer (world:=world)) (r : result bool) :
  update_klines client_klines s i self = (r, self1) → same_windows self self1.
Proof.
  intros Hupd.
  destruct (update_klines_shape s i self self1 r Hupd) as (Hm & Hi & Hc & _).
  destruct (update_klines_windows s i self self1 r Hupd) as (Hother & Hown & Hdom).
  split; [exact Hm |]. split; [exact Hi |]. split; [exact Hc |]. split; [exact Hdom |].
  intros n window Hn.
  destruct (decide (n = s)) as [-> | Hne].
  - apply Hown, Hn.
  - exists window. rewrite (Hother n Hne). split; [exact Hn |]. split; reflexivity.
Qed.

Lemma update_rank_body_same_windows (s : string) (p r : Z)
    (self self1 : RankMaintainer (world:=world)) (x : result pynum) :
  update_rank_body client_klines s p r self = (x, self1) → same_windows self self1.
Proof.
  rewrite update_rank_body_eq.
  destruct (update_klines client_klines s (interval self) self)
    as [[b | e] self0] eqn:Hu; apply update_klines_same_windows in Hu.
  - destruct (pair_name_to_klines_dict self0 !! s); intros [= <- <-]; exact Hu.
  - intros [= <- <-]. exact Hu.
Qed.

Lemma update_rank_loop_same_windows (names : list string) (p r : Z)
    (acc : list (string * pynum)) (self self' : RankMaintainer (world:=world))
    (x : result (list (string * pynum))) :
  update_rank_loop client_klines names p r acc self = (x, self') → same_windows self self'.
Proof.
  revert acc self. induction names as [| n names IH]; intros acc self; simpl.
  - intros [= <- <-]. apply same_windows_refl.
  - rewrite M_bind_eq.
    destruct (update_rank_body client_klines n p r self) as [[y | e] self1] eqn:Hbody;
      apply update_rank_body_same_windows in Hbody.
    + intros Hrest. apply IH in Hrest. eapply same_windows_trans; eassumption.
    + intros [= <- <-]. exact Hbody.
Qed.

(** A refresh pass, whether it returns or raises, leaves the tracked list
    and the configuration alone, neither adds nor removes a window, and
    keeps the length of every window: only the bars inside the windows of
    the tracked symbols move. *)
Theorem refresh_pass_keeps_windows (p r : Z) (names : list string)
    (self self' : RankMaintainer (world:=world)) (x : result (list (string * pynum))) :
  cache_items (cache_content self) !! "trading_pair_names" = Some names →
  update_buying_volume_diff_ratio_rank client_klines p r self = (x, self') →
  same_windows self self'.
Proof.
  intros Hnames. rewrite (update_rank_pass_eq p r names self Hnames).
  destruct (negb (p <=? max_klines_num self)).
  { intros [= <- <-]. apply same_windows_refl. }
  destruct (negb (r <=? max_klines_num self)).
  { intros [= <- <-]. apply same_windows_refl. }
  destruct (update_rank_loop client_klines names p r [] self) as [[l | e] self1] eqn:Hloop;
    apply update_rank_loop_same_windows in Hloop; intros [= <- <-]; exact Hloop.
Qed.

Lemma keeps_windows_refl (self : RankMaintainer (world:=world)) : keeps_windows self self.
Proof. repeat split. auto. Qed.

Lemma keeps_windows_trans (s1 s2 s3 : RankMaintainer (world:=world)) :
  keeps_windows s1 s2 → keeps_windows s2 s3 → keeps_windows s1 s3.
Proof.
  intros (Hm & Hi & Hw) (Hm' & Hi' & Hw').
  split; [congruence |]. split; [congruence |]. auto.
Qed.

Lemma get_current_trading_klines_keeps (s : string) (i : KLineInterval)
    (self self1 : RankMaintainer (world:=world)) (x : result KLines) :
  get_current_trading_klines client_klines s i self = (x, self1) → keeps_windows self self1.
Proof.
  rewrite get_current_trading_klines_eq.
  destruct (pair_name_to_klines_dict self !! s) as [window0 |] eqn:Hw.
  { intros [= <- <-]. apply keeps_windows_refl. }
  destruct (client_klines (client self) s (value i) (max_klines_num self))
    as [[rows | e] w].
  - destruct (convert_klines_list_to_klines rows) as [window0 | e].
    + intros [= <- <-]. repeat split. simpl. intros n window Hn.
      rewrite lookup_insert_ne by congruence. exact Hn.
    + intros [= <- <-]. repeat split. auto.
  - intros [= <- <-]. repeat split. auto.
Qed.

Lemma init_rank_body_eq (s : string) (p r : Z) (self : RankMaintainer (world:=world)) :
  init_rank_body client_klines s p r self =
  match get_current_trading_klines client_klines s (interval self) self with
  | (Ok window, self1) => (buying_volume_diff_ratio (max_klines_num self) window p r, self1)
  | (Raise e, self1) => (Raise e, self1)
  end.
Proof.
  unfold init_rank_body. rewrite M_bind_eq. simpl. rewrite M_bind_eq.
  destruct (get_current_trading_klines client_klines s (interval self) self)
    as [[window | e] self1]; reflexivity.
Qed.

(** A ratio is only returned for a window that is at least
    [max_klines_num] bars long. *)
Lemma ratio_ok_window_length (max_klines_num : Z) (window : KLines) (p r : Z) (x : pynum) :
  buying_volume_diff_ratio max_klines_num window p r = Ok x →
  max_klines_num <= klines_num window.
Proof.
  intros Hok.
  destruct (Z_le_gt_dec max_klines_num (klines_num window)) as [Hle | Hgt]; [exact Hle |].
  destruct (ratio_short_window max_klines_num window p r) as [msg Hmsg]; [lia |].
  congruence.
Qed.

Lemma init_rank_loop_caches (names : list string) (p r : Z)
    (acc l : list (string * pynum)) (self self' : RankMaintainer (world:=world)) :
  init_rank_loop client_klines names p r acc self = (Ok l, self') →
  keeps_windows self self' ∧
  ∀ s, s ∈ names →
    ∃ window, pair_name_to_klines_dict self' !! s = Some window ∧
              max_klines_num self <= klines_num window.
Proof.
  revert acc self. induction names as [| n names IH]; intros acc self; simpl.
  - intros [= <- <-]. split; [apply keeps_windows_refl |].
    intros s Hs. apply elem_of_nil in Hs. destruct Hs.
  - rewrite M_bind_eq, init_rank_body_eq.
    destruct (get_current_trading_klines client_klines n (interval self) self)
      as [[window | e] self1] eqn:Hget; [| discriminate].
    pose proof (get_current_trading_klines_keeps _ _ _ _ _ Hget) as Hkeep1.
    apply get_current_trading_klines_hit in Hget as [Hcached _].
    destruct (buying_volume_diff_ratio (max_klines_num self) window p r) as [x | e] eqn:Hratio;
      [| discriminate].
    apply ratio_ok_window_length in Hratio.
    intros Hrest. apply IH in Hrest as [Hkeep2 Hall].
    split; [eapply keeps_windows_trans; eassumption |].
    intros s Hs. apply elem_of_cons in Hs as [-> | Hs].
    + exists window. split; [apply Hkeep2, Hcached | exact Hratio].
    + destruct (Hall s Hs) as (window' & Hw' & Hlen). exists window'.
      split; [exact Hw' |]. destruct Hkeep1 as (Hm & _). lia.
Qed.

Lemma cache_getitem_frame (key : string) (self self1 : RankMaintainer (world:=world))
    (x : result (list string)) :
  cache_getitem key self = (x, self1) → keeps_windows self self1.
Proof.
  unfold cache_getitem.
  destruct (cache_items (cache_content self) !! key).
  - intros [= <- <-]. apply keeps_windows_refl.
  - destruct (default_factory (cache_content self)); intros [= <- <-].
    + repeat split. auto.
    + apply keeps_windows_refl.
Qed.

(** When the initial pass returns, every tracked symbol has a cached window
    of at least [max_klines_num] bars, and the windows that were cached
    before the pass are still the same: a refresh of any tracked symbol
    then finds its window. *)
Theorem init_pass_caches_every_symbol (p r : Z)
    (self self' : RankMaintainer (world:=world)) (out : list (string * pynum)) :
  get_init_buying_volume_diff_ratio_rank client_klines p r self = (Ok out, self') →
  keeps_windows self self' ∧
  ∀ s, s ∈ tracked (cache_content self) →
    ∃ window, pair_name_to_klines_dict self' !! s = Some window ∧
              max_klines_num self' <= klines_num window.
Proof.
  unfold get_init_buying_volume_diff_ratio_rank.
  rewrite M_bind_eq. simpl. rewrite M_bind_eq. unfold lift.
  destruct (p <=? max_klines_num self); simpl; [| discriminate].
  rewrite M_bind_eq.
  destruct (r <=? max_klines_num self); simpl; [| discriminate].
  rewrite M_bind_eq.
  destruct (cache_getitem "trading_pair_names" self) as [[names | e] self1] eqn:Hnames;
    [| discriminate].
  pose proof (cache_getitem_frame _ _ _ _ Hnames) as Hkeep1.
  apply cache_getitem_ok in Hnames. subst names.
  rewrite M_bind_eq.
  destruct (init_rank_loop client_klines _ p r [] self1) as [[l | e] self2] eqn:Hloop;
    [| discriminate].
  intros [= <- <-]. apply init_rank_loop_caches in Hloop as [Hkeep2 Hall].
  split; [eapply keeps_windows_trans; eassumption |].
  intros s Hs. destruct (Hall s Hs) as (window & Hw & Hlen).
  exists window. split; [exact Hw |].
  destruct Hkeep1 as (Hm1 & _). destruct Hkeep2 as (Hm2 & _). lia.
Qed.

Lemma init_rank_loop_cached (names : list string) (p r : Z)
    (acc : list (string * pynum)) (self : RankMaintainer (world:=world)) :
  (∀ s, s ∈ names → is_Some (pair_name_to_klines_dict self !! s)) →
  ∃ x, init_rank_loop client_klines names p r acc self = (x, self).
Proof.
  revert acc. induction names as [| n names IH]; intros acc Hall; simpl.
  - eauto.
  - rewrite M_bind_eq, init_rank_body_eq.
    destruct (Hall n) as [window Hw]; [apply elem_of_cons; auto |].
    rewrite (proj1 (get_current_trading_klines_hit n (interval self) self) window Hw).
    destruct (buying_volume_diff_ratio (max_klines_num self) window p r) as [x | e];
      [| eauto].
    apply IH. intros s Hs. apply Hall, elem_of_cons. auto.
Qed.

(** When every tracked symbol already has a window, the initial pass makes
    no request and changes nothing: the object, the state of the exchange
    included, is the one before the pass. *)
Theorem init_pass_on_cached_windows (p r : Z) (names : list string)
    (self : RankMaintainer (world:=world)) :
  cache_items (cache_content self) !! "trading_pair_names" = Some names →
  (∀ s, s ∈ names → is_Some (pair_name_to_klines_dict self !! s)) →
  ∃ x, get_init_buying_volume_diff_ratio_rank client_klines p r self = (x, self).
Proof.
  intros Hnames Hall. unfold get_init_buying_volume_diff_ratio_rank.
  rewrite M_bind_eq. simpl. rewrite M_bind_eq. unfold lift.
  destruct (p <=? max_klines_num self); simpl; [| eauto].
  rewrite M_bind_eq.
  destruct (r <=? max_klines_num self); simpl; [| eauto].
  rewrite M_bind_eq. unfold cache_getitem. rewrite Hnames.
  rewrite M_bind_eq.
  destruct (init_rank_loop_cached names p r [] self Hall) as [x ->].
  destruct x; eauto.
Qed.

(** *** More on the resolver *)

Lemma truthy_nonempty (s : string) : truthy s = true ↔ s ≠ "".
Proof.
  unfold truthy. rewrite negb_true_iff. split.
  - intros Hne. apply String.eqb_neq. exact Hne.
  - intros Hne. apply String.eqb_neq. exact Hne.
Qed.

Lemma spot_qualifies_iff (p : SpotSymbol) :
  spot_qualifies p = true ↔
  symbol p ≠ "" ∧ last4 (symbol p) = "USDT" ∧ status p = "TRADING".
Proof.
  unfold spot_qualifies.
  rewrite !andb_true_iff, truthy_nonempty, !String.eqb_eq. tauto.
Qed.

Lemma um_qualifies_iff (p : UmSymbol) :
  um_qualifies p = true ↔ pair p ≠ "" ∧ last4 (pair p) = "USDT".
Proof.
  unfold um_qualifies.
  rewrite !andb_true_iff, truthy_nonempty, !String.eqb_eq. tauto.
Qed.

Lemma elem_of_fresh_pairs (names : list string) (spot : list SpotSymbol)
    (um : list UmSymbol) (x : string) :
  x ∈ fresh_pairs names spot um ↔
  (x ∉ names) ∧ (x ≠ "") ∧ last4 x = "USDT" ∧
  (∃ p, p ∈ spot ∧ symbol p = x ∧ status p = "TRADING") ∧
  (∃ q, q ∈ um ∧ pair q = x).
Proof.
  unfold fresh_pairs.
  rewrite elem_of_intersection, !elem_of_list_to_set, elem_of_um_fresh, elem_of_spot_fresh.
  split.
  - intros [(q & Hq & Hqx & Hqq & _) (p & Hp & Hpx & Hpq & Hn)].
    apply spot_qualifies_iff in Hpq as (Hne & Hlast & Hstatus).
    rewrite Hpx in Hne, Hlast. eauto 10.
  - intros (Hn & Hne & Hlast & (p & Hp & Hpx & Hstatus) & (q & Hq & Hqx)). split.
    + exists q. split; [exact Hq |]. split; [exact Hqx |]. split; [| exact Hn].
      apply um_qualifies_iff. rewrite Hqx. auto.
    + exists p. split; [exact Hp |]. split; [exact Hpx |]. split; [| exact Hn].
      apply spot_qualifies_iff. rewrite Hpx. auto.
Qed.

(** What the resolver appends, the two listings being [spot] and [um]: the
    symbols, each once, that are not tracked yet, are not empty, end in
    [USDT], are in the spot listing with the status [TRADING] and are a
    pair of the futures listing; these and no other. *)
Theorem resolver_appends_exactly (spot : list SpotSymbol) (um : list UmSymbol)
    (self : RankMaintainer (world:=world)) :
  (∀ w, (client_exchange_info w).1 = Ok spot) →
  (∀ w, (um_client_exchange_info w).1 = Ok um) →
  readable (cache_content self) →
  ∃ self1 new,
    get_need_trading_pair_set client_exchange_info um_client_exchange_info self
      = (Ok tt, self1) ∧
    tracked (cache_content self1) = tracked (cache_content self) ++ new ∧
    NoDup new ∧
    ∀ x, x ∈ new ↔
      (x ∉ tracked (cache_content self)) ∧ (x ≠ "") ∧ (∃ base, x = base +:+ "USDT") ∧
      (∃ p, p ∈ spot ∧ symbol p = x ∧ status p = "TRADING") ∧
      (∃ q, q ∈ um ∧ pair q = x).
Proof.
  intros Hspot Hum Hread.
  destruct (get_need_trading_pair_set_readable spot um self Hspot Hum Hread)
    as (self1 & Hrun & _ & Hitems & _).
  exists self1, (elements (fresh_pairs (tracked (cache_content self)) spot um)).
  split; [exact Hrun |]. split.
  { unfold tracked at 1. rewrite Hitems, lookup_insert_eq. reflexivity. }
  split; [apply NoDup_elements |].
  intros x. rewrite elem_of_elements, elem_of_fresh_pairs.
  rewrite (last4_suffix x). reflexivity.
Qed.

Lemma spot_pair_names_unreadable (symbols : list SpotSymbol)
    (self : RankMaintainer (world:=world)) :
  ¬ readable (cache_content self) →
  (∃ l, spot_pair_names symbols self = (Ok l, self)) ∨
  spot_pair_names symbols self = (Raise (KeyError "trading_pair_names"), self).
Proof.
  intros Hun. induction symbols as [| p rest IH]; simpl.
  - left. eauto.
  - rewrite M_bind_eq. destruct (spot_qualifies p).
    + rewrite M_bind_eq, (cache_getitem_unreadable self Hun). right. reflexivity.
    + simpl. rewrite M_bind_eq. destruct IH as [[l ->] | ->]; [left; eauto | right; reflexivity].
Qed.

Lemma um_pair_names_unreadable (symbols : list UmSymbol)
    (self : RankMaintainer (world:=world)) :
  ¬ readable (cache_content self) →
  (∃ l, um_pair_names symbols self = (Ok l, self)) ∨
  um_pair_names symbols self = (Raise (KeyError "trading_pair_names"), self).
Proof.
  intros Hun. induction symbols as [| p rest IH]; simpl.
  - left. eauto.
  - rewrite M_bind_eq. destruct (um_qualifies p).
    + rewrite M_bind_eq, (cache_getitem_unreadable self Hun). right. reflexivity.
    + simpl. rewrite M_bind_eq. destruct IH as [[l ->] | ->]; [left; eauto | right; reflexivity].
Qed.

Lemma get_need_trading_pair_set_unreadable (spot : list SpotSymbol) (um : list UmSymbol)
    (self : RankMaintainer (world:=world)) :
  (∀ w, (client_exchange_info w).1 = Ok spot) →
  (∀ w, (um_client_exchange_info w).1 = Ok um) →
  ¬ readable (cache_content self) →
  ∃ self1,
    get_need_trading_pair_set client_exchange_info um_client_exchange_info self
      = (Raise (KeyError "trading_pair_names"), self1) ∧
    cache_content self1 = cache_content self ∧
    cache_file self1 = cache_file self ∧
    pair_name_to_klines_dict self1 = pair_name_to_klines_dict self ∧
    (cache_items (cache_content self) ≠ ∅ → self1 = self).
Proof.
  intros Hspot Hum Hun.
  unfold get_need_trading_pair_set. rewrite M_bind_eq. simpl. rewrite M_bind_eq.
  destruct (bool_decide (cache_items (cache_content self) = ∅)) eqn:Hempty.
  2: { rewrite (cache_getitem_unreadable self Hun). exists self. repeat split. }
  apply bool_decide_eq_true in Hempty. simpl.
  rewrite M_bind_eq.
  destruct (call_fixed client_exchange_info spot self Hspot) as [w1 ->].
  rewrite M_bind_eq.
  destruct (call_fixed um_client_exchange_info um (set_client self w1) Hum) as [w2 ->].
  set (s3 := set_client (set_client self w1) w2).
  assert (Hun3 : ¬ readable (cache_content s3)) by exact Hun.
  rewrite M_bind_eq.
  destruct (spot_pair_names_unreadable spot s3 Hun3) as [[l1 ->] | ->].
  2: { exists s3. repeat split. intros Hne. contradiction. }
  rewrite M_bind_eq.
  destruct (um_pair_names_unreadable um s3 Hun3) as [[l2 ->] | ->].
  2: { exists s3. repeat split. intros Hne. contradiction. }
  rewrite M_bind_eq, (cache_getitem_unreadable s3 Hun3).
  exists s3. repeat split. intros Hne. contradiction.
Qed.

Lemma get_need_trading_pair_set_never_returns (self : RankMaintainer (world:=world)) :
  ¬ readable (cache_content self) →
  ∃ e self1,
    get_need_trading_pair_set client_exchange_info um_client_exchange_info self
      = (Raise e, self1) ∧
    cache_content self1 = cache_content self ∧
    cache_file self1 = cache_file self ∧
    (cache_items (cache_content self) ≠ ∅ →
     e = KeyError "trading_pair_names" ∧ self1 = self) ∧
    (∀ spot um w1 w2,
       client_exchange_info (client self) = (Ok spot, w1) →
       um_client_exchange_info w1 = (Ok um, w2) →
       e = KeyError "trading_pair_names").
Proof.
  intros Hun.
  unfold get_need_trading_pair_set. rewrite M_bind_eq. simpl. rewrite M_bind_eq.
  destruct (bool_decide (cache_items (cache_content self) = ∅)) eqn:Hempty.
  2: { rewrite (cache_getitem_unreadable self Hun). exists (KeyError "trading_pair_names"), self.
       repeat split. }
  apply bool_decide_eq_true in Hempty. simpl.
  rewrite M_bind_eq. unfold call at 1.
  destruct (client_exchange_info (client self)) as [[spot | e1] w1] eqn:Hspot.
  2: { eexists _, _. split; [reflexivity |]. repeat split; try contradiction.
       intros spot um w1' w2 [=]. }
  rewrite M_bind_eq. unfold call at 1. simpl.
  destruct (um_client_exchange_info w1) as [[um | e2] w2] eqn:Hum.
  2: { eexists _, _. split; [reflexivity |]. repeat split; try contradiction.
       intros spot' um w1' w2' [= <- <-] Hum'. rewrite Hum in Hum'. discriminate. }
  set (s3 := set_client (set_client self w1) w2).
  assert (Hun3 : ¬ readable (cache_content s3)) by exact Hun.
  rewrite M_bind_eq.
  destruct (spot_pair_names_unreadable spot s3 Hun3) as [[l1 ->] | ->].
  2: { exists (KeyError "trading_pair_names"), s3. repeat split; contradiction. }
  rewrite M_bind_eq.
  destruct (um_pair_names_unreadable um s3 Hun3) as [[l2 ->] | ->].
  2: { exists (KeyError "trading_pair_names"), s3. repeat split; contradiction. }
  rewrite M_bind_eq, (cache_getitem_unreadable s3 Hun3).
  exists (KeyError "trading_pair_names"), s3. repeat split; contradiction.
Qed.

(** On a plain dict that lacks the key [trading_pair_names] (a cache file
    holding [{}], say) the resolver never returns: it raises, nothing is
    appended and the cache file is not written.  The error is [KeyError]
    whenever the two listings were fetched; when the dict holds other keys
    it is [KeyError] before any request. *)
Theorem resolver_needs_the_key (self : RankMaintainer (world:=world)) :
  default_factory (cache_content self) = false →
  cache_items (cache_content self) !! "trading_pair_names" = None →
  ∃ e self1,
    get_need_trading_pair_set client_exchange_info um_client_exchange_info self
      = (Raise e, self1) ∧
    cache_content self1 = cache_content self ∧
    cache_file self1 = cache_file self ∧
    (cache_items (cache_content self) ≠ ∅ →
     e = KeyError "trading_pair_names" ∧ self1 = self) ∧
    (∀ spot um w1 w2,
       client_exchange_info (client self) = (Ok spot, w1) →
       um_client_exchange_info w1 = (Ok um, w2) →
       e = KeyError "trading_pair_names").
Proof.
  intros Hdf Hkey. apply get_need_trading_pair_set_never_returns.
  intros [[l Hl] | Htrue]; congruence.
Qed.

Lemma keeps_dict_bind {A B} (m : M (world:=world) A) (f : A → M B) :
  keeps_dict m → (∀ a, keeps_dict (f a)) → keeps_dict (m ≫= f).
Proof.
  intros Hm Hf self x self'. rewrite M_bind_eq.
  destruct (m self) as [[a | e] self1] eqn:Hrun; destruct (Hm _ _ _ Hrun) as (Hd & Hx & Hi).
  - intros Hrest. destruct (Hf a _ _ _ Hrest) as (Hd' & Hx' & Hi').
    split; [congruence |]. split; congruence.
  - intros [= <- <-]. auto.
Qed.

Lemma keeps_dict_ret {A} (a : A) : keeps_dict (mret a : M (world:=world) A).
Proof. intros self x self' [= <- <-]. auto. Qed.

Lemma keeps_dict_call {A} (request : world → result A * world) : keeps_dict (call request).
Proof.
  intros self x self'. unfold call.
  destruct (request (client self)) as [r w]. intros [= <- <-]. auto.
Qed.

Lemma keeps_dict_cache_getitem (key : string) :
  keeps_dict (cache_getitem (world:=world) key).
Proof.
  intros self x self'. unfold cache_getitem.
  destruct (cache_items (cache_content self) !! key).
  - intros [= <- <-]. auto.
  - destruct (default_factory (cache_content self)); intros [= <- <-]; auto.
Qed.

Lemma keeps_dict_spot_pair_names (symbols : list SpotSymbol) :
  keeps_dict (spot_pair_names (world:=world) symbols).
Proof.
  induction symbols as [| p rest IH]; simpl.
  - apply keeps_dict_ret.
  - apply keeps_dict_bind.
    + destruct (spot_qualifies p); [| apply keeps_dict_ret].
      apply keeps_dict_bind; [apply keeps_dict_cache_getitem |].
      intros a. apply keeps_dict_ret.
    + intros keep. apply keeps_dict_bind; [exact IH |]. intros a. apply keeps_dict_ret.
Qed.

Lemma keeps_dict_um_pair_names (symbols : list UmSymbol) :
  keeps_dict (um_pair_names (world:=world) symbols).
Proof.
  induction symbols as [| p rest IH]; simpl.
  - apply keeps_dict_ret.
  - apply keeps_dict_bind.
    + destruct (um_qualifies p); [| apply keeps_dict_ret].
      apply keeps_dict_bind; [apply keeps_dict_cache_getitem |].
      intros a. apply keeps_dict_ret.
    + intros keep. apply keeps_dict_bind; [exact IH |]. intros a. apply keeps_dict_ret.
Qed.

(** The resolver never touches the windows or the configuration. *)
Lemma keeps_dict_get_need_trading_pair_set :
  keeps_dict (get_need_trading_pair_set client_exchange_info um_client_exchange_info).
Proof.
  unfold get_need_trading_pair_set.
  apply keeps_dict_bind; [intros self x self' [= <- <-]; auto |]. intros c.
  apply keeps_dict_bind.
  { destruct (bool_decide _); [apply keeps_dict_ret | apply keeps_dict_cache_getitem]. }
  intros _. apply keeps_dict_bind; [apply keeps_dict_call |]. intros pair_infos.
  apply keeps_dict_bind; [apply keeps_dict_call |]. intros um_pair_infos.
  apply keeps_dict_bind; [apply keeps_dict_spot_pair_names |]. intros pair_names.
  apply keeps_dict_bind; [apply keeps_dict_um_pair_names |]. intros um_names.
  apply keeps_dict_bind; [apply keeps_dict_cache_getitem |]. intros names.
  apply keeps_dict_bind; [intros self x self' [= <- <-]; auto |]. intros _.
  intros self x self' [= <- <-]. auto.
Qed.

(** The constructor on a first start, the two listings being [spot] and
    [um]: it returns, nothing is tracked but the symbols the resolver finds
    and the cache file holds them; no window is cached.  A later start from
    that file, whatever the other arguments, returns too, tracks the same
    list and leaves the file as it is. *)
Theorem init_first_start_then_restart (spot : list SpotSymbol) (um : list UmSymbol)
    (i : KLineInterval) (max_klines_num : Z) (w : world) :
  (∀ w, (client_exchange_info w).1 = Ok spot) →
  (∀ w, (um_client_exchange_info w).1 = Ok um) →
  ∃ self1,
    RankMaintainer_init client_exchange_info um_client_exchange_info i max_klines_num w None
      = (Ok tt, self1) ∧
    tracked (cache_content self1) = elements (fresh_pairs [] spot um) ∧
    cache_file self1 !! "trading_pair_names" = Some (tracked (cache_content self1)) ∧
    pair_name_to_klines_dict self1 = ∅ ∧
    ∀ i' max' w', ∃ self2,
      RankMaintainer_init client_exchange_info um_client_exchange_info i' max' w'
        (Some (cache_file self1)) = (Ok tt, self2) ∧
      tracked (cache_content self2) = tracked (cache_content self1) ∧
      cache_file self2 = cache_file self1 ∧
      pair_name_to_klines_dict self2 = ∅.
Proof.
  intros Hspot Hum. unfold RankMaintainer_init.
  set (self0 := {| interval := i; max_klines_num := max_klines_num;
                   cache_content := {| default_factory := true; cache_items := ∅ |};
                   cache_file := ∅; pair_name_to_klines_dict := ∅; client := w |}).
  assert (Hread : readable (cache_content self0)) by (right; reflexivity).
  destruct (get_need_trading_pair_set_readable spot um self0 Hspot Hum Hread)
    as (self1 & Hrun & _ & Hitems & Hfile).
  destruct (keeps_dict_get_need_trading_pair_set _ _ _ Hrun) as (Hdict & _ & _).
  change (tracked (cache_content self0)) with (@nil string) in Hitems.
  simpl in Hitems.
  set (new := elements (fresh_pairs [] spot um)) in *.
  assert (Htracked : tracked (cache_content self1) = new).
  { unfold tracked. rewrite Hitems, lookup_insert_eq. reflexivity. }
  exists self1. split; [exact Hrun |]. split; [exact Htracked |].
  split; [rewrite Hfile, Hitems, Htracked; apply lookup_insert_eq |].
  split; [exact Hdict |].
  intros i' max' w'.
  set (again := {| interval := i'; max_klines_num := max';
                   cache_content := {| default_factory := false;
                                       cache_items := cache_file self1 |};
                   cache_file := cache_file self1;
                   pair_name_to_klines_dict := ∅; client := w' |}).
  assert (Hlook : cache_items (cache_content again) !! "trading_pair_names" = Some new).
  { simpl. rewrite Hfile, Hitems. apply lookup_insert_eq. }
  assert (Hread2 : readable (cache_content again)) by (left; eauto).
  destruct (get_need_trading_pair_set_readable spot um again Hspot Hum Hread2)
    as (self2 & Hrun2 & _ & Hitems2 & Hfile2).
  destruct (keeps_dict_get_need_trading_pair_set _ _ _ Hrun2) as (Hdict2 & _ & _).
  assert (Htracked2 : tracked (cache_content again) = [] ++ new).
  { unfold tracked. rewrite Hlook. reflexivity. }
  rewrite Htracked2 in Hitems2.
  unfold new in Hitems2 at 2. rewrite fresh_pairs_stable, elements_empty, app_nil_r in Hitems2.
  simpl in Hitems2. rewrite (insert_id _ _ _ Hlook) in Hitems2. simpl in Hitems2.
  exists self2. split; [exact Hrun2 |].
  split; [| split; [rewrite Hfile2, Hitems2; reflexivity | exact Hdict2]].
  unfold tracked. rewrite Hitems2, Hfile, Hitems, lookup_insert_eq. reflexivity.
Qed.

(** A first start that cannot fetch the spot listing raises the client's
    error after the empty dict was written to the cache file; a later start
    finds that file, reads a plain dict without the key and raises
    [KeyError], although the two listings are fetched this time. *)
Theorem init_after_failed_first_start (spot : list SpotSymbol) (um : list UmSymbol)
    (i i' : KLineInterval) (max_klines_num max' : Z) (w w' later w1 w2 : world) (e : exn) :
  client_exchange_info w = (Raise e, w') →
  client_exchange_info later = (Ok spot, w1) →
  um_client_exchange_info w1 = (Ok um, w2) →
  (∃ self1,
     RankMaintainer_init client_exchange_info um_client_exchange_info i max_klines_num w None
       = (Raise e, self1) ∧
     cache_file self1 = ∅) ∧
  (∃ self2,
     RankMaintainer_init client_exchange_info um_client_exchange_info i' max' later (Some ∅)
       = (Raise (KeyError "trading_pair_names"), self2) ∧
     cache_file self2 = ∅).
Proof.
  intros Hdown Hspot Hum. split.
  - unfold RankMaintainer_init, get_need_trading_pair_set.
    rewrite M_bind_eq. simpl. rewrite M_bind_eq. simpl.
    rewrite bool_decide_eq_true_2 by reflexivity. simpl.
    rewrite M_bind_eq. unfold call. simpl. rewrite Hdown.
    eexists. split; reflexivity.
  - unfold RankMaintainer_init.
    set (again := {| interval := i'; max_klines_num := max';
                     cache_content := {| default_factory := false; cache_items := ∅ |};
                     cache_file := ∅; pair_name_to_klines_dict := ∅; client := later |}).
    assert (Hun : ¬ readable (cache_content again)).
    { intros [[l Hl] | Htrue]; simpl in *; [| discriminate].
      rewrite lookup_empty in Hl. discriminate. }
    destruct (get_need_trading_pair_set_never_returns again Hun)
      as (e2 & self2 & Hrun & _ & Hf & _ & Hkey).
    rewrite (Hkey spot um w1 w2 Hspot Hum) in Hrun.
    exists self2. split; [exact Hrun | exact Hf].
Qed.

(** *** The ranking of info_requester.py *)




(** *** The initial pass when a fetch fails or the history is short *)

Lemma get_current_trading_klines_other (s : string) (i : KLineInterval)
    (self self1 : RankMaintainer (world:=world)) (x : result KLines) :
  get_current_trading_klines client_klines s i self = (x, self1) →
  ∀ n, n ≠ s → pair_name_to_klines_dict self1 !! n = pair_name_to_klines_dict self !! n.
Proof.
  rewrite get_current_trading_klines_eq.
  destruct (pair_name_to_klines_dict self !! s) as [window0 |].
  { intros [= <- <-]. reflexivity. }
  destruct (client_klines (client self) s (value i) (max_klines_num self))
    as [[rows | e] w].
  - destruct (convert_klines_list_to_klines rows) as [window0 | e].
    + intros [= <- <-] n Hn. simpl. apply lookup_insert_ne. congruence.
    + intros [= <- <-]. reflexivity.
  - intros [= <- <-]. reflexivity.
Qed.

Lemma init_rank_body_state (s : string) (p r : Z)
    (self self1 : RankMaintainer (world:=world)) (x : result pynum) :
  init_rank_body client_klines s p r self = (x, self1) →
  ∃ y, get_current_trading_klines client_klines s (interval self) self = (y, self1).
Proof.
  rewrite init_rank_body_eq.
  destruct (get_current_trading_klines client_klines s (interval self) self)
    as [[window | e] self0]; intros [= <- <-]; eauto.
Qed.

Lemma init_rank_loop_keeps (names : list string) (p r : Z)
    (acc : list (string * pynum)) (self self' : RankMaintainer (world:=world))
    (x : result (list (string * pynum))) :
  init_rank_loop client_klines names p r acc self = (x, self') → keeps_windows self self'.
Proof.
  revert acc self. induction names as [| n names IH]; intros acc self; simpl.
  - intros [= <- <-]. apply keeps_windows_refl.
  - rewrite M_bind_eq.
    destruct (init_rank_body client_klines n p r self) as [[y | e] self1] eqn:Hbody;
      apply init_rank_body_state in Hbody as [z Hget];
      apply get_current_trading_klines_keeps in Hget.
    + intros Hrest. apply IH in Hrest. eapply keeps_windows_trans; eassumption.
    + intros [= <- <-]. exact Hget.
Qed.

Lemma init_rank_loop_raises (P : RankMaintainer (world:=world) → Prop) (s : string) (p r : Z) :
  (∀ n self x self', n ≠ s → init_rank_body client_klines n p r self = (Ok x, self') →
                     P self → P self') →
  (∀ self, P self → ∃ e self', init_rank_body client_klines s p r self = (Raise e, self')) →
  ∀ names acc self, In s names → P self →
    ∃ e self', init_rank_loop client_klines names p r acc self = (Raise e, self').
Proof.
  intros Hinv Hraise names.
  induction names as [| n names IH]; intros acc self Hin HP; [destruct Hin |].
  simpl. rewrite M_bind_eq.
  destruct (init_rank_body client_klines n p r self) as [[x | e] self1] eqn:Hbody.
  - destruct (decide (n = s)) as [-> | Hne].
    + destruct (Hraise self HP) as (e & self' & He). congruence.
    + destruct Hin as [-> | Hin]; [contradiction |].
      apply IH; [exact Hin |]. eapply Hinv; eassumption.
  - eauto.
Qed.

(** The initial pass has no per-symbol recovery either: when the exchange
    fails for a tracked symbol that has no window yet, the whole pass
    raises and returns no ranking.  The windows cached before the pass, and
    those it cached on its way, stay. *)
Theorem init_pass_aborts_on_fetch_failure (p r : Z) (names : list string) (s : string)
    (self : RankMaintainer (world:=world)) :
  cache_items (cache_content self) !! "trading_pair_names" = Some names →
  In s names →
  pair_name_to_klines_dict self !! s = None →
  (∀ w iv limit, ∃ e w', client_klines w s iv limit = (Raise e, w')) →
  ∃ e self',
    get_init_buying_volume_diff_ratio_rank client_klines p r self = (Raise e, self') ∧
    keeps_windows self self' ∧
    pair_name_to_klines_dict self' !! s = None.
Proof.
  intros Hnames Hin Hnone Hdown.
  unfold get_init_buying_volume_diff_ratio_rank.
  rewrite M_bind_eq. simpl. rewrite M_bind_eq. unfold lift.
  destruct (p <=? max_klines_num self); simpl.
  2: { eexists _, _. split; [reflexivity |]. split; [apply keeps_windows_refl | exact Hnone]. }
  rewrite M_bind_eq.
  destruct (r <=? max_klines_num self); simpl.
  2: { eexists _, _. split; [reflexivity |]. split; [apply keeps_windows_refl | exact Hnone]. }
  rewrite M_bind_eq. unfold cache_getitem. rewrite Hnames.
  rewrite M_bind_eq.
  assert (Hbody : ∀ st : RankMaintainer (world:=world),
            pair_name_to_klines_dict st !! s = None →
            ∃ e st', init_rank_body client_klines s p r st = (Raise e, st')).
  { intros st Hst. rewrite init_rank_body_eq, get_current_trading_klines_eq, Hst.
    destruct (Hdown (client st) (value (interval st)) (max_klines_num st)) as (e & w' & ->).
    eauto. }
  destruct (init_rank_loop_raises (λ st, pair_name_to_klines_dict st !! s = None) s p r)
    with (names := names) (acc := @nil (string * pynum)) (self := self)
    as (e & self' & Hloop); auto.
  { intros n st x st' Hne Hok Hst.
    apply init_rank_body_state in Hok as [y Hget].
    rewrite (get_current_trading_klines_other _ _ _ _ _ Hget s) by congruence.
    exact Hst. }
  rewrite Hloop. exists e, self'. split; [reflexivity |].
  pose proof (init_rank_loop_keeps _ _ _ _ _ _ _ Hloop) as Hkeep.
  split; [exact Hkeep |].
  (* the symbol is still without a window: the loop stopped at it or before *)
  clear Hbody. revert Hloop Hnone. generalize (@nil (string * pynum)). clear Hnames Hin Hkeep.
  revert self. induction names as [| n names IH]; intros self acc; simpl.
  - discriminate.
  - rewrite M_bind_eq.
    destruct (init_rank_body client_klines n p r self) as [[x | e0] self1] eqn:Hb.
    + intros Hrest Hnone.
      destruct (decide (n = s)) as [-> | Hne].
      * exfalso. rewrite init_rank_body_eq, get_current_trading_klines_eq, Hnone in Hb.
        destruct (Hdown (client self) (value (interval self)) (max_klines_num self))
          as (e1 & w' & Hd). rewrite Hd in Hb. discriminate.
      * apply (IH self1 _ Hrest).
        apply init_rank_body_state in Hb as [y Hget].
        rewrite (get_current_trading_klines_other _ _ _ _ _ Hget s) by congruence.
        exact Hnone.
    + intros [= <- <-] Hnone.
      apply init_rank_body_state in Hb as [y Hget].
      destruct (decide (n = s)) as [-> | Hne].
      * rewrite get_current_trading_klines_eq, Hnone in Hget.
        destruct (Hdown (client self) (value (interval self)) (max_klines_num self))
          as (e1 & w' & Hd). rewrite Hd in Hget. injection Hget as _ <-. exact Hnone.
      * rewrite (get_current_trading_klines_other _ _ _ _ _ Hget s) by congruence.
        exact Hnone.
Qed.

(** When the exchange has fewer than [max_klines_num] bars for a symbol
    that has no window yet, the initial pass caches the short window and
    then raises [AssertionError] at the average; the short window stays
    cached, so that the same happens for this symbol in any later state
    that holds it, without a new request. *)
Theorem init_body_short_history (s : string) (p r : Z) (rows : list (list pyval))
    (window : KLines) (w : world) (self : RankMaintainer (world:=world)) :
  pair_name_to_klines_dict self !! s = None →
  client_klines (client self) s (value (interval self)) (max_klines_num self)
    = (Ok rows, w) →
  convert_klines_list_to_klines rows = Ok window →
  Z.of_nat (length rows) < max_klines_num self →
  (∃ msg self1,
     init_rank_body client_klines s p r self = (Raise (AssertionError msg), self1) ∧
     pair_name_to_klines_dict self1 !! s = Some window) ∧
  ∀ p' r' (later : RankMaintainer (world:=world)),
    pair_name_to_klines_dict later !! s = Some window →
    max_klines_num later = max_klines_num self →
    ∃ msg, init_rank_body client_klines s p' r' later = (Raise (AssertionError msg), later).
Proof.
  intros Hnone Hfetch Hconv Hshort.
  assert (Hnum : klines_num window < max_klines_num self).
  { unfold convert_klines_list_to_klines in Hconv.
    destruct (convert_rows rows) as [ks |] eqn:Hks; simpl in Hconv; [| discriminate].
    injection Hconv as <-. apply convert_rows_spec, Forall2_length in Hks.
    simpl. lia. }
  split.
  - rewrite init_rank_body_eq, get_current_trading_klines_eq, Hnone, Hfetch, Hconv.
    destruct (ratio_short_window (max_klines_num self) window p r Hnum) as [msg ->].
    eexists _, _. split; [reflexivity |]. simpl. apply lookup_insert_eq.
  - intros p' r' later Hlater Hmax.
    rewrite init_rank_body_eq, get_current_trading_klines_eq, Hlater.
    destruct (ratio_short_window (max_klines_num later) window p' r') as [msg ->];
      [lia | eauto].
Qed.

End Engine.

End Properties.

(** * Evaluations

    The properties above at concrete inputs, and the inputs at which the
    design document and the program part ways, all with the runtime
    [Exact]. *)

Section Evaluations.
Import Exact.

(** ** The order of the exact runtime *)




(** ** C1 *)



(** ** C2 *)

(** C2 as the design document states it fails.  On a full window of two bars with
    [p = 2] the passes compute a ratio where [average_over(-2, 2)] is out
    of range; on the same window with [max_klines_num = 3] the documented
    ratio exists and the passes raise. *)
Lemma ratio_differs_from_documented :
  buying_volume_diff_ratio 2 window2 2 1 = Ok (PFloat (1 # 2)) ∧
  ratio_as_documented window2 2 1 = Raise (AssertionError "start_index out of range") ∧
  buying_volume_diff_ratio 3 window2 1 1 = Raise (AssertionError "start_index out of range") ∧
  ratio_as_documented window2 1 1 = Ok (PFloat 0%Q).
Proof. repeat split; reflexivity. Qed.

Lemma ratio_on_full_window_witness :
  klines_num window4 = Z.of_nat (length (klines_list window4)) ∧
  klines_num window4 = 4 ∧ 1 <= 3 <= 4 ∧ 1 <= 1 <= 4 ∧
  buying_volume_diff_ratio 4 window4 3 1 = Ok (PFloat 1%Q) ∧
  buying_volume_diff_ratio 4 window4 3 1 = ratio_as_documented window4 3 1.
Proof.
  assert (H3 : 1 <= 3 <= 4) by lia.
  assert (H1 : 1 <= 1 <= 4) by lia.
  split; [reflexivity |]. split; [reflexivity |].
  split; [exact H3 |]. split; [exact H1 |].
  destruct (ratio_on_full_window 4 window4 3 1 eq_refl eq_refl H3 H1) as (_ & Hratio & Hdoc).
  split.
  - rewrite Hratio. reflexivity.
  - apply Hdoc; lia.
Defined.

(** ** C3 and C4 *)


Lemma update_rejected_leaves_window_witness :
  klines_list window4
    = [bar 0 59 10; bar 60 119 10; bar 120 179 10] ++ [bar 180 239 40] ∧
  start_time (bar 120 179 7) < start_time (bar 180 239 40) ∧
  update_latest_klines window4 (bar 120 179 7) = Ok (false, window4).
Proof.
  assert (Hlt : start_time (bar 120 179 7) < start_time (bar 180 239 40))
    by (simpl; lia).
  split; [reflexivity |]. split; [exact Hlt |].
  exact (proj2 (update_rejected_leaves_window window4
                  [bar 0 59 10; bar 60 119 10; bar 120 179 10] (bar 180 239 40)
                  (bar 120 179 7) eq_refl) (or_intror Hlt)).
Defined.

(** ** C5 and C9 *)

(** C5 as the design document states it fails: the index [0] and the size [0] meet the
    three preconditions on a window of two bars, and the method raises
    [ZeroDivisionError]; it returns no mean. *)
Lemma average_over_zero_window_size :
  average_over_pre (klines_num window2) 0 0 ∧
  calculate_average_data_by_given_window window2 0 0 = Raise ZeroDivisionError.
Proof.
  split.
  - unfold average_over_pre. simpl. lia.
  - reflexivity.
Qed.

Lemma average_over_contract_witness :
  klines_num window4 = Z.of_nat (length (klines_list window4)) ∧
  average_over_pre (klines_num window4) (-3) 2 ∧
  calculate_average_data_by_given_window window4 (-3) 2
    = Ok (average_of_bars [bar 60 119 10; bar 120 179 10] (-3) (-2)).
Proof.
  assert (Hpre : average_over_pre (klines_num window4) (-3) 2)
    by (unfold average_over_pre; simpl; lia).
  split; [reflexivity |]. split; [exact Hpre |].
  destruct (average_over_contract window4 (-3) 2 eq_refl) as (_ & Hmean & _).
  destruct (Hmean Hpre ltac:(lia)) as (Hok & _ & _).
  exact Hok.
Defined.

Lemma average_over_wraps_around_witness :
  klines_num window10 = Z.of_nat (length (klines_list window10)) ∧
  average_over_pre (klines_num window10) (-3) 5 ∧ -3 < 0 ∧ 0 < -3 + 5 ∧
  calculate_average_data_by_given_window window10 (-3) 5
    = Ok (average_of_bars
            ([bar 420 479 8; bar 480 539 9; bar 540 599 10] ++ [bar 0 59 1; bar 60 119 2])
            (-3) 1).
Proof.
  assert (Hpre : average_over_pre (klines_num window10) (-3) 5)
    by (unfold average_over_pre; simpl; lia).
  assert (Hneg : -3 < 0) by lia.
  assert (Hpos : 0 < -3 + 5) by lia.
  split; [reflexivity |]. split; [exact Hpre |]. split; [exact Hneg |]. split; [exact Hpos |].
  exact (proj1 (average_over_wraps_around window10 (-3) 5 eq_refl Hpre Hneg Hpos)).
Defined.

(** ** C6 *)


(** ** C7 *)

Lemma resolve_twice_is_stable_witness :
  (∀ w, (exchange_info w).1 = Ok spot_listing) ∧
  (∀ w, (um_exchange_info w).1 = Ok um_listing) ∧
  readable (cache_content fresh_object) ∧
  tracked (cache_content
             (get_need_trading_pair_set exchange_info um_exchange_info fresh_object).2)
    = ["SOLUSDT"; "BTCUSDT"] ∧
  ∃ self1,
    get_need_trading_pair_set exchange_info um_exchange_info fresh_object = (Ok tt, self1) ∧
    ∃ self2,
      get_need_trading_pair_set exchange_info um_exchange_info self1 = (Ok tt, self2) ∧
      cache_file self2 = cache_file self1.
Proof.
  assert (Hspot : ∀ w, (exchange_info w).1 = Ok spot_listing) by (intros w; reflexivity).
  assert (Hum : ∀ w, (um_exchange_info w).1 = Ok um_listing) by (intros w; reflexivity).
  assert (Hread : readable (cache_content fresh_object)) by (right; reflexivity).
  split; [exact Hspot |]. split; [exact Hum |]. split; [exact Hread |].
  split; [vm_compute; reflexivity |].
  destruct (resolve_twice_is_stable exchange_info um_exchange_info spot_listing um_listing
              fresh_object Hspot Hum Hread)
    as (self1 & new & Hrun & _ & _ & _ & Hfile & Hagain).
  exists self1. split; [exact Hrun |].
  destruct (Hagain self1 (eq_sym Hfile)) as (self2 & Hrun2 & _ & _ & Hfile2).
  exists self2. split; [exact Hrun2 | exact Hfile2].
Defined.

(** ** C8 *)

(** C8, the program at a row whose low price cannot be a float: the bar is
    built, and its [min_price] is the string of the row. *)
Lemma kline_min_price_not_coerced :
  kline_of_row [PyInt 0; PyStr "1.5"; PyStr "2.5"; PyStr "not a price"; PyStr "2";
                PyStr "100"; PyInt 59; PyStr "3"; PyInt 7; PyStr "50"; PyStr "1.5";
                PyStr "0"]
  = Ok {| start_time := 0; open_price := 3 # 2; max_price := 5 # 2;
          min_price := PyStr "not a price"; close_price := 2%Q; turn_over := 100%Q;
          end_time := 59; volume := 3%Q; transaction_num := 7;
          buying_turn_over := 50%Q; buying_volume := 3 # 2; ignore_param := "0" |} ∧
  py_float (PyStr "not a price") = Raise ValueError ∧
  is_ok (kline_of_row [PyInt 0; PyStr "1.5"; PyStr "not a price"; PyStr "1"; PyStr "2";
                       PyStr "100"; PyInt 59; PyStr "3"; PyInt 7; PyStr "50"; PyStr "1.5";
                       PyStr "0"]) = false.
Proof. repeat split; reflexivity. Qed.

(** ** C10 *)

Lemma update_klines_without_window_witness :
  pair_name_to_klines_dict object_no_window !! "AUSDT" = None ∧
  (update_klines klines "AUSDT" HOUR1 object_no_window).1 = Raise (KeyError "AUSDT") ∧
  pair_name_to_klines_dict (update_klines klines "AUSDT" HOUR1 object_no_window).2 = ∅.
Proof.
  destruct (update_klines_without_window klines "AUSDT" HOUR1 object_no_window eq_refl)
    as (Hkey & _ & _).
  split; [reflexivity |].
  rewrite (Hkey (bar 180 239 40) (set_client object_no_window 1%nat)) by reflexivity.
  split; reflexivity.
Defined.

(** ** The window and the bar, further properties *)

Lemma update_keeps_length_witness :
  update_latest_klines window4 (bar 240 299 5) = Ok (true, window4_advanced) ∧
  length (klines_list window4_advanced) = length (klines_list window4) ∧
  klines_num window4_advanced = klines_num window4.
Proof.
  assert (Hupd : update_latest_klines window4 (bar 240 299 5) = Ok (true, window4_advanced))
    by reflexivity.
  split; [exact Hupd |].
  exact (update_keeps_length window4 window4_advanced (bar 240 299 5) true Hupd).
Defined.

Lemma update_raises_on_empty_only_witness :
  klines_list window0 = [] ∧
  update_latest_klines window0 (bar 0 59 1) = Raise IndexError.
Proof.
  split; [reflexivity |].
  exact (proj2 (update_raises_on_empty_only window0 (bar 0 59 1) IndexError)
           (conj eq_refl eq_refl)).
Defined.

Lemma update_then_latest_witness :
  update_latest_klines window4 (bar 240 299 5) = Ok (true, window4_advanced) ∧
  klines_get_latest_kline window4_advanced = Ok (bar 240 299 5).
Proof.
  assert (Hupd : update_latest_klines window4 (bar 240 299 5) = Ok (true, window4_advanced))
    by reflexivity.
  split; [exact Hupd |].
  exact (update_then_latest window4 window4_advanced (bar 240 299 5) true Hupd).
Defined.

Lemma update_idempotent_witness :
  update_latest_klines window4 (bar 240 299 5) = Ok (true, window4_advanced) ∧
  update_latest_klines window4_advanced (bar 240 299 5) = Ok (true, window4_advanced).
Proof.
  assert (Hupd : update_latest_klines window4 (bar 240 299 5) = Ok (true, window4_advanced))
    by reflexivity.
  split; [exact Hupd |].
  exact (update_idempotent window4 window4_advanced (bar 240 299 5) true Hupd).
Defined.

Lemma update_keeps_start_time_order_witness :
  StronglySorted (λ x y, start_time x < start_time y) (klines_list window4) ∧
  update_latest_klines window4 (bar 240 299 5) = Ok (true, window4_advanced) ∧
  StronglySorted (λ x y, start_time x < start_time y) (klines_list window4_advanced).
Proof.
  assert (Hsorted : StronglySorted (λ x y, start_time x < start_time y) (klines_list window4)).
  { repeat (constructor; [| repeat (constructor; [simpl; lia |]); constructor]).
    constructor. }
  assert (Hupd : update_latest_klines window4 (bar 240 299 5) = Ok (true, window4_advanced))
    by reflexivity.
  split; [exact Hsorted |]. split; [exact Hupd |].
  exact (update_keeps_start_time_order window4 window4_advanced (bar 240 299 5) true
           Hsorted Hupd).
Defined.

Lemma average_outcomes_witness :
  klines_num window2 = Z.of_nat (length (klines_list window2)) ∧
  average_over_pre (klines_num window2) 1 (-1) ∧
  calculate_average_data_by_given_window window2 1 (-1) =
    Ok {| avg_turn_over := zdiv 0 (-1); avg_volume := zdiv 0 (-1);
          avg_transaction_num := zdiv 0 (-1); avg_buying_turn_over := zdiv 0 (-1);
          avg_buying_volume := zdiv 0 (-1); start_index := 1; end_index := 1 + -1 - 1 |}.
Proof.
  assert (Hpre : average_over_pre (klines_num window2) 1 (-1))
    by (unfold average_over_pre; simpl; lia).
  split; [reflexivity |]. split; [exact Hpre |].
  destruct (average_outcomes window2 1 (-1) eq_refl) as (_ & _ & _ & Hneg).
  exact (Hneg Hpre ltac:(lia)).
Defined.

Lemma kline_of_row_length_witness :
  (length [PyInt 0; PyStr "1"] < 12)%nat ∧
  kline_of_row [PyInt 0; PyStr "1"] = Raise IndexError.
Proof.
  assert (Hlen : (length [PyInt 0; PyStr "1"] < 12)%nat) by (simpl; lia).
  split; [exact Hlen |].
  exact (proj1 (kline_of_row_length [PyInt 0; PyStr "1"]) Hlen).
Defined.

Lemma convert_klines_list_to_klines_spec_witness :
  convert_klines_list_to_klines (history "AUSDT") = Ok window4 ∧
  klines_num window4 = Z.of_nat (length (history "AUSDT")) ∧
  length (klines_list window4) = length (history "AUSDT").
Proof.
  assert (Hconv : convert_klines_list_to_klines (history "AUSDT") = Ok window4)
    by reflexivity.
  split; [exact Hconv |].
  exact (proj2 (convert_klines_list_to_klines_spec (history "AUSDT") window4) Hconv).
Defined.

Lemma average_buying_volume_outcomes_witness :
  klines_num window4 = Z.of_nat (length (klines_list window4)) ∧
  calculate_average_buying_volume_by_given_window window4 (-4) 2
    = Ok (fmean (map buying_volume [bar 0 59 10; bar 60 119 10])) ∧
  calculate_average_buying_volume_by_given_window window4 (-5) 2 = Raise IndexError.
Proof.
  destruct (average_buying_volume_outcomes window4 (-4) 2 eq_refl) as (_ & Hmean & _).
  destruct (average_buying_volume_outcomes window4 (-5) 2 eq_refl) as (_ & _ & Hbelow).
  split; [reflexivity |]. split.
  - exact (proj1 (Hmean ltac:(simpl; lia) ltac:(lia) ltac:(simpl; lia))).
  - exact (Hbelow ltac:(simpl; lia) ltac:(lia) ltac:(simpl; lia)).
Defined.

Lemma average_buying_volume_agrees_witness :
  klines_num window4 = Z.of_nat (length (klines_list window4)) ∧
  average_over_pre (klines_num window4) 1 3 ∧
  ∃ avg,
    calculate_average_data_by_given_window window4 1 3 = Ok avg ∧
    calculate_average_buying_volume_by_given_window window4 1 3 = Ok (avg_buying_volume avg).
Proof.
  assert (Hpre : average_over_pre (klines_num window4) 1 3)
    by (unfold average_over_pre; simpl; lia).
  split; [reflexivity |]. split; [exact Hpre |].
  exact (average_buying_volume_agrees window4 1 3 eq_refl Hpre ltac:(lia)).
Defined.

Lemma ratio_v1_agrees_witness :
  klines_num window4 = Z.of_nat (length (klines_list window4)) ∧
  klines_num window4 = 4 ∧ 1 <= 3 <= 4 ∧ 1 <= 1 <= 4 ∧
  buying_volume_diff_ratio_v1 4 window4 3 1 = buying_volume_diff_ratio 4 window4 3 1 ∧
  buying_volume_diff_ratio_v1 4 window4 3 1 = Ok (PFloat 1%Q).
Proof.
  assert (H3 : 1 <= 3 <= 4) by lia.
  assert (H1 : 1 <= 1 <= 4) by lia.
  split; [reflexivity |]. split; [reflexivity |].
  split; [exact H3 |]. split; [exact H1 |].
  split; [exact (ratio_v1_agrees 4 window4 3 1 eq_refl eq_refl H3 H1) | reflexivity].
Defined.

Lemma last4_is_suffix_witness :
  last4 "BTCUSDT" = "USDT" ∧ last4 "USDTBTC" ≠ "USDT".
Proof.
  split.
  - apply (proj2 (last4_is_suffix "BTCUSDT")). exists "BTC". reflexivity.
  - discriminate.
Defined.

(** ** The object, further properties *)

Lemma get_current_trading_klines_caches_witness :
  pair_name_to_klines_dict object_no_window !! "AUSDT" = None ∧
  (get_current_trading_klines klines "AUSDT" HOUR1 object_no_window).1 = Ok window4 ∧
  get_current_trading_klines klines "AUSDT" MIN1
    (get_current_trading_klines klines "AUSDT" HOUR1 object_no_window).2
  = (Ok window4, (get_current_trading_klines klines "AUSDT" HOUR1 object_no_window).2).
Proof.
  split; [reflexivity |]. split; [reflexivity |].
  refine (proj2 (proj2 (get_current_trading_klines_caches klines "AUSDT" HOUR1
                          object_no_window) window4 _ _) MIN1).
  reflexivity.
Defined.

Lemma get_current_trading_klines_failure_witness :
  get_current_trading_klines klines "DOWNUSDT" HOUR1 object_cold_down
    = (Raise (ClientError 503), set_client object_cold_down 1%nat) ∧
  pair_name_to_klines_dict (set_client object_cold_down 1%nat)
    = pair_name_to_klines_dict object_cold_down.
Proof.
  assert (Hcall : get_current_trading_klines klines "DOWNUSDT" HOUR1 object_cold_down
                  = (Raise (ClientError 503), set_client object_cold_down 1%nat))
    by reflexivity.
  split; [exact Hcall |].
  exact (proj1 (get_current_trading_klines_failure klines "DOWNUSDT" HOUR1
                  object_cold_down _ _ Hcall)).
Defined.

Lemma update_klines_frame_witness :
  (update_klines klines "AUSDT" HOUR1 object_ahead).1 = Ok true ∧
  pair_name_to_klines_dict (update_klines klines "AUSDT" HOUR1 object_ahead).2 !! "BUSDT"
    = Some window_ahead.
Proof.
  split; [reflexivity |].
  rewrite (proj1 (update_klines_frame klines "AUSDT" HOUR1 object_ahead
                    (update_klines klines "AUSDT" HOUR1 object_ahead).2
                    (update_klines klines "AUSDT" HOUR1 object_ahead).1
                    (surjective_pairing _)) "BUSDT") by discriminate.
  reflexivity.
Defined.

Lemma passes_refuse_large_sizes_witness :
  (max_klines_num object_cold < 5 ∨ max_klines_num object_cold < 1) ∧
  (∃ msg, get_init_buying_volume_diff_ratio_rank klines 5 1 object_cold
          = (Raise (AssertionError msg), object_cold)) ∧
  (∃ msg, update_buying_volume_diff_ratio_rank klines 5 1 object_cold
          = (Raise (AssertionError msg), object_cold)).
Proof.
  assert (Hlarge : max_klines_num object_cold < 5 ∨ max_klines_num object_cold < 1)
    by (left; simpl; lia).
  split; [exact Hlarge |].
  exact (passes_refuse_large_sizes klines 5 1 object_cold Hlarge).
Defined.

Lemma refresh_pass_keeps_windows_witness :
  cache_items (cache_content object_ahead) !! "trading_pair_names"
    = Some ["BUSDT"; "AUSDT"] ∧
  same_windows object_ahead (update_buying_volume_diff_ratio_rank klines 3 1 object_ahead).2.
Proof.
  split; [reflexivity |].
  exact (refresh_pass_keeps_windows klines 3 1 ["BUSDT"; "AUSDT"] object_ahead _ _
           eq_refl (surjective_pairing _)).
Defined.

Lemma init_pass_caches_every_symbol_witness :
  (get_init_buying_volume_diff_ratio_rank klines 3 1 object_cold).1
    = Ok [("AUSDT", PFloat 1%Q); ("BUSDT", PFloat 0%Q)] ∧
  ∀ s, s ∈ tracked (cache_content object_cold) →
    ∃ window,
      pair_name_to_klines_dict
        (get_init_buying_volume_diff_ratio_rank klines 3 1 object_cold).2 !! s
        = Some window ∧
      max_klines_num (get_init_buying_volume_diff_ratio_rank klines 3 1 object_cold).2
        <= klines_num window.
Proof.
  split; [reflexivity |].
  refine (proj2 (init_pass_caches_every_symbol klines 3 1 object_cold _ _ _)).
  reflexivity.
Defined.

Lemma init_pass_on_cached_windows_witness :
  cache_items (cache_content object_ahead) !! "trading_pair_names"
    = Some ["BUSDT"; "AUSDT"] ∧
  (∀ s, s ∈ ["BUSDT"; "AUSDT"] → is_Some (pair_name_to_klines_dict object_ahead !! s)) ∧
  ∃ x, get_init_buying_volume_diff_ratio_rank klines 3 1 object_ahead = (x, object_ahead).
Proof.
  assert (Hall : ∀ s, s ∈ ["BUSDT"; "AUSDT"] →
                      is_Some (pair_name_to_klines_dict object_ahead !! s)).
  { intros s Hs. apply elem_of_cons in Hs as [-> | Hs]; [eexists; reflexivity |].
    apply elem_of_cons in Hs as [-> | Hs]; [eexists; reflexivity |].
    apply elem_of_nil in Hs. destruct Hs. }
  split; [reflexivity |]. split; [exact Hall |].
  exact (init_pass_on_cached_windows klines 3 1 ["BUSDT"; "AUSDT"] object_ahead
           eq_refl Hall).
Defined.

Lemma init_pass_aborts_on_fetch_failure_witness :
  cache_items (cache_content object_cold_down) !! "trading_pair_names"
    = Some ["AUSDT"; "DOWNUSDT"] ∧
  pair_name_to_klines_dict object_cold_down !! "DOWNUSDT" = None ∧
  (∀ w iv limit, ∃ e w', klines w "DOWNUSDT" iv limit = (Raise e, w')) ∧
  ∃ e self',
    get_init_buying_volume_diff_ratio_rank klines 3 1 object_cold_down = (Raise e, self') ∧
    keeps_windows object_cold_down self' ∧
    pair_name_to_klines_dict self' !! "DOWNUSDT" = None.
Proof.
  assert (Hdown : ∀ w iv limit, ∃ e w', klines w "DOWNUSDT" iv limit = (Raise e, w')).
  { intros w iv limit. eexists _, _. reflexivity. }
  split; [reflexivity |]. split; [reflexivity |]. split; [exact Hdown |].
  exact (init_pass_aborts_on_fetch_failure klines 3 1 ["AUSDT"; "DOWNUSDT"] "DOWNUSDT"
           object_cold_down eq_refl (or_intror (or_introl eq_refl)) eq_refl Hdown).
Defined.

Lemma init_body_short_history_witness :
  pair_name_to_klines_dict object_cold !! "AUSDT" = None ∧
  convert_klines_list_to_klines [row 0 59 "10"; row 60 119 "30"] = Ok window2 ∧
  Z.of_nat (length [row 0 59 "10"; row 60 119 "30"]) < max_klines_num object_cold ∧
  ∃ msg self1,
    init_rank_body klines_short "AUSDT" 1 1 object_cold = (Raise (AssertionError msg), self1) ∧
    pair_name_to_klines_dict self1 !! "AUSDT" = Some window2.
Proof.
  assert (Hshort : Z.of_nat (length [row 0 59 "10"; row 60 119 "30"])
                   < max_klines_num object_cold) by (simpl; lia).
  split; [reflexivity |]. split; [reflexivity |]. split; [exact Hshort |].
  exact (proj1 (init_body_short_history klines_short "AUSDT" 1 1
                  [row 0 59 "10"; row 60 119 "30"] window2 1%nat object_cold
                  eq_refl eq_refl eq_refl Hshort)).
Defined.

Lemma resolver_appends_exactly_witness :
  (∀ w, (exchange_info w).1 = Ok spot_listing) ∧
  (∀ w, (um_exchange_info w).1 = Ok um_listing) ∧
  readable (cache_content fresh_object) ∧
  ∃ self1 new,
    get_need_trading_pair_set exchange_info um_exchange_info fresh_object = (Ok tt, self1) ∧
    tracked (cache_content self1) = tracked (cache_content fresh_object) ++ new ∧
    ("SOLUSDT" ∈ new) ∧ ("ETHUSDT" ∉ new).
Proof.
  assert (Hspot : ∀ w, (exchange_info w).1 = Ok spot_listing) by (intros w; reflexivity).
  assert (Hum : ∀ w, (um_exchange_info w).1 = Ok um_listing) by (intros w; reflexivity).
  assert (Hread : readable (cache_content fresh_object)) by (right; reflexivity).
  split; [exact Hspot |]. split; [exact Hum |]. split; [exact Hread |].
  destruct (resolver_appends_exactly exchange_info um_exchange_info spot_listing um_listing
              fresh_object Hspot Hum Hread) as (self1 & new & Hrun & Htracked & _ & Hnew).
  exists self1, new. split; [exact Hrun |]. split; [exact Htracked |]. split.
  - apply Hnew. split; [apply not_elem_of_nil |]. split; [discriminate |].
    split; [exists "SOL"; reflexivity |]. split.
    + exists {| symbol := "SOLUSDT"; status := "TRADING" |}.
      split; [| split; reflexivity].
      do 3 apply list_elem_of_further. apply list_elem_of_here.
    + exists {| pair := "SOLUSDT" |}. split; [| reflexivity].
      apply list_elem_of_further, list_elem_of_here.
  - intros Hin. apply Hnew in Hin as (_ & _ & _ & (p & Hp & Hsym & Hstatus) & _).
    repeat (apply elem_of_cons in Hp as [-> | Hp]; [simpl in *; discriminate |]).
    apply elem_of_nil in Hp. destruct Hp.
Defined.

Lemma resolver_needs_the_key_witness :
  default_factory (cache_content object_keyless) = false ∧
  cache_items (cache_content object_keyless) !! "trading_pair_names" = None ∧
  ∃ self1,
    get_need_trading_pair_set exchange_info um_exchange_info object_keyless
      = (Raise (KeyError "trading_pair_names"), self1) ∧
    cache_file self1 = cache_file object_keyless.
Proof.
  split; [reflexivity |]. split; [reflexivity |].
  destruct (resolver_needs_the_key exchange_info um_exchange_info object_keyless
              eq_refl eq_refl) as (e & self1 & Hrun & _ & Hfile & _ & Hkey).
  rewrite (Hkey spot_listing um_listing 1%nat 2%nat eq_refl eq_refl) in Hrun.
  exists self1. split; [exact Hrun | exact Hfile].
Defined.

Lemma init_first_start_then_restart_witness :
  (∀ w, (exchange_info w).1 = Ok spot_listing) ∧
  (∀ w, (um_exchange_info w).1 = Ok um_listing) ∧
  ∃ self1,
    RankMaintainer_init exchange_info um_exchange_info HOUR1 4 0%nat None = (Ok tt, self1) ∧
    cache_file self1 !! "trading_pair_names" = Some (tracked (cache_content self1)) ∧
    ∃ self2,
      RankMaintainer_init exchange_info um_exchange_info MIN1 50 7%nat
        (Some (cache_file self1)) = (Ok tt, self2) ∧
      cache_file self2 = cache_file self1.
Proof.
  assert (Hspot : ∀ w, (exchange_info w).1 = Ok spot_listing) by (intros w; reflexivity).
  assert (Hum : ∀ w, (um_exchange_info w).1 = Ok um_listing) by (intros w; reflexivity).
  split; [exact Hspot |]. split; [exact Hum |].
  destruct (init_first_start_then_restart exchange_info um_exchange_info spot_listing
              um_listing HOUR1 4 0%nat Hspot Hum)
    as (self1 & Hrun & _ & Hfile & _ & Hagain).
  exists self1. split; [exact Hrun |]. split; [exact Hfile |].
  destruct (Hagain MIN1 50 7%nat) as (self2 & Hrun2 & _ & Hfile2 & _).
  exists self2. split; [exact Hrun2 | exact Hfile2].
Defined.

Lemma init_after_failed_first_start_witness :
  exchange_info_flaky 0%nat = (Raise (ClientError 503), 1%nat) ∧
  exchange_info_flaky 5%nat = (Ok spot_listing, 6%nat) ∧
  um_exchange_info 6%nat = (Ok um_listing, 7%nat) ∧
  (∃ self1,
     RankMaintainer_init exchange_info_flaky um_exchange_info HOUR1 4 0%nat None
       = (Raise (ClientError 503), self1) ∧
     cache_file self1 = ∅) ∧
  ∃ self2,
    RankMaintainer_init exchange_info_flaky um_exchange_info HOUR1 4 5%nat (Some ∅)
      = (Raise (KeyError "trading_pair_names"), self2) ∧
    cache_file self2 = ∅.
Proof.
  split; [reflexivity |]. split; [reflexivity |]. split; [reflexivity |].
  exact (init_after_failed_first_start (H:=runtime) exchange_info_flaky um_exchange_info
           spot_listing um_listing HOUR1 HOUR1 4 4 0%nat 1%nat 5%nat 6%nat 7%nat
           (ClientError 503) eq_refl eq_refl eq_refl).
Defined.


End Evaluations.
